(** * Browser capture and correlation tools of the web-automation skill

    A shallow embedding of the three capture scripts
    [network_inspector.py], [console_debugger.py] and
    [combined_debugger.py], followed by the properties of their
    filtering, buffering, correlation and report building.

    Conventions of the embedding:
    - a Python [dict] used as a map is a [gmap]; a [dict] used as a record
      is a Rocq record or a constructor of an inductive type, so that
      Python's [==] on such dicts is Leibniz equality;
    - a key that may be missing, or a value that may be [None], is an
      [option];
    - a Python [str] is a [string], one [ascii] standing for one character,
      so that [String.length] is Python's [len];
    - timestamps and offsets, which the scripts hold in floats, are exact
      integers ([Z], in the unit of the script); rounding is not modelled;
    - an event handler runs to completion before the next one starts;
    - [str.lower] and [re.search] belong to the Python runtime and are
      taken through the class [Runtime]. *)

From Stdlib Require Import ZArith QArith String Ascii List Bool Sorted Permutation Lia.
From stdpp Require Import base strings gmap list pretty.

Open Scope Z_scope.

(** ** Python built-ins *)

Module Py.

(** [sorted(l, key=...)]: Python guarantees a stable sort.  Elements are
    inserted from the right, each one in front of the first element whose
    key is not smaller, so equal keys keep their arrival order. *)
Section Sorted.
Context {A : Type} (key : A -> Z).

Fixpoint insert_by (x : A) (l : list A) : list A :=
  match l with
  | [] => [x]
  | y :: ys => if key x <=? key y then x :: y :: ys else y :: insert_by x ys
  end.

Fixpoint sorted (l : list A) : list A :=
  match l with
  | [] => []
  | x :: xs => insert_by x (sorted xs)
  end.

(** The elements of [l] whose key is [k], in the order of [l]. *)
Definition with_key (k : Z) (l : list A) : list A :=
  List.filter (fun e => key e =? k) l.
End Sorted.

(** [s[:k]] on a string, with Python's rule for a negative bound. *)
Definition slice_to (k : Z) (s : string) : string :=
  if k <? 0
  then String.substring 0 (Z.to_nat (Z.of_nat (String.length s) + k)) s
  else String.substring 0 (Z.to_nat k) s.

(** [x in l] for a string and a list or tuple of strings. *)
Definition str_in (x : string) (l : list string) : bool :=
  existsb (String.eqb x) l.

(** [str(n)] for a length. *)
Definition str_of_len (n : nat) : string := pretty n.

End Py.

(** The two runtime services the filters call. *)
Class Runtime := {
  str_lower : string -> string;          (* str.lower *)
  re_search : string -> string -> bool   (* re.compile(p).search(s) is not None *)
}.

(** ** network_inspector.py *)

Module NetworkInspector.

Definition Headers := list (string * string).

(** *** Payloads of the four [Network.*] protocol events *)

(** [params] of [Network.requestWillBeSent]; [now] is the clock reading the
    handler would take for a missing [wallTime]. *)
Record WillBeSent := {
  ws_requestId : string;
  ws_url : string;
  ws_method : string;
  ws_headers : option Headers;
  ws_postData : option string;
  ws_type : option string;
  ws_wallTime : option Z;
  ws_now : Z
}.

(** [response["timing"]]; a missing or empty dict is [None] one level up. *)
Record CdpTiming := {
  dnsStart : option Z; dnsEnd : option Z;
  connectStart : option Z; connectEnd : option Z;
  sslStart : option Z; sslEnd : option Z;
  receiveHeadersEnd : option Z
}.

Record Received := {
  rr_requestId : string;
  rr_status : Z;
  rr_statusText : option string;
  rr_headers : option Headers;
  rr_mimeType : option string;
  rr_remoteIPAddress : option string;
  rr_timing : option CdpTiming
}.

(** What [client.send("Network.getResponseBody", ...)] does for a request. *)
Inductive BodyFetch :=
| FetchOk (body : option string) (base64Encoded : option bool)
| FetchRaises.

Record Finished := {
  lf_requestId : string;
  lf_encodedDataLength : option Z;
  lf_fetch : BodyFetch
}.

Record Failed := {
  fl_requestId : string;
  fl_type : option string;
  fl_errorText : option string;
  fl_canceled : option bool;
  fl_blockedReason : option string;
  fl_corsErrorStatus : option string
}.

Inductive CdpEvent :=
| RequestWillBeSent (p : WillBeSent)
| ResponseReceived (p : Received)
| LoadingFinished (p : Finished)
| LoadingFailed (p : Failed).

(** *** The dicts the inspector stores *)

Record RequestPart := { rq_headers : Headers; rq_post_data : option string }.

Record Timing := { dns_ms : Z; connect_ms : Z; ssl_ms : Z; ttfb_ms : Z }.

Record Response := {
  status : Z;
  status_text : string;
  headers : Headers;
  mime_type : string;
  remote_address : option string
}.

Inductive Error :=
| LoadingError (type error_text : string) (canceled : bool)
               (blocked_reason cors_error : option string)
| NavigationError (error_text : string).

(** An entry of [self.requests]; the last four keys are set on termination.
    [r_response_body = Some None] is the key present with value [None]. *)
Record Request := {
  r_id : string;
  r_url : string;
  r_method : string;
  r_type : string;
  r_request : RequestPart;
  r_timestamp : Z;
  r_timing : option Timing;
  r_response : option Response;
  r_error : option Error;
  r_completed : option bool;
  r_encoded_data_length : option Z;
  r_response_body : option (option string);
  r_body_base64 : option bool
}.

(** An item of [self.completed]: a terminated request, or the entry that
    [capture] appends when navigation raises. *)
Inductive Entry :=
| RequestEntry (r : Request)
| NavigationEntry (url : string) (error_text : string).

Definition set_response (v : option Response) (r : Request) : Request :=
  {| r_id := r_id r; r_url := r_url r; r_method := r_method r; r_type := r_type r;
     r_request := r_request r; r_timestamp := r_timestamp r; r_timing := r_timing r;
     r_response := v; r_error := r_error r; r_completed := r_completed r;
     r_encoded_data_length := r_encoded_data_length r;
     r_response_body := r_response_body r; r_body_base64 := r_body_base64 r |}.

Definition set_timing (v : option Timing) (r : Request) : Request :=
  {| r_id := r_id r; r_url := r_url r; r_method := r_method r; r_type := r_type r;
     r_request := r_request r; r_timestamp := r_timestamp r; r_timing := v;
     r_response := r_response r; r_error := r_error r; r_completed := r_completed r;
     r_encoded_data_length := r_encoded_data_length r;
     r_response_body := r_response_body r; r_body_base64 := r_body_base64 r |}.

Definition set_error (v : option Error) (r : Request) : Request :=
  {| r_id := r_id r; r_url := r_url r; r_method := r_method r; r_type := r_type r;
     r_request := r_request r; r_timestamp := r_timestamp r; r_timing := r_timing r;
     r_response := r_response r; r_error := v; r_completed := r_completed r;
     r_encoded_data_length := r_encoded_data_length r;
     r_response_body := r_response_body r; r_body_base64 := r_body_base64 r |}.

Definition set_completed (v : option bool) (r : Request) : Request :=
  {| r_id := r_id r; r_url := r_url r; r_method := r_method r; r_type := r_type r;
     r_request := r_request r; r_timestamp := r_timestamp r; r_timing := r_timing r;
     r_response := r_response r; r_error := r_error r; r_completed := v;
     r_encoded_data_length := r_encoded_data_length r;
     r_response_body := r_response_body r; r_body_base64 := r_body_base64 r |}.

Definition set_encoded_data_length (v : option Z) (r : Request) : Request :=
  {| r_id := r_id r; r_url := r_url r; r_method := r_method r; r_type := r_type r;
     r_request := r_request r; r_timestamp := r_timestamp r; r_timing := r_timing r;
     r_response := r_response r; r_error := r_error r; r_completed := r_completed r;
     r_encoded_data_length := v;
     r_response_body := r_response_body r; r_body_base64 := r_body_base64 r |}.

Definition set_response_body (v : option (option string)) (r : Request) : Request :=
  {| r_id := r_id r; r_url := r_url r; r_method := r_method r; r_type := r_type r;
     r_request := r_request r; r_timestamp := r_timestamp r; r_timing := r_timing r;
     r_response := r_response r; r_error := r_error r; r_completed := r_completed r;
     r_encoded_data_length := r_encoded_data_length r;
     r_response_body := v; r_body_base64 := r_body_base64 r |}.

Definition set_body_base64 (v : option bool) (r : Request) : Request :=
  {| r_id := r_id r; r_url := r_url r; r_method := r_method r; r_type := r_type r;
     r_request := r_request r; r_timestamp := r_timestamp r; r_timing := r_timing r;
     r_response := r_response r; r_error := r_error r; r_completed := r_completed r;
     r_encoded_data_length := r_encoded_data_length r;
     r_response_body := r_response_body r; r_body_base64 := v |}.

(** [r.get("error")] and [r.get("response")] on an item of [completed]. *)
Definition entry_error (e : Entry) : option Error :=
  match e with
  | RequestEntry r => r_error r
  | NavigationEntry _ text => Some (NavigationError text)
  end.

(** *** The inspector object *)

Record Inspector := {
  filter_types : option (list string);
  url_pattern : option string;
  errors_only : bool;
  capture_bodies : bool;
  max_body_size : Z;
  requests : gmap string Request;
  completed : list Entry
}.

Definition set_requests (m : gmap string Request) (self : Inspector) : Inspector :=
  {| filter_types := filter_types self; url_pattern := url_pattern self;
     errors_only := errors_only self; capture_bodies := capture_bodies self;
     max_body_size := max_body_size self; requests := m;
     completed := completed self |}.

Definition set_completed_list (l : list Entry) (self : Inspector) : Inspector :=
  {| filter_types := filter_types self; url_pattern := url_pattern self;
     errors_only := errors_only self; capture_bodies := capture_bodies self;
     max_body_size := max_body_size self; requests := requests self;
     completed := l |}.

(** [__init__]: an empty pattern string is falsy and is not compiled. *)
Definition init (filter_types : option (list string)) (url_pattern : option string)
    (errors_only capture_bodies : bool) (max_body_size : Z) : Inspector :=
  {| filter_types := filter_types;
     url_pattern := match url_pattern with
                    | Some EmptyString | None => None
                    | Some p => Some p
                    end;
     errors_only := errors_only;
     capture_bodies := capture_bodies;
     max_body_size := max_body_size;
     requests := ∅;
     completed := [] |}.

Section Handlers.
Context `{Runtime}.

(** [_should_capture]: [if self.filter_types:] is false for [None] and
    for the empty list alike. *)
Definition should_capture (self : Inspector) (url resource_type : string) : bool :=
  let type_rejected :=
    match filter_types self with
    | Some (t :: ts) =>
        negb (Py.str_in (str_lower resource_type) (List.map str_lower (t :: ts)))
    | Some [] | None => false
    end in
  if type_rejected then false
  else match url_pattern self with
       | Some p => if negb (re_search p url) then false else true
       | None => true
       end.

(** [_on_request_will_be_sent]: the subscript assignment replaces whatever
    the map held under the id. *)
Definition on_request_will_be_sent (p : WillBeSent) (self : Inspector) : Inspector :=
  let request_id := ws_requestId p in
  let resource_type := default "Other"%string (ws_type p) in
  if negb (should_capture self (ws_url p) resource_type) then self
  else set_requests
         (<[request_id :=
              {| r_id := request_id;
                 r_url := ws_url p;
                 r_method := ws_method p;
                 r_type := resource_type;
                 r_request := {| rq_headers := default [] (ws_headers p);
                                 rq_post_data := ws_postData p |};
                 r_timestamp := default (ws_now p) (ws_wallTime p);
                 r_timing := None;
                 r_response := None;
                 r_error := None;
                 r_completed := None;
                 r_encoded_data_length := None;
                 r_response_body := None;
                 r_body_base64 := None |}]> (requests self))
         self.

Definition timing_of (t : CdpTiming) : Timing :=
  {| dns_ms := default 0 (dnsEnd t) - default 0 (dnsStart t);
     connect_ms := default 0 (connectEnd t) - default 0 (connectStart t);
     ssl_ms := default 0 (sslEnd t) - default 0 (sslStart t);
     ttfb_ms := default 0 (receiveHeadersEnd t) |}.

(** [_on_response_received] *)
Definition on_response_received (p : Received) (self : Inspector) : Inspector :=
  let request_id := rr_requestId p in
  match requests self !! request_id with
  | None => self
  | Some req =>
      let req1 :=
        set_response
          (Some {| status := rr_status p;
                   status_text := default ""%string (rr_statusText p);
                   headers := default [] (rr_headers p);
                   mime_type := default ""%string (rr_mimeType p);
                   remote_address := rr_remoteIPAddress p |}) req in
      let req2 :=
        match rr_timing p with
        | Some t => set_timing (Some (timing_of t)) req1
        | None => req1
        end in
      set_requests (<[request_id := req2]> (requests self)) self
  end.

(** The body kept for a fetched response body. *)
Definition truncate_body (max_body_size : Z) (body : string) : string :=
  if Z.of_nat (String.length body) >? max_body_size
  then Py.slice_to max_body_size body
       +:+ "... (truncated, total " +:+ Py.str_of_len (String.length body)
       +:+ " bytes)"
  else body.

(** [r.get("error") or (r.get("response", {}).get("status", 0) >= 400)].
    A request dict always has the key ["response"], so for a request
    without error and without response [get] returns [None] and the
    second [get] raises; the result is then [None].  The navigation
    entry has an error. *)
Definition is_error (e : Entry) : option bool :=
  match entry_error e with
  | Some _ => Some true
  | None =>
      match e with
      | RequestEntry r =>
          match r_response r with
          | Some resp => Some (status resp >=? 400)
          | None => None
          end
      | NavigationEntry _ _ => Some false
      end
  end.

(** [_on_loading_finished].  [self.client] is set by [capture] before any
    event arrives, so the body is fetched when [capture_bodies] is on.
    [req] aliases the dict held in [self.requests]: when the test before
    [append] raises, the handler stops there and the map keeps the dict as
    mutated so far. *)
Definition on_loading_finished (p : Finished) (self : Inspector) : Inspector :=
  let request_id := lf_requestId p in
  match requests self !! request_id with
  | None => self
  | Some req =>
      let req1 :=
        set_encoded_data_length (Some (default 0 (lf_encodedDataLength p)))
          (set_completed (Some true) req) in
      let req2 :=
        if capture_bodies self then
          match lf_fetch p with
          | FetchOk body base64Encoded =>
              set_body_base64 (Some (default false base64Encoded))
                (set_response_body
                   (Some (Some (truncate_body (max_body_size self)
                                  (default ""%string body)))) req1)
          | FetchRaises => set_response_body (Some None) req1
          end
        else req1 in
      let keep :=
        if negb (errors_only self) then Some true
        else is_error (RequestEntry req2) in
      match keep with
      | None => set_requests (<[request_id := req2]> (requests self)) self
      | Some k =>
          set_requests (delete request_id (requests self))
            (if k then set_completed_list (completed self ++ [RequestEntry req2]) self
             else self)
      end
  end.

(** [_on_loading_failed] *)
Definition on_loading_failed (p : Failed) (self : Inspector) : Inspector :=
  let request_id := fl_requestId p in
  match requests self !! request_id with
  | None => self
  | Some req =>
      let req1 :=
        set_completed (Some false)
          (set_error
             (Some (LoadingError (default "Unknown"%string (fl_type p))
                      (default ""%string (fl_errorText p))
                      (default false (fl_canceled p))
                      (fl_blockedReason p) (fl_corsErrorStatus p))) req) in
      set_requests (delete request_id (requests self))
        (set_completed_list (completed self ++ [RequestEntry req1]) self)
  end.

(** The handler registered for each event name.  [Network.loadingFinished]
    is registered as [lambda p: asyncio.create_task(...)]: the event only
    schedules [_on_loading_finished], which the event loop runs later.  An
    item [LoadingFinished p] of a run of events stands for the run of that
    coroutine, at the place of the run where the loop executes it, and its
    body is taken as one step: no other handler runs while the fetch of the
    response body is awaited. *)
Definition handle (self : Inspector) (ev : CdpEvent) : Inspector :=
  match ev with
  | RequestWillBeSent p => on_request_will_be_sent p self
  | ResponseReceived p => on_response_received p self
  | LoadingFinished p => on_loading_finished p self
  | LoadingFailed p => on_loading_failed p self
  end.

(** Events delivered in order while [capture] is suspended. *)
Definition deliver (evs : list CdpEvent) (self : Inspector) : Inspector :=
  fold_left handle evs self.

End Handlers.

(** *** [capture] and the report *)

(** What the browser does during one [capture]: the events delivered while
    [page.goto] is awaited and whether it raises, then the events delivered
    during the wait for network idle and during [asyncio.sleep]. *)
Record Env := {
  goto_events : list CdpEvent;
  goto_raises : option string;
  idle_events : list CdpEvent;
  sleep_events : list CdpEvent
}.

(** The awaits [capture] performs, in order. *)
Inductive Action :=
| Goto
| WaitForIdle
| Sleep (duration : Q)
| Close.

Record StatusCounts := {
  c2xx : nat; c3xx : nat; c4xx : nat; c5xx : nat; failed : nat
}.

Record Filters := {
  f_types : option (list string);
  f_url_pattern : option string;
  f_errors_only : bool
}.

(** The metadata without its two fields that no handler or input decides,
    the wall-clock [timestamp] and the constant [browser]. *)
Record Metadata := {
  m_url : string;
  m_duration_seconds : Q;
  m_filters : Filters
}.

Record Summary := {
  total : nat;
  errors : nat;
  by_type : gmap string nat;
  by_status : StatusCounts
}.

Record Report := {
  metadata : Metadata;
  data : list Entry;
  summary : Summary
}.

(** The result of a run of [capture]: the awaits performed, the object
    afterwards, and the returned dict ([None] when building it raised). *)
Record Outcome := {
  trace : list Action;
  final : Inspector;
  report : option Report
}.

Definition entry_type (e : Entry) : string :=
  match e with
  | RequestEntry r => r_type r
  | NavigationEntry _ _ => "Other"
  end.

(** [_count_by_type] *)
Definition count_by_type (self : Inspector) : gmap string nat :=
  fold_left
    (fun counts req =>
       let req_type := entry_type req in
       <[req_type := (default 0 (counts !! req_type) + 1)%nat]> counts)
    (completed self) ∅.

(** The body of the loop of [_count_by_status]. *)
Definition count_status (counts : StatusCounts) (req : Entry) : StatusCounts :=
  match entry_error req with
  | Some _ =>
      {| c2xx := c2xx counts; c3xx := c3xx counts; c4xx := c4xx counts;
         c5xx := c5xx counts; failed := failed counts + 1 |}
  | None =>
      match req with
      | RequestEntry {| r_response := Some resp |} =>
          let status := status resp in
          if (200 <=? status) && (status <? 300) then
            {| c2xx := c2xx counts + 1; c3xx := c3xx counts; c4xx := c4xx counts;
               c5xx := c5xx counts; failed := failed counts |}
          else if (300 <=? status) && (status <? 400) then
            {| c2xx := c2xx counts; c3xx := c3xx counts + 1; c4xx := c4xx counts;
               c5xx := c5xx counts; failed := failed counts |}
          else if (400 <=? status) && (status <? 500) then
            {| c2xx := c2xx counts; c3xx := c3xx counts; c4xx := c4xx counts + 1;
               c5xx := c5xx counts; failed := failed counts |}
          else if status >=? 500 then
            {| c2xx := c2xx counts; c3xx := c3xx counts; c4xx := c4xx counts;
               c5xx := c5xx counts + 1; failed := failed counts |}
          else counts
      | _ => counts
      end
  end.

(** [_count_by_status] *)
Definition count_by_status (self : Inspector) : StatusCounts :=
  fold_left count_status (completed self)
    {| c2xx := 0; c3xx := 0; c4xx := 0; c5xx := 0; failed := 0 |}.

Section Capture.
Context `{Runtime}.

(** [sum(1 for r in self.completed if ...)]; [None] when the test raises
    on some item. *)
Fixpoint error_count (l : list Entry) : option nat :=
  match l with
  | [] => Some O
  | r :: rest =>
      match is_error r with
      | None => None
      | Some b =>
          match error_count rest with
          | None => None
          | Some n => Some (if b then S n else n)
          end
      end
  end.

(** The statements of [capture] after the [async with] block. *)
Definition build_report (self : Inspector) (url : string) (duration : Q)
    : option Report :=
  match error_count (completed self) with
  | None => None
  | Some error_count =>
      Some {| metadata :=
                {| m_url := url;
                   m_duration_seconds := duration;
                   m_filters := {| f_types := filter_types self;
                                   f_url_pattern := url_pattern self;
                                   f_errors_only := errors_only self |} |};
              data := completed self;
              summary := {| total := length (completed self);
                            errors := error_count;
                            by_type := count_by_type self;
                            by_status := count_by_status self |} |}
  end.

(** [capture]: [goto], the wait for idle and the sleep share one [try];
    an exception of [goto] skips the rest of the block, is recorded by
    the [except] clause, and the browser is closed either way.  No handler
    is taken to run while [browser.close()] is awaited. *)
Definition capture (self : Inspector) (url : string) (duration : Q)
    (wait_for_idle : bool) (env : Env) : Outcome :=
  let s1 := deliver (goto_events env) self in
  let '(s2, awaited) :=
    match goto_raises env with
    | Some e =>
        (set_completed_list (completed s1 ++ [NavigationEntry url e]) s1, [Goto])
    | None =>
        let '(s, tr) :=
          if wait_for_idle
          then (deliver (idle_events env) s1, [Goto; WaitForIdle])
          else (s1, [Goto]) in
        (deliver (sleep_events env) s, tr ++ [Sleep duration])
    end in
  {| trace := awaited ++ [Close];
     final := s2;
     report := build_report s2 url duration |}.

End Capture.

End NetworkInspector.

(** ** console_debugger.py *)

Module ConsoleDebugger.

(** *** Payloads of the two [Runtime.*] protocol events

    [_format_remote_object] followed by [str] only reshapes the arguments
    of a console call; the event carries the formatted arguments. *)

Record CallFrame := {
  functionName : option string;
  cf_url : option string;
  lineNumber : option Z;
  columnNumber : option Z
}.

Record ConsoleAPICalled := {
  ca_type : option string;
  ca_args : list string;
  ca_timestamp : option Z;
  ca_stackTrace : option (list CallFrame);
  ca_now : Z
}.

Record ExceptionThrown := {
  et_exceptionId : option Z;
  et_text : option string;
  et_description : option string;
  et_lineNumber : option Z;
  et_columnNumber : option Z;
  et_url : option string;
  et_stackTrace : option (list CallFrame);
  et_timestamp : option Z;
  et_now : Z
}.

Inductive RuntimeEvent :=
| ConsoleCall (p : ConsoleAPICalled)
| ExceptionEvent (p : ExceptionThrown).

(** *** Stored entries *)

Record Frame := {
  function : string;
  file : string;
  line : Z;
  column : Z
}.

Inductive Entry :=
| Message (type level text : string) (args : list string)
          (timestamp : option Z) (stack : option (list Frame))
| Exception (exception_id : option Z) (text description : string)
            (line column : Z) (url : string)
            (timestamp : option Z) (stack : option (list Frame))
| NavigationError (text description : string).

(** [entry.get("level", "info")] *)
Definition level_of (e : Entry) : string :=
  match e with
  | Message _ level _ _ _ _ => level
  | Exception _ _ _ _ _ _ _ _ => "error"
  | NavigationError _ _ => "error"
  end.

(** [x.get("timestamp", 0)], the sort key. *)
Definition timestamp_key (e : Entry) : Z :=
  match e with
  | Message _ _ _ _ (Some t) _ => t
  | Exception _ _ _ _ _ _ (Some t) _ => t
  | _ => 0
  end.

Record Debugger := {
  errors_only : bool;
  with_stack_traces : bool;
  include_timestamps : bool;
  messages : list Entry;
  exceptions : list Entry
}.

Definition init (errors_only with_stack_traces include_timestamps : bool) : Debugger :=
  {| errors_only := errors_only;
     with_stack_traces := with_stack_traces;
     include_timestamps := include_timestamps;
     messages := [];
     exceptions := [] |}.

(** [_format_stack_trace] *)
Definition format_stack_trace (frames : list CallFrame) : list Frame :=
  List.map
    (fun frame =>
       {| function := default "(anonymous)"%string (functionName frame);
          file := default ""%string (cf_url frame);
          line := default 0 (lineNumber frame) + 1;
          column := default 0 (columnNumber frame) + 1 |})
    frames.

(** [_type_to_level]: the table and its [get] with default ["info"]. *)
Definition mapping : list (string * string) :=
  [ ("log", "info"); ("info", "info"); ("debug", "debug");
    ("warning", "warning"); ("warn", "warning"); ("error", "error");
    ("assert", "error"); ("trace", "debug"); ("dir", "info");
    ("dirxml", "info"); ("table", "info"); ("count", "info");
    ("timeEnd", "info"); ("group", "info"); ("groupCollapsed", "info");
    ("groupEnd", "info"); ("clear", "info") ]%string.

Fixpoint dict_get (k : string) (d : list (string * string)) : option string :=
  match d with
  | [] => None
  | (k', v) :: rest => if String.eqb k k' then Some v else dict_get k rest
  end.

Definition type_to_level (msg_type : string) : string :=
  default "info"%string (dict_get msg_type mapping).

(** [" ".join(...)] *)
Fixpoint join_space (l : list string) : string :=
  match l with
  | [] => ""
  | [s] => s
  | s :: rest => s +:+ " " +:+ join_space rest
  end.

(** [_on_console_api_called] *)
Definition on_console_api_called (p : ConsoleAPICalled) (self : Debugger) : Debugger :=
  let msg_type := default "log"%string (ca_type p) in
  if errors_only self
     && negb (Py.str_in msg_type ["error"; "warning"; "assert"]%string)
  then self
  else
    let message :=
      Message msg_type (type_to_level msg_type) (join_space (ca_args p)) (ca_args p)
        (if include_timestamps self
         then Some (default (ca_now p) (ca_timestamp p)) else None)
        (if with_stack_traces self
         then format_stack_trace <$> ca_stackTrace p else None) in
    {| errors_only := errors_only self;
       with_stack_traces := with_stack_traces self;
       include_timestamps := include_timestamps self;
       messages := messages self ++ [message];
       exceptions := exceptions self |}.

Definition append_exception (e : Entry) (self : Debugger) : Debugger :=
  {| errors_only := errors_only self;
     with_stack_traces := with_stack_traces self;
     include_timestamps := include_timestamps self;
     messages := messages self;
     exceptions := exceptions self ++ [e] |}.

(** [_on_exception_thrown]: no test on [errors_only]. *)
Definition on_exception_thrown (p : ExceptionThrown) (self : Debugger) : Debugger :=
  append_exception
    (Exception (et_exceptionId p)
       (default ""%string (et_text p))
       (default ""%string (et_description p))
       (default 0 (et_lineNumber p) + 1)
       (default 0 (et_columnNumber p) + 1)
       (default ""%string (et_url p))
       (if include_timestamps self
        then Some (default (et_now p) (et_timestamp p)) else None)
       (if with_stack_traces self
        then format_stack_trace <$> et_stackTrace p else None))
    self.

Definition handle (self : Debugger) (ev : RuntimeEvent) : Debugger :=
  match ev with
  | ConsoleCall p => on_console_api_called p self
  | ExceptionEvent p => on_exception_thrown p self
  end.

Definition deliver (evs : list RuntimeEvent) (self : Debugger) : Debugger :=
  fold_left handle evs self.

(** *** [capture] and the report *)

Record Env := {
  goto_events : list RuntimeEvent;
  goto_raises : option string;
  idle_events : list RuntimeEvent;
  sleep_events : list RuntimeEvent
}.

Inductive Action :=
| Goto
| WaitForIdle
| Sleep (duration : Q)
| Close.

Record Summary := {
  total : nat;
  n_messages : nat;
  n_exceptions : nat;
  by_level : gmap string nat;
  errors : nat;
  warnings : nat
}.

(** The returned dict, the metadata flattened into its first four fields. *)
Record Report := {
  m_url : string;
  m_duration_seconds : Q;
  m_errors_only : bool;
  m_with_stack_traces : bool;
  data : list Entry;
  summary : Summary
}.

Record Outcome := {
  trace : list Action;
  final : Debugger;
  report : Report
}.

(** [_count_by_level] *)
Definition count_by_level (entries : list Entry) : gmap string nat :=
  fold_left
    (fun counts entry =>
       let level := level_of entry in
       <[level := (default 0 (counts !! level) + 1)%nat]> counts)
    entries ∅.

(** [sum(1 for e in all_entries if e.get("level") == l)] *)
Definition count_level (l : string) (entries : list Entry) : nat :=
  length (List.filter (fun e => String.eqb (level_of e) l) entries).

(** The statements of [capture] after the [async with] block. *)
Definition build_report (self : Debugger) (url : string) (duration : Q) : Report :=
  let all_entries := Py.sorted timestamp_key (messages self ++ exceptions self) in
  {| m_url := url;
     m_duration_seconds := duration;
     m_errors_only := errors_only self;
     m_with_stack_traces := with_stack_traces self;
     data := all_entries;
     summary := {| total := length all_entries;
                   n_messages := length (messages self);
                   n_exceptions := length (exceptions self);
                   by_level := count_by_level all_entries;
                   errors := count_level "error" all_entries;
                   warnings := count_level "warning" all_entries |} |}.

(** [capture]: same [try] block as the network inspector. *)
Definition capture (self : Debugger) (url : string) (duration : Q)
    (wait_for_idle : bool) (env : Env) : Outcome :=
  let s1 := deliver (goto_events env) self in
  let '(s2, awaited) :=
    match goto_raises env with
    | Some e =>
        (append_exception
           (NavigationError ("Navigation failed: " +:+ e) e) s1, [Goto])
    | None =>
        let '(s, tr) :=
          if wait_for_idle
          then (deliver (idle_events env) s1, [Goto; WaitForIdle])
          else (s1, [Goto]) in
        (deliver (sleep_events env) s, tr ++ [Sleep duration])
    end in
  {| trace := awaited ++ [Close];
     final := s2;
     report := build_report s2 url duration |}.

End ConsoleDebugger.

(** ** combined_debugger.py *)

Module CombinedDebugger.

Definition Headers := list (string * string).

(** *** Playwright objects passed to the page handlers

    [ident] is [id(request)], the key of [self.requests]. *)
Record RequestObj := {
  ident : Z;
  q_url : string;
  q_method : string;
  q_resource_type : string;
  q_headers : Headers
}.

Record ResponseObj := {
  p_request : RequestObj;
  p_status : Z;
  p_headers : Headers;
  p_url : string
}.

Record ConsoleMsg := { msg_type : string; msg_text : string }.

(** A page event with the clock reading (ms) its handler takes. *)
Inductive PageEvent :=
| OnRequest (request : RequestObj) (now : Z)
| OnResponse (response : ResponseObj) (now : Z)
| OnRequestFailed (request : RequestObj) (now : Z)
| OnConsole (msg : ConsoleMsg) (now : Z)
| OnPageError (error : string) (now : Z).

(** *** Stored data *)

(** An item of [self.events], one constructor per dict shape. *)
Inductive Event :=
| Request (timestamp_ms : Z) (url method resource_type : string)
| Response (timestamp_ms : Z) (url : string) (status : Z) (is_error : bool)
| RequestFailed (timestamp_ms : Z) (url method : string)
| Console (timestamp_ms : Z) (level text : string)
| PageError (timestamp_ms : Z) (error : string)
| NavigationError (timestamp_ms : Z) (error : string).

#[global] Instance Event_eq_dec : EqDecision Event.
Proof. solve_decision. Defined.

(** [e["type"]] *)
Definition type_of (e : Event) : string :=
  match e with
  | Request _ _ _ _ => "request"
  | Response _ _ _ _ => "response"
  | RequestFailed _ _ _ => "request_failed"
  | Console _ _ _ => "console"
  | PageError _ _ => "page_error"
  | NavigationError _ _ => "navigation_error"
  end.

(** [e["timestamp_ms"]] *)
Definition timestamp_ms (e : Event) : Z :=
  match e with
  | Request t _ _ _ | Response t _ _ _ | RequestFailed t _ _
  | Console t _ _ | PageError t _ | NavigationError t _ => t
  end.

(** An entry of [self.requests]. *)
Record RequestData := {
  d_id : string;
  d_url : string;
  d_method : string;
  d_type : string;
  d_headers : Headers;
  d_timestamp_ms : Z;
  d_status : option Z;
  d_response_headers : option Headers;
  d_timestamp_response_ms : option Z
}.

Record Debugger := {
  filter_types : option (list string);
  url_pattern : option string;
  errors_only : bool;
  capture_bodies : bool;
  max_body_size : Z;
  requests : gmap Z RequestData;
  events : list Event;
  start_time : Z
}.

Definition init (filter_types : option (list string)) (url_pattern : option string)
    (errors_only capture_bodies : bool) (max_body_size : Z) : Debugger :=
  {| filter_types := filter_types;
     url_pattern := match url_pattern with
                    | Some EmptyString | None => None
                    | Some p => Some p
                    end;
     errors_only := errors_only;
     capture_bodies := capture_bodies;
     max_body_size := max_body_size;
     requests := ∅;
     events := [];
     start_time := 0 |}.

Definition set_requests (m : gmap Z RequestData) (self : Debugger) : Debugger :=
  {| filter_types := filter_types self; url_pattern := url_pattern self;
     errors_only := errors_only self; capture_bodies := capture_bodies self;
     max_body_size := max_body_size self; requests := m;
     events := events self; start_time := start_time self |}.

Definition append_event (e : Event) (self : Debugger) : Debugger :=
  {| filter_types := filter_types self; url_pattern := url_pattern self;
     errors_only := errors_only self; capture_bodies := capture_bodies self;
     max_body_size := max_body_size self; requests := requests self;
     events := events self ++ [e]; start_time := start_time self |}.

Definition set_start_time (t : Z) (self : Debugger) : Debugger :=
  {| filter_types := filter_types self; url_pattern := url_pattern self;
     errors_only := errors_only self; capture_bodies := capture_bodies self;
     max_body_size := max_body_size self; requests := requests self;
     events := events self; start_time := t |}.

(** [_get_timestamp_offset] *)
Definition get_timestamp_offset (self : Debugger) (ms : option Z) : Z :=
  match ms with
  | None => 0
  | Some ms => ms - start_time self
  end.

Section Handlers.
Context `{Runtime}.

(** [_should_capture_request] *)
Definition should_capture_request (self : Debugger) (url resource_type : string)
    : bool :=
  let type_rejected :=
    match filter_types self with
    | Some (t :: ts) =>
        negb (Py.str_in (str_lower resource_type)
                (List.map str_lower (t :: ts)))
    | Some [] | None => false
    end in
  if type_rejected then false
  else match url_pattern self with
       | Some p => if negb (re_search p url) then false else true
       | None => true
       end.

(** [_on_request] *)
Definition on_request (request : RequestObj) (now : Z) (self : Debugger)
    : Debugger :=
  let url := q_url request in
  let resource_type := q_resource_type request in
  let request_id := ident request in
  if negb (should_capture_request self url resource_type) then self
  else
    let timestamp := get_timestamp_offset self (Some now) in
    append_event (Request timestamp url (q_method request) resource_type)
      (set_requests
         (<[request_id :=
              {| d_id := pretty request_id;
                 d_url := url;
                 d_method := q_method request;
                 d_type := resource_type;
                 d_headers := q_headers request;
                 d_timestamp_ms := timestamp;
                 d_status := None;
                 d_response_headers := None;
                 d_timestamp_response_ms := None |}]> (requests self))
         self).

(** [_on_response] *)
Definition on_response (response : ResponseObj) (now : Z) (self : Debugger)
    : Debugger :=
  let request_id := ident (p_request response) in
  match requests self !! request_id with
  | None => self
  | Some req_data =>
      let timestamp := get_timestamp_offset self (Some now) in
      let status := p_status response in
      let req_data' :=
        {| d_id := d_id req_data; d_url := d_url req_data;
           d_method := d_method req_data; d_type := d_type req_data;
           d_headers := d_headers req_data;
           d_timestamp_ms := d_timestamp_ms req_data;
           d_status := Some status;
           d_response_headers := Some (p_headers response);
           d_timestamp_response_ms := Some timestamp |} in
      let is_error := status >=? 400 in
      append_event (Response timestamp (p_url response) status is_error)
        (set_requests (<[request_id := req_data']> (requests self)) self)
  end.

(** [_on_request_failed] *)
Definition on_request_failed (request : RequestObj) (now : Z) (self : Debugger)
    : Debugger :=
  let request_id := ident request in
  match requests self !! request_id with
  | None => self
  | Some _ =>
      let timestamp := get_timestamp_offset self (Some now) in
      append_event (RequestFailed timestamp (q_url request) (q_method request)) self
  end.

(** [_on_console] *)
Definition on_console (msg : ConsoleMsg) (now : Z) (self : Debugger) : Debugger :=
  if errors_only self
     && negb (Py.str_in (msg_type msg) ["error"; "warning"]%string)
  then self
  else
    let timestamp := get_timestamp_offset self (Some now) in
    append_event (Console timestamp (msg_type msg) (msg_text msg)) self.

(** [_on_page_error] *)
Definition on_page_error (error : string) (now : Z) (self : Debugger) : Debugger :=
  let timestamp := get_timestamp_offset self (Some now) in
  append_event (PageError timestamp error) self.

Definition handle (self : Debugger) (ev : PageEvent) : Debugger :=
  match ev with
  | OnRequest request now => on_request request now self
  | OnResponse response now => on_response response now self
  | OnRequestFailed request now => on_request_failed request now self
  | OnConsole msg now => on_console msg now self
  | OnPageError error now => on_page_error error now self
  end.

Definition deliver (evs : list PageEvent) (self : Debugger) : Debugger :=
  fold_left handle evs self.

End Handlers.

(** *** Correlation and report *)

(** An item of [correlated_events]: a copy of the event, with the key
    ["related_events"] when it was set. *)
Record Correlated := {
  event : Event;
  related_events : option (list Event)
}.

Record Summary := {
  total_events : nat;
  n_requests : nat;
  n_responses : nat;
  errors : nat;
  console_messages : nat
}.

(** The returned dict; its [metadata] holds constants and the wall clock
    only and is left out. *)
Record Report := {
  events_out : list Correlated;
  summary : Summary
}.

(** The list comprehension [nearby]; [e != event] compares the dicts. *)
Definition nearby (sorted_events : list Event) (event : Event) : list Event :=
  List.filter
    (fun e => (Z.abs (timestamp_ms e - timestamp_ms event) <=? 100)
              && bool_decide (e ≠ event))
    sorted_events.

(** The body of the correlation loop. *)
Definition correlate (sorted_events : list Event) (event : Event) : Correlated :=
  if Py.str_in (type_of event) ["page_error"; "request_failed"]%string
  then
    match nearby sorted_events event with
    | [] => {| event := event; related_events := None |}
    | n :: ns => {| event := event; related_events := Some (n :: ns) |}
    end
  else {| event := event; related_events := None |}.

Definition count_types (types : list string) (l : list Correlated) : nat :=
  length (List.filter (fun e => Py.str_in (type_of (event e)) types) l).

(** [_build_output] *)
Definition build_output (self : Debugger) : Report :=
  let sorted_events := Py.sorted timestamp_ms (events self) in
  let correlated_events := List.map (correlate sorted_events) sorted_events in
  {| events_out := correlated_events;
     summary :=
       {| total_events := length correlated_events;
          n_requests := count_types ["request"]%string correlated_events;
          n_responses := count_types ["response"]%string correlated_events;
          errors := count_types ["page_error"; "request_failed"]%string
                      correlated_events;
          console_messages := count_types ["console"]%string correlated_events |} |}.

(** *** [capture] *)

(** The clock reading at the start, the events delivered while [page.goto]
    is awaited, whether it raises (with the clock reading of the [except]
    clause), and the events delivered during [asyncio.sleep]. *)
Record Env := {
  clock_start : Z;
  goto_events : list PageEvent;
  goto_raises : option (string * Z);
  sleep_events : list PageEvent
}.

Inductive Action :=
| Goto
| Sleep (duration : Z)
| CloseContext
| CloseBrowser.

Record Outcome := {
  trace : list Action;
  final : Debugger;
  report : Report
}.

Section Capture.
Context `{Runtime}.

(** [capture]: only [goto] is inside the [try]; the sleep follows it. *)
Definition capture (self : Debugger) (url : string) (duration : Z) (env : Env)
    : Outcome :=
  let s0 := set_start_time (clock_start env) self in
  let s1 := deliver (goto_events env) s0 in
  let s2 :=
    match goto_raises env with
    | Some (e, now) =>
        append_event (NavigationError (get_timestamp_offset s1 (Some now)) e) s1
    | None => s1
    end in
  let s3 := deliver (sleep_events env) s2 in
  {| trace := [Goto; Sleep duration; CloseContext; CloseBrowser];
     final := s3;
     report := build_output s3 |}.

End Capture.

End CombinedDebugger.

(** ** A concrete runtime

    ASCII lower-casing and substring search (a pattern without
    metacharacters), to run the definitions on examples. *)

Module Ascii_runtime.

Definition lower_char (c : ascii) : ascii :=
  let n := nat_of_ascii c in
  if ((65 <=? n) && (n <=? 90))%nat then ascii_of_nat (n + 32) else c.

Fixpoint lower (s : string) : string :=
  match s with
  | EmptyString => EmptyString
  | String c s' => String (lower_char c) (lower s')
  end.

Fixpoint search (p s : string) : bool :=
  String.prefix p s
  || match s with
     | EmptyString => false
     | String _ s' => search p s'
     end.

#[export] Instance runtime : Runtime :=
  {| str_lower := lower; re_search := search |}.

End Ascii_runtime.

Import Ascii_runtime.

(** ** Sample payloads and objects *)

Module Sample.

Import NetworkInspector.

Definition will_be_sent (id url type : string) : WillBeSent :=
  {| ws_requestId := id; ws_url := url; ws_method := "GET";
     ws_headers := None; ws_postData := None; ws_type := Some type;
     ws_wallTime := Some 1700000000; ws_now := 1700000000 |}.

Definition received (id : string) (status : Z) : Received :=
  {| rr_requestId := id; rr_status := status; rr_statusText := None;
     rr_headers := None; rr_mimeType := None; rr_remoteIPAddress := None;
     rr_timing := None |}.

Definition finished (id : string) (fetch : BodyFetch) : Finished :=
  {| lf_requestId := id; lf_encodedDataLength := Some 120; lf_fetch := fetch |}.

Definition loading_failed (id : string) : Failed :=
  {| fl_requestId := id; fl_type := Some "XHR"%string;
     fl_errorText := Some "net::ERR_FAILED"%string; fl_canceled := None;
     fl_blockedReason := None; fl_corsErrorStatus := None |}.

(** [NetworkInspector()] with the defaults of [__init__]. *)
Definition inspector : Inspector := init None None false false 10240.

(** A page that loads and issues one request that is answered. *)
Definition one_request_env : Env :=
  {| goto_events :=
       [RequestWillBeSent (will_be_sent "1" "http://localhost:3000/api/items" "XHR");
        ResponseReceived (received "1" 200);
        LoadingFinished (finished "1" FetchRaises)];
     goto_raises := None;
     idle_events := [];
     sleep_events := [] |}.

(** A page that loads and issues one request that is never answered. *)
Definition unanswered_env : Env :=
  {| goto_events :=
       [RequestWillBeSent (will_be_sent "1" "http://localhost:3000/api/items" "XHR")];
     goto_raises := None;
     idle_events := [];
     sleep_events := [] |}.

(** A navigation that times out; the page would have issued a request
    during the observation window. *)
Definition failed_navigation_env : Env :=
  {| goto_events := [];
     goto_raises := Some "Timeout 30000ms exceeded"%string;
     idle_events := [];
     sleep_events :=
       [RequestWillBeSent (will_be_sent "1" "http://localhost:3000/api/items" "XHR");
        LoadingFailed (loading_failed "1")] |}.

End Sample.

(** ** Vocabulary of the properties *)

(** The sum of the five status counters. *)
Definition sum_counts (c : NetworkInspector.StatusCounts) : nat :=
  (NetworkInspector.c2xx c + NetworkInspector.c3xx c + NetworkInspector.c4xx c
   + NetworkInspector.c5xx c + NetworkInspector.failed c)%nat.

(** An item of [completed] that carries an error, or else a response whose
    status is 200 or more. *)
Definition has_status_class (e : NetworkInspector.Entry) : bool :=
  match NetworkInspector.entry_error e with
  | Some _ => true
  | None =>
      match e with
      | NetworkInspector.RequestEntry r =>
          match NetworkInspector.r_response r with
          | Some resp => 200 <=? NetworkInspector.status resp
          | None => false
          end
      | NetworkInspector.NavigationEntry _ _ => false
      end
  end.


(** Two request dicts with the same id, URL and resource type. *)
Definition same_request (r r' : NetworkInspector.Request) : Prop :=
  NetworkInspector.r_id r = NetworkInspector.r_id r'
  /\ NetworkInspector.r_url r = NetworkInspector.r_url r'
  /\ NetworkInspector.r_type r = NetworkInspector.r_type r'.

(** The request id of a terminal event: loading finished or failed. *)
Definition terminal_id (ev : NetworkInspector.CdpEvent) : option string :=
  match ev with
  | NetworkInspector.LoadingFinished p => Some (NetworkInspector.lf_requestId p)
  | NetworkInspector.LoadingFailed p => Some (NetworkInspector.fl_requestId p)
  | _ => None
  end.

(** Every key of [self.requests] is the id of the dict it maps to. *)
Definition keys_are_ids (self : NetworkInspector.Inspector) : Prop :=
  forall k r, NetworkInspector.requests self !! k = Some r ->
              NetworkInspector.r_id r = k.

(** The events [capture] lets the handlers see, in order: an exception of
    [goto] leaves out those of the two later waits. *)
Definition delivered (wait_for_idle : bool) (env : NetworkInspector.Env)
    : list NetworkInspector.CdpEvent :=
  (NetworkInspector.goto_events env
   ++ match NetworkInspector.goto_raises env with
      | Some _ => []
      | None =>
          (if wait_for_idle then NetworkInspector.idle_events env else [])
          ++ NetworkInspector.sleep_events env
      end)%list.


(** The resource-type test of the filters: no list, an empty list, or a
    list that holds the type up to case. *)
Definition allowlist_admits `{Runtime} (filter_types : option (list string))
    (resource_type : string) : Prop :=
  match filter_types with
  | None => True
  | Some ts => ts = [] \/ In (str_lower resource_type) (List.map str_lower ts)
  end.

(** The URL test of the filters: no pattern, or a pattern found in the URL. *)
Definition pattern_admits `{Runtime} (url_pattern : option string) (url : string)
    : Prop :=
  match url_pattern with
  | None => True
  | Some p => re_search p url = true
  end.

(** A request dict the inspector holds, pending or completed. *)
Definition stored (self : NetworkInspector.Inspector) (r : NetworkInspector.Request)
    : Prop :=
  In (NetworkInspector.RequestEntry r) (NetworkInspector.completed self)
  \/ exists k, NetworkInspector.requests self !! k = Some r.


(** ** Sample runs of the combined and console debuggers *)

Module Sample_pages.

(** [CombinedDebugger()] with the defaults of [__init__]. *)
Definition debugger : CombinedDebugger.Debugger :=
  CombinedDebugger.init None None false false 10240.

(** A navigation that fails 0 ms after the start, and a console message
    10 ms later, during the sleep. *)
Definition failed_navigation_env : CombinedDebugger.Env :=
  {| CombinedDebugger.clock_start := 1000;
     CombinedDebugger.goto_events := [];
     CombinedDebugger.goto_raises := Some ("net::ERR_CONNECTION_REFUSED"%string, 1000);
     CombinedDebugger.sleep_events :=
       [CombinedDebugger.OnConsole
          {| CombinedDebugger.msg_type := "log"; CombinedDebugger.msg_text := "retrying" |}
          1010] |}.

(** A page error at 50 ms, a console error at 60 ms and a late message. *)
Definition page_error_env : CombinedDebugger.Env :=
  {| CombinedDebugger.clock_start := 1000;
     CombinedDebugger.goto_events :=
       [CombinedDebugger.OnPageError "TypeError: x is undefined" 1050;
        CombinedDebugger.OnConsole
          {| CombinedDebugger.msg_type := "error"; CombinedDebugger.msg_text := "x" |}
          1060];
     CombinedDebugger.goto_raises := None;
     CombinedDebugger.sleep_events :=
       [CombinedDebugger.OnConsole
          {| CombinedDebugger.msg_type := "log"; CombinedDebugger.msg_text := "late" |}
          1500] |}.

(** [ConsoleDebugger(errors_only=True)]. *)
Definition errors_only_console : ConsoleDebugger.Debugger :=
  ConsoleDebugger.init true true true.

Definition console_call (type : string) : ConsoleDebugger.ConsoleAPICalled :=
  {| ConsoleDebugger.ca_type := Some type;
     ConsoleDebugger.ca_args := ["deprecated call"%string];
     ConsoleDebugger.ca_timestamp := Some 5;
     ConsoleDebugger.ca_stackTrace := None;
     ConsoleDebugger.ca_now := 5 |}.

End Sample_pages.

(** A list in non-decreasing order of [key]. *)
Definition ascending {A : Type} (key : A -> Z) (l : list A) : Prop :=
  StronglySorted (fun a b => key a <= key b) l.


(** The sum of the values of a table of counts such as [by_type]. *)
Definition table_total (m : gmap string nat) : nat :=
  map_fold (fun _ n acc => (n + acc)%nat) 0%nat m.

(** How many items of [l] have the key [t]. *)
Definition occurrences {A : Type} (key : A -> string) (t : string) (l : list A)
    : nat :=
  length (List.filter (fun x => String.eqb (key x) t) l).


(** The request id an event of the network domain carries. *)
Definition event_id (ev : NetworkInspector.CdpEvent) : string :=
  match ev with
  | NetworkInspector.RequestWillBeSent p => NetworkInspector.ws_requestId p
  | NetworkInspector.ResponseReceived p => NetworkInspector.rr_requestId p
  | NetworkInspector.LoadingFinished p => NetworkInspector.lf_requestId p
  | NetworkInspector.LoadingFailed p => NetworkInspector.fl_requestId p
  end.

(** An event other than a request start. *)
Definition follows_start (ev : NetworkInspector.CdpEvent) : Prop :=
  match ev with
  | NetworkInspector.RequestWillBeSent _ => False
  | _ => True
  end.

(** A page with one answered request, one not found and one that fails. *)
Definition mixed_traffic : list NetworkInspector.CdpEvent :=
  [NetworkInspector.RequestWillBeSent
     (Sample.will_be_sent "1" "http://localhost:3000/api/items" "XHR");
   NetworkInspector.RequestWillBeSent
     (Sample.will_be_sent "2" "http://localhost:3000/api/missing" "XHR");
   NetworkInspector.RequestWillBeSent
     (Sample.will_be_sent "3" "http://localhost:3000/logo.png" "Image");
   NetworkInspector.ResponseReceived (Sample.received "1" 200);
   NetworkInspector.ResponseReceived (Sample.received "2" 404);
   NetworkInspector.LoadingFinished (Sample.finished "1" NetworkInspector.FetchRaises);
   NetworkInspector.LoadingFinished (Sample.finished "2" NetworkInspector.FetchRaises);
   NetworkInspector.LoadingFailed (Sample.loading_failed "3")].

(** What the handlers keep true of the dicts they hold: a pending dict has
    no error; a completed one is marked completed exactly when it has no
    error; without body capture no dict has a body key. *)
Definition well_formed (self : NetworkInspector.Inspector) : Prop :=
  (forall k r,
      NetworkInspector.requests self !! k = Some r ->
      NetworkInspector.r_error r = None
      /\ (NetworkInspector.capture_bodies self = false ->
          NetworkInspector.r_response_body r = None
          /\ NetworkInspector.r_body_base64 r = None))
  /\ (forall r,
         In (NetworkInspector.RequestEntry r) (NetworkInspector.completed self) ->
         ((NetworkInspector.r_error r = None
           /\ NetworkInspector.r_completed r = Some true)
          \/ (is_Some (NetworkInspector.r_error r)
              /\ NetworkInspector.r_completed r = Some false))
         /\ (NetworkInspector.capture_bodies self = false ->
             NetworkInspector.r_response_body r = None
             /\ NetworkInspector.r_body_base64 r = None)).


(** The events the console debugger's [capture] lets the handlers see. *)
Definition console_delivered (wait_for_idle : bool) (env : ConsoleDebugger.Env)
    : list ConsoleDebugger.RuntimeEvent :=
  (ConsoleDebugger.goto_events env
   ++ match ConsoleDebugger.goto_raises env with
      | Some _ => []
      | None =>
          (if wait_for_idle then ConsoleDebugger.idle_events env else [])
          ++ ConsoleDebugger.sleep_events env
      end)%list.

(** What the console debugger's handlers keep true of its two lists:
    [messages] holds console messages only, each with the level its type
    maps to and, in errors-only mode, with one of the three accepted types;
    [exceptions] holds no console message. *)
Definition console_well_formed (dbg : ConsoleDebugger.Debugger) : Prop :=
  Forall
    (fun e =>
       match e with
       | ConsoleDebugger.Message type level _ _ _ _ =>
           level = ConsoleDebugger.type_to_level type
           /\ (ConsoleDebugger.errors_only dbg = true ->
               In type ["error"; "warning"; "assert"]%string)
       | _ => False
       end)
    (ConsoleDebugger.messages dbg)
  /\ Forall
       (fun e =>
          match e with
          | ConsoleDebugger.Message _ _ _ _ _ _ => False
          | _ => True
          end)
       (ConsoleDebugger.exceptions dbg).

(** The four severity levels of the console debugger. *)
Definition levels : list string := ["info"; "debug"; "warning"; "error"]%string.

(** A console page: a log, a warning, an assertion and an exception. *)
Definition console_traffic : list ConsoleDebugger.RuntimeEvent :=
  [ConsoleDebugger.ConsoleCall (Sample_pages.console_call "log");
   ConsoleDebugger.ConsoleCall (Sample_pages.console_call "warning");
   ConsoleDebugger.ConsoleCall (Sample_pages.console_call "assert");
   ConsoleDebugger.ExceptionEvent
     {| ConsoleDebugger.et_exceptionId := Some 1;
        ConsoleDebugger.et_text := Some "Uncaught"%string;
        ConsoleDebugger.et_description := Some "TypeError: x is undefined"%string;
        ConsoleDebugger.et_lineNumber := Some 9;
        ConsoleDebugger.et_columnNumber := Some 4;
        ConsoleDebugger.et_url := Some "http://localhost:3000/app.js"%string;
        ConsoleDebugger.et_stackTrace := None;
        ConsoleDebugger.et_timestamp := Some 7;
        ConsoleDebugger.et_now := 7 |}].


(** The clock reading a page handler takes for an event. *)
Definition clock_of (ev : CombinedDebugger.PageEvent) : Z :=
  match ev with
  | CombinedDebugger.OnRequest _ now
  | CombinedDebugger.OnResponse _ now
  | CombinedDebugger.OnRequestFailed _ now
  | CombinedDebugger.OnConsole _ now
  | CombinedDebugger.OnPageError _ now => now
  end.

(** All clock readings taken after the start during one combined capture. *)
Definition readings (env : CombinedDebugger.Env) : list Z :=
  (List.map clock_of (CombinedDebugger.goto_events env)
   ++ match CombinedDebugger.goto_raises env with
      | Some (_, now) => [now]
      | None => []
      end
   ++ List.map clock_of (CombinedDebugger.sleep_events env))%list.

(** The number of events of [l] whose type is one of [types]. *)
Definition of_types (types : list string) (l : list CombinedDebugger.Event) : nat :=
  length (List.filter (fun e => Py.str_in (CombinedDebugger.type_of e) types) l).


(** An event other than a console message. *)
Definition non_console (e : CombinedDebugger.Event) : bool :=
  negb (String.eqb (CombinedDebugger.type_of e) "console").

(** Two combined debuggers that hold the same pending map, start time and
    request filter, and the same events apart from console messages. *)
Definition same_network_view (a b : CombinedDebugger.Debugger) : Prop :=
  CombinedDebugger.requests a = CombinedDebugger.requests b
  /\ CombinedDebugger.start_time a = CombinedDebugger.start_time b
  /\ CombinedDebugger.filter_types a = CombinedDebugger.filter_types b
  /\ CombinedDebugger.url_pattern a = CombinedDebugger.url_pattern b
  /\ List.filter non_console (CombinedDebugger.events a)
     = List.filter non_console (CombinedDebugger.events b).


(** ** The command lines of the inspectors *)

Module Cli.

(** [s.split(sep)] for a separator of one character: the pieces between
    the separators, empty pieces included. *)
Fixpoint split (sep : ascii) (s : string) : list string :=
  match s with
  | EmptyString => [EmptyString]
  | String c s' =>
      if Ascii.eqb c sep then EmptyString :: split sep s'
      else match split sep s' with
           | piece :: rest => String c piece :: rest
           | [] => [String c EmptyString]
           end
  end.

(** The number of occurrences of a character. *)
Fixpoint count_char (sep : ascii) (s : string) : nat :=
  match s with
  | EmptyString => O
  | String c s' => ((if Ascii.eqb c sep then 1 else 0) + count_char sep s')%nat
  end.

Section Args.
(** [str.strip] of the runtime. *)
Context (strip : string -> string).

(** The statements of [main] that turn [args.filter] into [filter_types]:
    an absent or empty option gives [None]. *)
Definition filter_types_of_arg (filter : option string) : option (list string) :=
  match filter with
  | Some (String c s) => Some (List.map strip (split ","%char (String c s)))
  | Some EmptyString | None => None
  end.

(** The options of [network_inspector.py] that reach the inspector. *)
Record Args := {
  a_filter : option string;
  a_url_pattern : option string;
  a_errors_only : bool;
  a_capture_bodies : bool;
  a_max_body_size : Z
}.

(** The [NetworkInspector(...)] call of [main]. *)
Definition network_inspector (args : Args) : NetworkInspector.Inspector :=
  NetworkInspector.init (filter_types_of_arg (a_filter args)) (a_url_pattern args)
    (a_errors_only args) (a_capture_bodies args) (a_max_body_size args).

(** The [CombinedDebugger(...)] call of its [main], which passes neither
    [capture_bodies] nor [max_body_size]. *)
Definition combined_debugger (filter url_pattern : option string) (errors_only : bool)
    : CombinedDebugger.Debugger :=
  CombinedDebugger.init (filter_types_of_arg filter) url_pattern errors_only
    false 10240.

End Args.

End Cli.


(** ** cdp_session.py *)

Module CdpSession.

(** A domain to act on, with what [client.send] does for its command:
    [None] when it returns, the message of the exception when it raises. *)
Definition Attempt : Type := string * option string.

(** [enable_domains]: the commands sent, in order, and the exception that
    ends the loop, if any. *)
Fixpoint enable_domains (attempts : list Attempt) : list string * option string :=
  match attempts with
  | [] => ([], None)
  | (domain, Some e) :: _ => ([domain +:+ ".enable"], Some e)
  | (domain, None) :: rest =>
      let '(sent, raised) := enable_domains rest in
      ((domain +:+ ".enable") :: sent, raised)
  end.

(** [disable_domains]: every exception is swallowed by [except: pass]. *)
Fixpoint disable_domains (attempts : list Attempt) : list string * option string :=
  match attempts with
  | [] => ([], None)
  | (domain, _) :: rest =>
      let '(sent, raised) := disable_domains rest in
      ((domain +:+ ".disable") :: sent, raised)
  end.

(** The dict [results] of [test_connection]. *)
Record Results := {
  r_url : string;
  r_domains : gmap string string;
  r_navigation : option string;
  r_success : bool
}.


(** What a run of [test_connection] does: the dict it returns, whether
    [page.goto] was reached and whether the browser was closed. *)
Record Outcome := {
  results : Results;
  navigated : bool;
  closed : bool
}.



End CdpSession.


(** The ids of the request starts of a run of events, in order. *)
Fixpoint start_ids (evs : list NetworkInspector.CdpEvent) : list string :=
  match evs with
  | [] => []
  | NetworkInspector.RequestWillBeSent p :: rest =>
      NetworkInspector.ws_requestId p :: start_ids rest
  | _ :: rest => start_ids rest
  end.

(** The number of requests an inspector holds, completed or pending. *)
Definition held (self : NetworkInspector.Inspector) : nat :=
  (length (NetworkInspector.completed self) + size (NetworkInspector.requests self))%nat.


(** The number of console calls and of thrown exceptions in a run of
    events of the runtime domain. *)
Definition console_calls (evs : list ConsoleDebugger.RuntimeEvent) : nat :=
  length (List.filter (fun ev => match ev with
                                 | ConsoleDebugger.ConsoleCall _ => true
                                 | _ => false
                                 end) evs).

Definition thrown (evs : list ConsoleDebugger.RuntimeEvent) : nat :=
  length (List.filter (fun ev => match ev with
                                 | ConsoleDebugger.ExceptionEvent _ => true
                                 | _ => false
                                 end) evs).


(** The timestamp a handler of the console debugger stores for an event
    when [include_timestamps] is on: the event's own, or the clock. *)
Definition console_reading (ev : ConsoleDebugger.RuntimeEvent) : Z :=
  match ev with
  | ConsoleDebugger.ConsoleCall p =>
      default (ConsoleDebugger.ca_now p) (ConsoleDebugger.ca_timestamp p)
  | ConsoleDebugger.ExceptionEvent p =>
      default (ConsoleDebugger.et_now p) (ConsoleDebugger.et_timestamp p)
  end.

(** A request object with the identity [id] was passed to [_on_request]
    during [evs] and passed the filter of [self]. *)
Definition accepted_in `{Runtime} (self : CombinedDebugger.Debugger) (id : Z)
    (evs : list CombinedDebugger.PageEvent) : Prop :=
  exists q now,
    In (CombinedDebugger.OnRequest q now) evs
    /\ CombinedDebugger.ident q = id
    /\ CombinedDebugger.should_capture_request self (CombinedDebugger.q_url q)
         (CombinedDebugger.q_resource_type q) = true.

(** A completed item on which the error test of the report is defined. *)
Definition has_error_or_response (e : NetworkInspector.Entry) : Prop :=
  match e with
  | NetworkInspector.RequestEntry r =>
      is_Some (NetworkInspector.r_error r) \/ is_Some (NetworkInspector.r_response r)
  | NetworkInspector.NavigationEntry _ _ => True
  end.





(** The severity filter in the words of the specification: every level is
    admitted unless errors-only is set, and then the levels ["error"] and
    ["warning"] only. *)
Definition severity_admits (errors_only : bool) (level : string) : bool :=
  negb errors_only || Py.str_in level ["error"; "warning"]%string.

(** The number of console calls of [evs] whose level, as [_type_to_level]
    gives it, that filter admits. *)
Definition admitted_calls (errors_only : bool)
    (evs : list ConsoleDebugger.RuntimeEvent) : nat :=
  length
    (List.filter
       (fun ev =>
          match ev with
          | ConsoleDebugger.ConsoleCall p =>
              severity_admits errors_only
                (ConsoleDebugger.type_to_level
                   (default "log"%string (ConsoleDebugger.ca_type p)))
          | ConsoleDebugger.ExceptionEvent _ => false
          end) evs).

(** The events the combined debugger's [capture] lets the handlers see:
    the sleep follows the navigation whether it failed or not. *)
Definition page_delivered (env : CombinedDebugger.Env)
    : list CombinedDebugger.PageEvent :=
  (CombinedDebugger.goto_events env ++ CombinedDebugger.sleep_events env)%list.

(** The number of console messages of [evs] whose level, which is their
    type, the severity filter admits. *)
Definition admitted_console (errors_only : bool)
    (evs : list CombinedDebugger.PageEvent) : nat :=
  length
    (List.filter
       (fun ev =>
          match ev with
          | CombinedDebugger.OnConsole msg _ =>
              severity_admits errors_only (CombinedDebugger.msg_type msg)
          | _ => false
          end) evs).

(** * Properties *)

(** ** The stable sort *)

Section Sorted_facts.
Context {A : Type} (key : A -> Z).

Lemma insert_by_perm x l : Permutation (Py.insert_by key x l) (x :: l).
Proof.
  induction l as [|y ys IH]; simpl; [reflexivity|].
  destruct (key x <=? key y); [reflexivity|].
  rewrite IH. apply perm_swap.
Qed.

Lemma sorted_perm l : Permutation (Py.sorted key l) l.
Proof.
  induction l as [|x xs IH]; simpl; [constructor|].
  rewrite insert_by_perm. now constructor.
Qed.

Lemma insert_by_ascending x l :
  ascending key l -> ascending key (Py.insert_by key x l).
Proof.
  unfold ascending. induction 1 as [|y ys Hys IH Hy]; simpl.
  - repeat constructor.
  - destruct (Z.leb_spec (key x) (key y)) as [Hle|Hlt].
    + constructor; [now constructor|].
      constructor; [exact Hle|].
      eapply List.Forall_impl; [|exact Hy]. simpl. intros; lia.
    + constructor; [exact IH|].
      eapply Permutation_Forall; [symmetry; apply insert_by_perm|].
      constructor; [lia | exact Hy].
Qed.

Lemma sorted_ascending l : ascending key (Py.sorted key l).
Proof.
  induction l as [|x xs IH]; simpl; [constructor|].
  now apply insert_by_ascending.
Qed.

Lemma with_key_insert_by k x l :
  Py.with_key key k (Py.insert_by key x l) = Py.with_key key k (x :: l).
Proof.
  unfold Py.with_key.
  induction l as [|y ys IH]; simpl; [reflexivity|].
  destruct (Z.leb_spec (key x) (key y)) as [Hle|Hlt]; [reflexivity|].
  simpl. rewrite IH. simpl.
  destruct (Z.eqb_spec (key x) k), (Z.eqb_spec (key y) k); try reflexivity.
  lia.
Qed.

Lemma sorted_stable k l :
  Py.with_key key k (Py.sorted key l) = Py.with_key key k l.
Proof.
  induction l as [|x xs IH]; simpl; [reflexivity|].
  rewrite with_key_insert_by. unfold Py.with_key in *. simpl. now rewrite IH.
Qed.

Lemma sorted_fixes_ascending l : ascending key l -> Py.sorted key l = l.
Proof.
  unfold ascending. induction 1 as [|x xs Hxs IH Hx]; simpl; [reflexivity|].
  rewrite IH. destruct Hx as [|y ys Hy _]; simpl; [reflexivity|].
  destruct (Z.leb_spec (key x) (key y)); [reflexivity | lia].
Qed.

Lemma sorted_idempotent l : Py.sorted key (Py.sorted key l) = Py.sorted key l.
Proof. apply sorted_fixes_ascending, sorted_ascending. Qed.

Lemma sorted_length l : length (Py.sorted key l) = length l.
Proof. apply Permutation_length, sorted_perm. Qed.

End Sorted_facts.

(** ** Correlation keeps the sorted events *)

Lemma correlate_event sorted_events e :
  CombinedDebugger.event (CombinedDebugger.correlate sorted_events e) = e.
Proof.
  unfold CombinedDebugger.correlate.
  destruct (Py.str_in _ _); [|reflexivity].
  now destruct (CombinedDebugger.nearby sorted_events e).
Qed.

Lemma events_out_events (self : CombinedDebugger.Debugger) :
  List.map CombinedDebugger.event
    (CombinedDebugger.events_out (CombinedDebugger.build_output self))
  = Py.sorted CombinedDebugger.timestamp_ms (CombinedDebugger.events self).
Proof.
  simpl. rewrite List.map_map.
  erewrite List.map_ext; [apply List.map_id|].
  intros e. apply correlate_event.
Qed.

(** C4 (as amended). The events of the combined report are those of
    [self.events], which is in arrival order, in non-decreasing order of
    [timestamp_ms], events with equal offsets in their arrival order.  The
    [data] of the console report is in non-decreasing order of the key
    [timestamp] (the protocol's timestamp, 0 when missing), entries with
    equal keys in the order of [messages + exceptions]: messages before
    exceptions, each kind in arrival order.  Sorting a list that is already
    in non-decreasing order returns it unchanged, in particular the
    output. *)
Theorem correlated_output_stably_sorted
    (self : CombinedDebugger.Debugger)
    (dbg : ConsoleDebugger.Debugger) (url : string) (duration : Q) :
  let out :=
    List.map CombinedDebugger.event
      (CombinedDebugger.events_out (CombinedDebugger.build_output self)) in
  let data := ConsoleDebugger.data (ConsoleDebugger.build_report dbg url duration) in
  let entries := (ConsoleDebugger.messages dbg ++ ConsoleDebugger.exceptions dbg)%list in
  (ascending CombinedDebugger.timestamp_ms out
   /\ Permutation out (CombinedDebugger.events self)
   /\ (forall k, Py.with_key CombinedDebugger.timestamp_ms k out
                 = Py.with_key CombinedDebugger.timestamp_ms k
                     (CombinedDebugger.events self))
   /\ Py.sorted CombinedDebugger.timestamp_ms out = out)
  /\ (ascending ConsoleDebugger.timestamp_key data
      /\ Permutation data entries
      /\ (forall k, Py.with_key ConsoleDebugger.timestamp_key k data
                    = Py.with_key ConsoleDebugger.timestamp_key k entries)
      /\ Py.sorted ConsoleDebugger.timestamp_key data = data)
  /\ (forall l, ascending CombinedDebugger.timestamp_ms l ->
                Py.sorted CombinedDebugger.timestamp_ms l = l)
  /\ (forall l, ascending ConsoleDebugger.timestamp_key l ->
                Py.sorted ConsoleDebugger.timestamp_key l = l).
Proof.
  intros out data entries. subst out. rewrite events_out_events.
  repeat split.
  - apply sorted_ascending.
  - apply sorted_perm.
  - intros k. apply sorted_stable.
  - apply sorted_idempotent.
  - apply sorted_ascending.
  - apply sorted_perm.
  - intros k. apply sorted_stable.
  - apply sorted_idempotent.
  - apply sorted_fixes_ascending.
  - apply sorted_fixes_ascending.
Qed.

Example sorted_keeps_ties :
  Py.sorted CombinedDebugger.timestamp_ms
    [CombinedDebugger.Console 5 "log" "a"; CombinedDebugger.PageError 3 "boom";
     CombinedDebugger.Console 5 "log" "b"]
  = [CombinedDebugger.PageError 3 "boom"; CombinedDebugger.Console 5 "log" "a";
     CombinedDebugger.Console 5 "log" "b"].
Proof. reflexivity. Qed.

(** C4 on three events: a list already in order is returned as it is. *)
Lemma correlated_output_stably_sorted_witness :
  let l := [CombinedDebugger.PageError 3 "boom"; CombinedDebugger.Console 5 "log" "a";
            CombinedDebugger.Console 5 "log" "b"] in
  ascending CombinedDebugger.timestamp_ms l
  /\ Py.sorted CombinedDebugger.timestamp_ms l = l.
Proof.
  assert (Hasc : ascending CombinedDebugger.timestamp_ms
                   [CombinedDebugger.PageError 3 "boom";
                    CombinedDebugger.Console 5 "log" "a";
                    CombinedDebugger.Console 5 "log" "b"]).
  { repeat constructor; simpl; lia. }
  split; [exact Hasc|].
  exact (proj1 (proj2 (proj2
           (correlated_output_stably_sorted
              (CombinedDebugger.init None None false false 10240)
              (ConsoleDebugger.init false true true) "" 0%Q))) _ Hasc).
Defined.

(** C4, counterexample.  An exception is thrown and then a message is
    logged, both with the timestamp 7.  The console report lists the
    message first: the sort runs on [messages + exceptions], so entries
    with equal keys are not in arrival order. *)
Lemma console_ties_not_in_arrival_order :
  let thrown :=
    {| ConsoleDebugger.et_exceptionId := Some 1;
       ConsoleDebugger.et_text := Some "Uncaught"%string;
       ConsoleDebugger.et_description := Some "TypeError: x is undefined"%string;
       ConsoleDebugger.et_lineNumber := Some 0;
       ConsoleDebugger.et_columnNumber := Some 0;
       ConsoleDebugger.et_url := Some "http://localhost:3000/app.js"%string;
       ConsoleDebugger.et_stackTrace := None;
       ConsoleDebugger.et_timestamp := Some 7;
       ConsoleDebugger.et_now := 7 |} in
  let call :=
    {| ConsoleDebugger.ca_type := Some "log"%string;
       ConsoleDebugger.ca_args := ["after"%string];
       ConsoleDebugger.ca_timestamp := Some 7;
       ConsoleDebugger.ca_stackTrace := None;
       ConsoleDebugger.ca_now := 7 |} in
  let o :=
    ConsoleDebugger.capture (ConsoleDebugger.init false false true)
      "http://localhost:3000" 1%Q true
      {| ConsoleDebugger.goto_events :=
           [ConsoleDebugger.ExceptionEvent thrown; ConsoleDebugger.ConsoleCall call];
         ConsoleDebugger.goto_raises := None;
         ConsoleDebugger.idle_events := [];
         ConsoleDebugger.sleep_events := [] |} in
  ConsoleDebugger.data (ConsoleDebugger.report o)
  = [ ConsoleDebugger.Message "log" "info" "after" ["after"%string] (Some 7) None;
      ConsoleDebugger.Exception (Some 1) "Uncaught" "TypeError: x is undefined" 1 1
        "http://localhost:3000/app.js" (Some 7) None ].
Proof. vm_compute. reflexivity. Qed.

(** ** Totals *)

(** C10. In the report of each of the three tools the summary's total is
    the length of the emitted array, which is the list the object holds:
    [self.completed] for the network inspector, the sorted entries for the
    console debugger, one item per event of [self.events] for the combined
    debugger. *)
Theorem report_total_counts_emitted_items `{Runtime} :
  (forall self url duration wait_for_idle env r,
      NetworkInspector.report
        (NetworkInspector.capture self url duration wait_for_idle env) = Some r ->
      NetworkInspector.total (NetworkInspector.summary r)
      = length (NetworkInspector.data r)
      /\ NetworkInspector.data r
         = NetworkInspector.completed
             (NetworkInspector.final
                (NetworkInspector.capture self url duration wait_for_idle env)))
  /\ (forall dbg url duration wait_for_idle env,
         let r := ConsoleDebugger.report
                    (ConsoleDebugger.capture dbg url duration wait_for_idle env) in
         ConsoleDebugger.total (ConsoleDebugger.summary r)
         = length (ConsoleDebugger.data r))
  /\ (forall self url duration env,
         let o := CombinedDebugger.capture self url duration env in
         let r := CombinedDebugger.report o in
         CombinedDebugger.total_events (CombinedDebugger.summary r)
         = length (CombinedDebugger.events_out r)
         /\ length (CombinedDebugger.events_out r)
            = length (CombinedDebugger.events (CombinedDebugger.final o))).
Proof.
  split; [|split].
  - intros self url duration wait_for_idle env r.
    unfold NetworkInspector.capture.
    destruct (NetworkInspector.goto_raises env); [|destruct wait_for_idle]; simpl;
      unfold NetworkInspector.build_report;
      (destruct (NetworkInspector.error_count _); [|discriminate]);
      intros [= <-]; simpl; split; reflexivity.
  - intros dbg url duration wait_for_idle env r. subst r.
    unfold ConsoleDebugger.capture.
    destruct (ConsoleDebugger.goto_raises env); [|destruct wait_for_idle];
      reflexivity.
  - intros. split; [reflexivity|].
    subst r o. simpl. now rewrite List.length_map, sorted_length.
Qed.

(** C10 on a page with one answered request: the report is built and its
    total and its [data] both count one item. *)
Lemma report_total_counts_emitted_items_witness :
  match NetworkInspector.report
          (NetworkInspector.capture Sample.inspector "http://localhost:3000"
             10%Q true Sample.one_request_env) with
  | Some r =>
      NetworkInspector.total (NetworkInspector.summary r) = 1%nat
      /\ length (NetworkInspector.data r) = 1%nat
  | None => False
  end.
Proof.
  destruct (NetworkInspector.report
              (NetworkInspector.capture Sample.inspector "http://localhost:3000"
                 10%Q true Sample.one_request_env)) as [r|] eqn:E.
  - destruct (proj1 report_total_counts_emitted_items _ _ _ _ _ _ E) as [Ht Hd].
    rewrite Ht, Hd. vm_compute. split; reflexivity.
  - vm_compute in E. discriminate E.
Defined.

(** ** Status classes *)

Lemma count_status_sum counts req :
  sum_counts (NetworkInspector.count_status counts req)
  = (sum_counts counts + (if has_status_class req then 1 else 0))%nat.
Proof.
  unfold NetworkInspector.count_status, has_status_class, sum_counts.
  destruct (NetworkInspector.entry_error req); simpl; [lia|].
  destruct req as [r|]; simpl; [|lia].
  destruct r as [? ? ? ? ? ? ? [resp|] ? ? ? ? ?]; simpl; [|lia].
  destruct (Z.leb_spec 200 (NetworkInspector.status resp)),
           (Z.ltb_spec (NetworkInspector.status resp) 300),
           (Z.leb_spec 300 (NetworkInspector.status resp)),
           (Z.ltb_spec (NetworkInspector.status resp) 400),
           (Z.leb_spec 400 (NetworkInspector.status resp)),
           (Z.ltb_spec (NetworkInspector.status resp) 500);
    simpl; try lia;
    destruct (Z.geb_spec (NetworkInspector.status resp) 500); simpl; lia.
Qed.

Lemma count_status_monotone counts req :
  let c := NetworkInspector.count_status counts req in
  (NetworkInspector.c2xx counts <= NetworkInspector.c2xx c
   /\ NetworkInspector.c3xx counts <= NetworkInspector.c3xx c
   /\ NetworkInspector.c4xx counts <= NetworkInspector.c4xx c
   /\ NetworkInspector.c5xx counts <= NetworkInspector.c5xx c
   /\ NetworkInspector.failed counts <= NetworkInspector.failed c)%nat.
Proof.
  unfold NetworkInspector.count_status.
  destruct (NetworkInspector.entry_error req); simpl; [lia|].
  destruct req as [r|]; simpl; [|lia].
  destruct r as [? ? ? ? ? ? ? [resp|] ? ? ? ? ?]; simpl; [|lia].
  repeat match goal with
         | |- context [if ?b then _ else _] => destruct b; simpl
         end; lia.
Qed.

Lemma fold_count_status_sum l counts :
  sum_counts (fold_left NetworkInspector.count_status l counts)
  = (sum_counts counts + length (List.filter has_status_class l))%nat.
Proof.
  revert counts. induction l as [|e l IH]; intros counts; simpl; [lia|].
  rewrite IH, count_status_sum. destruct (has_status_class e); simpl; lia.
Qed.

(** C2 (as amended). One pass of the loop of [_count_by_status] raises no
    counter by more than one and raises their sum by at most one, so no
    item is counted in two classes; the five counters add up to the number
    of items of [completed] that carry an error or a response with a status
    of 200 or more, which is at most the number of items. *)
Theorem status_counters_disjoint_sum_classified (self : NetworkInspector.Inspector) :
  (forall counts req,
      let c := NetworkInspector.count_status counts req in
      (NetworkInspector.c2xx counts <= NetworkInspector.c2xx c
       /\ NetworkInspector.c3xx counts <= NetworkInspector.c3xx c
       /\ NetworkInspector.c4xx counts <= NetworkInspector.c4xx c
       /\ NetworkInspector.c5xx counts <= NetworkInspector.c5xx c
       /\ NetworkInspector.failed counts <= NetworkInspector.failed c
       /\ sum_counts c <= sum_counts counts + 1)%nat)
  /\ sum_counts (NetworkInspector.count_by_status self)
     = length (List.filter has_status_class (NetworkInspector.completed self))
  /\ (sum_counts (NetworkInspector.count_by_status self)
      <= length (NetworkInspector.completed self))%nat.
Proof.
  assert (Hsum : sum_counts (NetworkInspector.count_by_status self)
                 = length (List.filter has_status_class
                             (NetworkInspector.completed self))).
  { unfold NetworkInspector.count_by_status. now rewrite fold_count_status_sum. }
  split; [|split].
  - intros counts req c.
    pose proof (count_status_monotone counts req) as Hm.
    pose proof (count_status_sum counts req) as Hs.
    subst c. simpl in Hm. destruct (has_status_class req); lia.
  - exact Hsum.
  - rewrite Hsum. apply List.filter_length_le.
Qed.

(** C2, counterexample.  A request answered with status 101 is terminated
    and stored, and no counter moves: the sum is 0 for one stored item. *)
Lemma informational_status_in_no_class :
  let self :=
    NetworkInspector.deliver
      [NetworkInspector.RequestWillBeSent
         (Sample.will_be_sent "1" "http://localhost:3000/socket" "Other");
       NetworkInspector.ResponseReceived (Sample.received "1" 101);
       NetworkInspector.LoadingFinished
         (Sample.finished "1" NetworkInspector.FetchRaises)]
      Sample.inspector in
  length (NetworkInspector.completed self) = 1%nat
  /\ sum_counts (NetworkInspector.count_by_status self) = 0%nat.
Proof. vm_compute. split; reflexivity. Qed.

(** ** Response bodies *)









(** ** One handler step of the network inspector *)

Section Network_steps.
Context `{Runtime}.

Import NetworkInspector.

Lemma should_capture_config (a b : Inspector) url resource_type :
  filter_types a = filter_types b -> url_pattern a = url_pattern b ->
  should_capture a url resource_type = should_capture b url resource_type.
Proof. unfold should_capture. now intros -> ->. Qed.

Lemma handle_config self ev :
  filter_types (handle self ev) = filter_types self
  /\ url_pattern (handle self ev) = url_pattern self
  /\ errors_only (handle self ev) = errors_only self.
Proof.
  destruct ev as [p|p|p|p]; simpl.
  - unfold on_request_will_be_sent. now destruct (negb _).
  - unfold on_response_received. now destruct (requests self !! _).
  - unfold on_loading_finished. destruct (requests self !! _); [|easy].
    destruct (if negb (errors_only self) then _ else _) as [[|]|]; easy.
  - unfold on_loading_failed. now destruct (requests self !! _).
Qed.

Lemma deliver_config evs self :
  filter_types (deliver evs self) = filter_types self
  /\ url_pattern (deliver evs self) = url_pattern self
  /\ errors_only (deliver evs self) = errors_only self.
Proof.
  revert self. induction evs as [|ev evs IH]; intros self; simpl; [easy|].
  destruct (IH (handle self ev)) as (-> & -> & ->). apply handle_config.
Qed.

Lemma deliver_app evs1 evs2 self :
  deliver (evs1 ++ evs2) self = deliver evs2 (deliver evs1 self).
Proof. apply fold_left_app. Qed.

(** An item a handler adds to [completed] comes from the pending dict of
    the id of a terminal event. *)
Lemma handle_completed self ev e :
  In e (completed (handle self ev)) ->
  In e (completed self)
  \/ exists id req r,
       terminal_id ev = Some id /\ requests self !! id = Some req
       /\ e = RequestEntry r /\ same_request r req.
Proof.
  destruct ev as [p|p|p|p]; simpl.
  - unfold on_request_will_be_sent. destruct (negb _); simpl; auto.
  - unfold on_response_received. destruct (requests self !! _); simpl; auto.
  - unfold on_loading_finished.
    destruct (requests self !! lf_requestId p) as [req|] eqn:Hreq; [|auto].
    destruct (if negb (errors_only self) then _ else _) as [[|]|]; simpl; auto.
    rewrite List.in_app_iff. intros [Hin|[<-|[]]]; [auto|].
    right. exists (lf_requestId p), req. eexists.
    split; [reflexivity|]. split; [exact Hreq|]. split; [reflexivity|].
    destruct (capture_bodies self); [destruct (lf_fetch p)|]; repeat split.
  - unfold on_loading_failed.
    destruct (requests self !! fl_requestId p) as [req|] eqn:Hreq; [|auto].
    simpl. rewrite List.in_app_iff. intros [Hin|[<-|[]]]; [auto|].
    right. exists (fl_requestId p), req. eexists.
    split; [reflexivity|]. split; [exact Hreq|]. split; [reflexivity|].
    repeat split.
Qed.

(** A dict found in [requests] after a handler was there before, up to
    the keys the handlers set, or was built from an accepted start. *)
Lemma handle_requests self ev k r :
  requests (handle self ev) !! k = Some r ->
  (exists req, requests self !! k = Some req /\ same_request r req)
  \/ exists p,
       ev = RequestWillBeSent p /\ k = ws_requestId p
       /\ should_capture self (ws_url p) (default "Other"%string (ws_type p)) = true
       /\ r_id r = k /\ r_url r = ws_url p
       /\ r_type r = default "Other"%string (ws_type p).
Proof.
  destruct ev as [p|p|p|p]; simpl.
  - unfold on_request_will_be_sent.
    destruct (should_capture self _ _) eqn:Hcap; simpl.
    + destruct (decide (ws_requestId p = k)) as [<-|Hne].
      * rewrite lookup_insert_eq. intros [= <-]. right. exists p.
        repeat split; auto.
      * rewrite lookup_insert_ne by exact Hne. intros Hk. left.
        exists r. repeat split; auto.
    + intros Hk. left. exists r. repeat split; auto.
  - unfold on_response_received.
    destruct (requests self !! rr_requestId p) as [req|] eqn:Hreq; simpl.
    + destruct (decide (rr_requestId p = k)) as [<-|Hne].
      * rewrite lookup_insert_eq. intros [= <-]. left. exists req.
        split; [exact Hreq|]. destruct (rr_timing p); repeat split.
      * rewrite lookup_insert_ne by exact Hne. intros Hk. left.
        exists r. repeat split; auto.
    + intros Hk. left. exists r. repeat split; auto.
  - unfold on_loading_finished.
    destruct (requests self !! lf_requestId p) as [req|] eqn:Hreq; simpl.
    + destruct (if negb (errors_only self) then _ else _) as [[|]|]; simpl.
      * intros Hk. apply lookup_delete_Some in Hk as [_ Hk]. left.
        exists r. repeat split; auto.
      * intros Hk. apply lookup_delete_Some in Hk as [_ Hk]. left.
        exists r. repeat split; auto.
      * destruct (decide (lf_requestId p = k)) as [<-|Hne].
        -- rewrite lookup_insert_eq. intros [= <-]. left. exists req.
           split; [exact Hreq|].
           destruct (capture_bodies self); [destruct (lf_fetch p)|]; repeat split.
        -- rewrite lookup_insert_ne by exact Hne. intros Hk. left.
           exists r. repeat split; auto.
    + intros Hk. left. exists r. repeat split; auto.
  - unfold on_loading_failed.
    destruct (requests self !! fl_requestId p) as [req|] eqn:Hreq; simpl.
    + intros Hk. apply lookup_delete_Some in Hk as [_ Hk]. left.
      exists r. repeat split; auto.
    + intros Hk. left. exists r. repeat split; auto.
Qed.

Lemma handle_keys_are_ids self ev :
  keys_are_ids self -> keys_are_ids (handle self ev).
Proof.
  intros Hkeys k r Hk.
  destruct (handle_requests self ev k r Hk)
    as [(req & Hreq & Hid & _)|(p & _ & _ & _ & Hid & _)]; [|exact Hid].
  rewrite Hid. now apply Hkeys.
Qed.

Lemma deliver_keys_are_ids evs self :
  keys_are_ids self -> keys_are_ids (deliver evs self).
Proof.
  revert self. induction evs as [|ev evs IH]; intros self Hkeys; simpl; [exact Hkeys|].
  apply IH, handle_keys_are_ids, Hkeys.
Qed.

Lemma init_keys_are_ids ft up eo cb mbs : keys_are_ids (init ft up eo cb mbs).
Proof. intros k r Hk. simpl in Hk. now rewrite lookup_empty in Hk. Qed.

End Network_steps.

(** ** The network filter *)

Lemma str_in_In x l : Py.str_in x l = true <-> In x l.
Proof.
  unfold Py.str_in. rewrite List.existsb_exists. split.
  - intros (y & Hy & Heq). apply String.eqb_eq in Heq. now subst.
  - intros Hx. exists x. split; [exact Hx | apply String.eqb_refl].
Qed.

Section Network_filter.
Context `{Runtime}.

Lemma should_capture_iff self url resource_type :
  NetworkInspector.should_capture self url resource_type = true
  <-> allowlist_admits (NetworkInspector.filter_types self) resource_type
      /\ pattern_admits (NetworkInspector.url_pattern self) url.
Proof.
  unfold NetworkInspector.should_capture, allowlist_admits, pattern_admits.
  destruct (NetworkInspector.filter_types self) as [ts|];
    [rewrite <- (str_in_In (str_lower resource_type) (List.map str_lower ts));
     destruct ts as [|t ts];
     [|destruct (Py.str_in _ (List.map str_lower (t :: ts)))]|];
    destruct (NetworkInspector.url_pattern self) as [p|];
    try destruct (re_search p url); simpl;
    intuition (discriminate || congruence).
Qed.

Lemma should_capture_request_iff self url resource_type :
  CombinedDebugger.should_capture_request self url resource_type = true
  <-> allowlist_admits (CombinedDebugger.filter_types self) resource_type
      /\ pattern_admits (CombinedDebugger.url_pattern self) url.
Proof.
  unfold CombinedDebugger.should_capture_request, allowlist_admits, pattern_admits.
  destruct (CombinedDebugger.filter_types self) as [ts|];
    [rewrite <- (str_in_In (str_lower resource_type) (List.map str_lower ts));
     destruct ts as [|t ts];
     [|destruct (Py.str_in _ (List.map str_lower (t :: ts)))]|];
    destruct (CombinedDebugger.url_pattern self) as [p|];
    try destruct (re_search p url); simpl;
    intuition (discriminate || congruence).
Qed.

(** Whatever the handlers store was accepted by the filter of the object. *)
Lemma handle_stored_accepted c self ev :
  NetworkInspector.filter_types self = NetworkInspector.filter_types c ->
  NetworkInspector.url_pattern self = NetworkInspector.url_pattern c ->
  (forall r, stored self r ->
             NetworkInspector.should_capture c (NetworkInspector.r_url r)
               (NetworkInspector.r_type r) = true) ->
  forall r, stored (NetworkInspector.handle self ev) r ->
            NetworkInspector.should_capture c (NetworkInspector.r_url r)
              (NetworkInspector.r_type r) = true.
Proof.
  intros Hft Hup Hinv r [Hin|[k Hk]].
  - destruct (handle_completed self ev _ Hin)
      as [Hold|(id & req & r' & _ & Hreq & [= <-] & _ & Hurl & Hty)].
    + apply Hinv. now left.
    + rewrite Hurl, Hty. apply Hinv. right. now exists id.
  - destruct (handle_requests self ev k r Hk)
      as [(req & Hreq & _ & Hurl & Hty)|(p & _ & _ & Hcap & _ & Hurl & Hty)].
    + rewrite Hurl, Hty. apply Hinv. right. now exists k.
    + rewrite Hurl, Hty, (should_capture_config c self) by congruence. exact Hcap.
Qed.

Lemma deliver_stored_accepted c evs self :
  NetworkInspector.filter_types self = NetworkInspector.filter_types c ->
  NetworkInspector.url_pattern self = NetworkInspector.url_pattern c ->
  (forall r, stored self r ->
             NetworkInspector.should_capture c (NetworkInspector.r_url r)
               (NetworkInspector.r_type r) = true) ->
  forall r, stored (NetworkInspector.deliver evs self) r ->
            NetworkInspector.should_capture c (NetworkInspector.r_url r)
              (NetworkInspector.r_type r) = true.
Proof.
  revert self. induction evs as [|ev evs IH]; intros self Hft Hup Hinv; simpl.
  - exact Hinv.
  - destruct (handle_config self ev) as (Hft' & Hup' & _).
    apply IH; [congruence | congruence |].
    now apply handle_stored_accepted.
Qed.

(** The same for the request events of the combined debugger. *)
Lemma combined_handle_config self ev :
  CombinedDebugger.filter_types (CombinedDebugger.handle self ev)
  = CombinedDebugger.filter_types self
  /\ CombinedDebugger.url_pattern (CombinedDebugger.handle self ev)
     = CombinedDebugger.url_pattern self.
Proof.
  destruct ev; simpl.
  - unfold CombinedDebugger.on_request. now destruct (negb _).
  - unfold CombinedDebugger.on_response.
    now destruct (CombinedDebugger.requests self !! _).
  - unfold CombinedDebugger.on_request_failed.
    now destruct (CombinedDebugger.requests self !! _).
  - unfold CombinedDebugger.on_console. now destruct (_ && _).
  - easy.
Qed.

Lemma should_capture_request_config (a b : CombinedDebugger.Debugger) url resource_type :
  CombinedDebugger.filter_types a = CombinedDebugger.filter_types b ->
  CombinedDebugger.url_pattern a = CombinedDebugger.url_pattern b ->
  CombinedDebugger.should_capture_request a url resource_type
  = CombinedDebugger.should_capture_request b url resource_type.
Proof. unfold CombinedDebugger.should_capture_request. now intros -> ->. Qed.

Lemma combined_handle_request_events self ev ts url method resource_type :
  In (CombinedDebugger.Request ts url method resource_type)
     (CombinedDebugger.events (CombinedDebugger.handle self ev)) ->
  In (CombinedDebugger.Request ts url method resource_type)
     (CombinedDebugger.events self)
  \/ CombinedDebugger.should_capture_request self url resource_type = true.
Proof.
  destruct ev as [request now|response now|request now|msg now|error now]; simpl.
  - unfold CombinedDebugger.on_request.
    destruct (CombinedDebugger.should_capture_request self _ _) eqn:Hcap; simpl;
      [|now left].
    rewrite List.in_app_iff. intros [Hin|[[= _ <- _ <-]|[]]]; [now left | now right].
  - unfold CombinedDebugger.on_response.
    destruct (CombinedDebugger.requests self !! _); simpl; [|now left].
    rewrite List.in_app_iff. intros [Hin|[Heq|[]]]; [now left | discriminate Heq].
  - unfold CombinedDebugger.on_request_failed.
    destruct (CombinedDebugger.requests self !! _); simpl; [|now left].
    rewrite List.in_app_iff. intros [Hin|[Heq|[]]]; [now left | discriminate Heq].
  - unfold CombinedDebugger.on_console. destruct (_ && _); simpl; [now left|].
    rewrite List.in_app_iff. intros [Hin|[Heq|[]]]; [now left | discriminate Heq].
  - rewrite List.in_app_iff. intros [Hin|[Heq|[]]]; [now left | discriminate Heq].
Qed.

Lemma combined_deliver_request_events c evs self ts url method resource_type :
  CombinedDebugger.filter_types self = CombinedDebugger.filter_types c ->
  CombinedDebugger.url_pattern self = CombinedDebugger.url_pattern c ->
  In (CombinedDebugger.Request ts url method resource_type)
     (CombinedDebugger.events (CombinedDebugger.deliver evs self)) ->
  In (CombinedDebugger.Request ts url method resource_type)
     (CombinedDebugger.events self)
  \/ CombinedDebugger.should_capture_request c url resource_type = true.
Proof.
  revert self. induction evs as [|ev evs IH]; intros self Hft Hup Hin; simpl in *.
  - now left.
  - destruct (combined_handle_config self ev) as [Hft' Hup'].
    destruct (IH (CombinedDebugger.handle self ev)) as [Hstep|Hacc];
      [congruence | congruence | exact Hin | | now right].
    destruct (combined_handle_request_events self ev _ _ _ _ Hstep) as [Hold|Hacc];
      [now left|].
    right. now rewrite <- (should_capture_request_config self c).
Qed.

End Network_filter.

(** C5 (as amended). [_should_capture] and [_should_capture_request]
    accept a candidate exactly when the allowlist is absent or empty or
    holds its resource type up to case, and the pattern is absent or is
    found in its URL; so every request dict the network inspector stores,
    pending or completed, and every request event the combined debugger
    stores, has a resource type that a non-empty allowlist holds up to case
    and a URL in which the pattern is found. *)
Theorem network_filter_accepts_iff `{Runtime} :
  (forall self url resource_type,
      NetworkInspector.should_capture self url resource_type = true
      <-> allowlist_admits (NetworkInspector.filter_types self) resource_type
          /\ pattern_admits (NetworkInspector.url_pattern self) url)
  /\ (forall self url resource_type,
         CombinedDebugger.should_capture_request self url resource_type = true
         <-> allowlist_admits (CombinedDebugger.filter_types self) resource_type
             /\ pattern_admits (CombinedDebugger.url_pattern self) url)
  /\ (forall filter_types url_pattern errors_only capture_bodies max_body_size evs r,
         let self := NetworkInspector.init filter_types url_pattern errors_only
                       capture_bodies max_body_size in
         stored (NetworkInspector.deliver evs self) r ->
         (forall t ts, filter_types = Some (t :: ts) ->
                       In (str_lower (NetworkInspector.r_type r))
                          (List.map str_lower (t :: ts)))
         /\ pattern_admits (NetworkInspector.url_pattern self)
              (NetworkInspector.r_url r))
  /\ (forall filter_types url_pattern errors_only capture_bodies max_body_size evs
             ts url method resource_type,
         let self := CombinedDebugger.init filter_types url_pattern errors_only
                       capture_bodies max_body_size in
         In (CombinedDebugger.Request ts url method resource_type)
            (CombinedDebugger.events (CombinedDebugger.deliver evs self)) ->
         (forall t ts', filter_types = Some (t :: ts') ->
                        In (str_lower resource_type) (List.map str_lower (t :: ts')))
         /\ pattern_admits (CombinedDebugger.url_pattern self) url).
Proof.
  split; [exact should_capture_iff|]. split; [exact should_capture_request_iff|].
  split.
  - intros ft up eo cb mbs evs r self Hst.
    assert (Hacc : NetworkInspector.should_capture self (NetworkInspector.r_url r)
                     (NetworkInspector.r_type r) = true).
    { apply (deliver_stored_accepted self evs self);
        [reflexivity | reflexivity | | exact Hst].
      intros r' [Hin|[k Hk]]; [destruct Hin|].
      simpl in Hk. now rewrite lookup_empty in Hk. }
    apply should_capture_iff in Hacc as [Hty Hurl]. split; [|exact Hurl].
    intros t ts ->. simpl in Hty.
    destruct Hty as [Hnil|Hin]; [discriminate | exact Hin].
  - intros ft up eo cb mbs evs ts url method rt self Hin.
    destruct (combined_deliver_request_events self evs self ts url method rt
                eq_refl eq_refl Hin) as [[]|Hacc].
    apply should_capture_request_iff in Hacc as [Hty Hurl]. split; [|exact Hurl].
    intros t ts' ->. simpl in Hty.
    destruct Hty as [Hnil|Hty]; [discriminate | exact Hty].
Qed.

(** C5 with the allowlist [xhr, fetch] and the pattern [api/]: the XHR
    request is stored, its type in the allowlist; the script is not. *)
Lemma network_filter_accepts_iff_witness :
  let self := NetworkInspector.init (Some ["xhr"; "fetch"]%string) (Some "api/"%string)
                false false 10240 in
  let r := NetworkInspector.deliver
             [NetworkInspector.RequestWillBeSent
                (Sample.will_be_sent "1" "http://localhost:3000/api/items" "XHR");
              NetworkInspector.RequestWillBeSent
                (Sample.will_be_sent "2" "http://localhost:3000/app.js" "Script")]
             self in
  (exists req, NetworkInspector.requests r !! "1"%string = Some req
               /\ In (str_lower (NetworkInspector.r_type req))
                     (List.map str_lower ["xhr"; "fetch"]%string))
  /\ NetworkInspector.requests r !! "2"%string = None.
Proof.
  split; [|vm_compute; reflexivity].
  eexists. split; [vm_compute; reflexivity|].
  refine (proj1 (proj1 (proj2 (proj2 network_filter_accepts_iff))
                   (Some ["xhr"; "fetch"]%string) (Some "api/"%string) false false 10240
                   [NetworkInspector.RequestWillBeSent
                      (Sample.will_be_sent "1" "http://localhost:3000/api/items" "XHR");
                    NetworkInspector.RequestWillBeSent
                      (Sample.will_be_sent "2" "http://localhost:3000/app.js" "Script")]
                   _ _) "xhr"%string ["fetch"%string] eq_refl).
  right. exists "1"%string. vm_compute. reflexivity.
Defined.

(** C5, counterexample.  With an allowlist that is present and empty the
    filter accepts a script although no list entry equals its type: the
    stated equivalence fails there. *)
Lemma empty_allowlist_accepts_all :
  let self := NetworkInspector.init (Some []) None false false 10240 in
  ~ (NetworkInspector.should_capture self "http://localhost:3000/app.js" "Script" = true
     <-> (NetworkInspector.filter_types self = None
          \/ exists ts, NetworkInspector.filter_types self = Some ts
                        /\ In (str_lower "Script") (List.map str_lower ts))
         /\ (NetworkInspector.url_pattern self = None
             \/ exists p, NetworkInspector.url_pattern self = Some p
                          /\ re_search p "http://localhost:3000/app.js" = true)).
Proof.
  intros self [Hacc _].
  destruct (Hacc eq_refl) as [[Hnone|(ts & Hts & Hin)] _].
  - discriminate Hnone.
  - injection Hts as <-. destruct Hin.
Qed.

(** ** The pending map *)

Section Pending.
Context `{Runtime}.

Import NetworkInspector.

Lemma on_request_will_be_sent_accepted p self :
  should_capture self (ws_url p) (default "Other"%string (ws_type p)) = true ->
  exists r,
    requests (on_request_will_be_sent p self)
    = <[ws_requestId p := r]> (requests self)
    /\ r_id r = ws_requestId p /\ r_url r = ws_url p /\ r_method r = ws_method p
    /\ r_type r = default "Other"%string (ws_type p)
    /\ r_timing r = None /\ r_response r = None /\ r_error r = None
    /\ r_completed r = None.
Proof.
  intros Hcap. unfold on_request_will_be_sent. rewrite Hcap. simpl.
  eexists. split; [reflexivity|]. repeat split.
Qed.

Lemma on_request_will_be_sent_completed p self :
  completed (on_request_will_be_sent p self) = completed self.
Proof. unfold on_request_will_be_sent. now destruct (negb _). Qed.

Lemma on_request_will_be_sent_rejected p self :
  should_capture self (ws_url p) (default "Other"%string (ws_type p)) = false ->
  on_request_will_be_sent p self = self.
Proof. intros Hcap. unfold on_request_will_be_sent. now rewrite Hcap. Qed.

(** A pending dict stays pending until a terminal event names its id. *)
Lemma handle_keeps_pending self ev rid :
  is_Some (requests self !! rid) -> terminal_id ev <> Some rid ->
  is_Some (requests (handle self ev) !! rid).
Proof.
  intros Hsome Hterm. destruct ev as [p|p|p|p]; simpl in *.
  - unfold on_request_will_be_sent. destruct (negb _); simpl; [exact Hsome|].
    rewrite lookup_insert. now case_decide.
  - unfold on_response_received.
    destruct (requests self !! rr_requestId p); simpl; [|exact Hsome].
    rewrite lookup_insert. now case_decide.
  - unfold on_loading_finished.
    destruct (requests self !! lf_requestId p); simpl; [|exact Hsome].
    destruct (if negb (errors_only self) then _ else _) as [[|]|]; simpl.
    + rewrite lookup_delete_ne by congruence. exact Hsome.
    + rewrite lookup_delete_ne by congruence. exact Hsome.
    + rewrite lookup_insert. now case_decide.
  - unfold on_loading_failed.
    destruct (requests self !! fl_requestId p); simpl; [|exact Hsome].
    rewrite lookup_delete_ne by congruence. exact Hsome.
Qed.

Lemma deliver_keeps_pending evs self rid :
  is_Some (requests self !! rid) ->
  (forall ev, In ev evs -> terminal_id ev <> Some rid) ->
  is_Some (requests (deliver evs self) !! rid).
Proof.
  revert self. induction evs as [|ev evs IH]; intros self Hsome Hterm; simpl.
  - exact Hsome.
  - apply IH.
    + apply handle_keeps_pending; [exact Hsome | apply Hterm; now left].
    + intros ev' Hin. apply Hterm. now right.
Qed.

(** A completed request had a terminal event. *)
Lemma deliver_completed_terminated evs self r :
  keys_are_ids self ->
  In (RequestEntry r) (completed (deliver evs self)) ->
  In (RequestEntry r) (completed self)
  \/ exists ev, In ev evs /\ terminal_id ev = Some (r_id r).
Proof.
  revert self. induction evs as [|ev evs IH]; intros self Hkeys Hin; simpl in *.
  - now left.
  - destruct (IH _ (handle_keys_are_ids self ev Hkeys) Hin) as [Hstep|(ev' & Hev' & Ht)].
    + destruct (handle_completed self ev _ Hstep)
        as [Hold|(id & req & r' & Ht & Hreq & [= <-] & Hid & _)].
      * now left.
      * right. exists ev. split; [now left|].
        rewrite Ht, Hid. f_equal. symmetry. now apply Hkeys.
    + right. exists ev'. split; [now right | exact Ht].
Qed.

(** The object [capture] ends with, in terms of the events delivered. *)
Lemma capture_final self url duration wait_for_idle env :
  final (capture self url duration wait_for_idle env)
  = match goto_raises env with
    | Some e =>
        let s := deliver (delivered wait_for_idle env) self in
        set_completed_list (completed s ++ [NavigationEntry url e]) s
    | None => deliver (delivered wait_for_idle env) self
    end.
Proof.
  unfold capture, delivered.
  destruct (goto_raises env); simpl.
  - now rewrite List.app_nil_r.
  - destruct wait_for_idle; simpl; now rewrite !deliver_app.
Qed.

Lemma capture_report self url duration wait_for_idle env :
  report (capture self url duration wait_for_idle env)
  = build_report (final (capture self url duration wait_for_idle env)) url duration.
Proof.
  unfold capture. destruct (goto_raises env); [|destruct wait_for_idle]; reflexivity.
Qed.

Lemma build_report_data self url duration rep :
  build_report self url duration = Some rep -> data rep = completed self.
Proof.
  unfold build_report. destruct (error_count _); [|discriminate].
  now intros [= <-].
Qed.

End Pending.

(** ** One handler step of the combined debugger *)

Section Combined_steps.
Context `{Runtime}.

Import CombinedDebugger.

(** Handlers only append to [self.events]. *)
Lemma handle_events self ev :
  exists added, events (handle self ev) = (events self ++ added)%list.
Proof.
  destruct ev as [request now|response now|request now|msg now|error now]; simpl.
  - unfold on_request. destruct (negb _); simpl.
    + exists []. now rewrite List.app_nil_r.
    + eexists. reflexivity.
  - unfold on_response. destruct (requests self !! _); simpl.
    + eexists. reflexivity.
    + exists []. now rewrite List.app_nil_r.
  - unfold on_request_failed. destruct (requests self !! _); simpl.
    + eexists. reflexivity.
    + exists []. now rewrite List.app_nil_r.
  - unfold on_console. destruct (_ && _); simpl.
    + exists []. now rewrite List.app_nil_r.
    + eexists. reflexivity.
  - eexists. reflexivity.
Qed.

Lemma deliver_events evs self :
  exists added, events (deliver evs self) = (events self ++ added)%list.
Proof.
  revert self. induction evs as [|ev evs IH]; intros self; simpl.
  - exists []. now rewrite List.app_nil_r.
  - destruct (IH (handle self ev)) as [a2 ->].
    destruct (handle_events self ev) as [a1 ->].
    exists (a1 ++ a2)%list. now rewrite List.app_assoc.
Qed.

Lemma on_request_accepted request now self :
  should_capture_request self (q_url request) (q_resource_type request) = true ->
  events (on_request request now self)
  = (events self
     ++ [Request (now - start_time self) (q_url request) (q_method request)
           (q_resource_type request)])%list
  /\ exists d,
       requests (on_request request now self) = <[ident request := d]> (requests self)
       /\ d_url d = q_url request /\ d_status d = None
       /\ d_timestamp_ms d = now - start_time self.
Proof.
  intros Hcap. unfold on_request. rewrite Hcap. simpl.
  split; [reflexivity|]. eexists. repeat split.
Qed.

(** An item of the report for every event the object holds; one whose type
    is neither ["page_error"] nor ["request_failed"] has no related events. *)
Lemma build_output_item self e :
  In e (events self) ->
  exists c, In c (events_out (build_output self)) /\ event c = e
            /\ (Py.str_in (type_of e) ["page_error"; "request_failed"]%string = false ->
                related_events c = None).
Proof.
  intros Hin. unfold build_output. cbn [events_out].
  exists (correlate (Py.sorted timestamp_ms (events self)) e). split; [|split].
  - apply List.in_map.
    eapply Permutation_in; [symmetry; apply sorted_perm | exact Hin].
  - apply correlate_event.
  - intros Hty. unfold correlate. now rewrite Hty.
Qed.

End Combined_steps.

(** C1 (as amended). In the network inspector a request with no
    loading-finished and no loading-failed event among the delivered events
    has no item in the [data] of the report, and once a start for it was
    accepted it is still in [self.requests] when [capture] ends: the
    report holds terminated requests only.  In the combined debugger an
    accepted start is put into [self.events] at once and reaches the report
    as a plain request item, whatever follows. *)
Theorem unterminated_request_stays_pending `{Runtime}
    (filter_types : option (list string)) (url_pattern : option string)
    (errors_only capture_bodies : bool) (max_body_size : Z)
    (url : string) (duration : Q) (wait_for_idle : bool)
    (env : NetworkInspector.Env) (rid : string) :
  let self := NetworkInspector.init filter_types url_pattern errors_only
                capture_bodies max_body_size in
  let o := NetworkInspector.capture self url duration wait_for_idle env in
  (forall ev, In ev (delivered wait_for_idle env) -> terminal_id ev <> Some rid) ->
  (forall rep r,
      NetworkInspector.report o = Some rep ->
      In (NetworkInspector.RequestEntry r) (NetworkInspector.data rep) ->
      NetworkInspector.r_id r <> rid)
  /\ (forall evs1 p evs2,
         delivered wait_for_idle env
         = (evs1 ++ NetworkInspector.RequestWillBeSent p :: evs2)%list ->
         NetworkInspector.ws_requestId p = rid ->
         NetworkInspector.should_capture self (NetworkInspector.ws_url p)
           (default "Other"%string (NetworkInspector.ws_type p)) = true ->
         is_Some (NetworkInspector.requests (NetworkInspector.final o) !! rid))
  /\ (forall (dbg : CombinedDebugger.Debugger) request now evs,
         CombinedDebugger.should_capture_request dbg
           (CombinedDebugger.q_url request)
           (CombinedDebugger.q_resource_type request) = true ->
         exists c,
           In c (CombinedDebugger.events_out
                   (CombinedDebugger.build_output
                      (CombinedDebugger.deliver evs
                         (CombinedDebugger.on_request request now dbg))))
           /\ CombinedDebugger.event c
              = CombinedDebugger.Request (now - CombinedDebugger.start_time dbg)
                  (CombinedDebugger.q_url request)
                  (CombinedDebugger.q_method request)
                  (CombinedDebugger.q_resource_type request)
           /\ CombinedDebugger.related_events c = None).
Proof.
  intros self o Hterm.
  assert (Hreq : NetworkInspector.requests (NetworkInspector.final o)
                 = NetworkInspector.requests
                     (NetworkInspector.deliver (delivered wait_for_idle env) self)).
  { subst o. rewrite capture_final.
    now destruct (NetworkInspector.goto_raises env). }
  split; [|split].
  - intros rep r Hrep Hin Hid. subst o.
    rewrite capture_report in Hrep. apply build_report_data in Hrep.
    rewrite Hrep, capture_final in Hin.
    assert (Hin' : In (NetworkInspector.RequestEntry r)
                     (NetworkInspector.completed
                        (NetworkInspector.deliver (delivered wait_for_idle env) self))).
    { destruct (NetworkInspector.goto_raises env); [|exact Hin].
      simpl in Hin. apply List.in_app_iff in Hin as [Hin|[Hnav|[]]];
        [exact Hin | discriminate Hnav]. }
    destruct (deliver_completed_terminated _ self r
                (init_keys_are_ids _ _ _ _ _) Hin') as [[]|(ev & Hev & Ht)].
    apply (Hterm ev Hev). now rewrite Ht, Hid.
  - intros evs1 p evs2 Hsplit Hp Hcap. rewrite Hreq, Hsplit, deliver_app. simpl.
    apply deliver_keeps_pending.
    + destruct (deliver_config evs1 self) as (Hft & Hup & _).
      rewrite <- (should_capture_config (NetworkInspector.deliver evs1 self) self)
        in Hcap by assumption.
      destruct (on_request_will_be_sent_accepted p _ Hcap) as (r & -> & _).
      rewrite Hp, lookup_insert_eq. now eexists.
    + intros ev Hev. apply Hterm. rewrite Hsplit.
      apply List.in_app_iff. right. now right.
  - intros dbg request now evs Hcap.
    destruct (on_request_accepted request now dbg Hcap) as [Hev _].
    destruct (deliver_events evs (CombinedDebugger.on_request request now dbg))
      as [added Hadd].
    destruct (build_output_item
                (CombinedDebugger.deliver evs
                   (CombinedDebugger.on_request request now dbg))
                (CombinedDebugger.Request (now - CombinedDebugger.start_time dbg)
                   (CombinedDebugger.q_url request)
                   (CombinedDebugger.q_method request)
                   (CombinedDebugger.q_resource_type request)))
      as (c & Hc & Hevent & Hrel).
    { rewrite Hadd, Hev. apply List.in_app_iff. left.
      apply List.in_app_iff. right. now left. }
    exists c. split; [exact Hc|]. split; [exact Hevent|]. now apply Hrel.
Qed.

(** C1 on a page whose only request is never answered: it is still
    pending when [capture] ends. *)
Lemma unterminated_request_stays_pending_witness :
  is_Some
    (NetworkInspector.requests
       (NetworkInspector.final
          (NetworkInspector.capture Sample.inspector "http://localhost:3000" 10%Q
             true Sample.unanswered_env)) !! "1"%string).
Proof.
  refine (proj1 (proj2
            (unterminated_request_stays_pending None None false false 10240
               "http://localhost:3000" 10%Q true Sample.unanswered_env "1" _))
            [] (Sample.will_be_sent "1" "http://localhost:3000/api/items" "XHR") []
            eq_refl eq_refl eq_refl).
  intros ev [<-|[]]. discriminate.
Defined.

(** C1, counterexample.  One accepted start and no terminal event: when
    the window ends the request is in the pending map and the report is
    built with an empty [data]. *)
Lemma unanswered_request_not_reported :
  let o := NetworkInspector.capture Sample.inspector "http://localhost:3000" 10%Q
             true Sample.unanswered_env in
  is_Some (NetworkInspector.requests (NetworkInspector.final o) !! "1"%string)
  /\ exists rep, NetworkInspector.report o = Some rep
                 /\ NetworkInspector.data rep = []
                 /\ NetworkInspector.total (NetworkInspector.summary rep) = 0%nat.
Proof.
  split.
  - eexists. vm_compute. reflexivity.
  - eexists. split; [vm_compute; reflexivity|]. split; reflexivity.
Qed.

(** C8 (as amended). A start event that the filter accepts and whose id is
    already pending replaces the pending dict by a fresh one built from the
    new event, without response, timing or error; the other pending dicts
    and [completed] are unchanged.  The combined debugger replaces its
    entry in the same way and appends one more request event.  No start is
    dropped because of its id. *)
Theorem duplicate_start_replaces_pending `{Runtime}
    (self : NetworkInspector.Inspector) (p : NetworkInspector.WillBeSent)
    (old : NetworkInspector.Request) :
  NetworkInspector.requests self !! NetworkInspector.ws_requestId p = Some old ->
  NetworkInspector.should_capture self (NetworkInspector.ws_url p)
    (default "Other"%string (NetworkInspector.ws_type p)) = true ->
  let self' := NetworkInspector.on_request_will_be_sent p self in
  (exists r,
      NetworkInspector.requests self' !! NetworkInspector.ws_requestId p = Some r
      /\ NetworkInspector.r_url r = NetworkInspector.ws_url p
      /\ NetworkInspector.r_method r = NetworkInspector.ws_method p
      /\ NetworkInspector.r_type r = default "Other"%string (NetworkInspector.ws_type p)
      /\ NetworkInspector.r_timing r = None
      /\ NetworkInspector.r_response r = None
      /\ NetworkInspector.r_error r = None)
  /\ (forall k, k <> NetworkInspector.ws_requestId p ->
                NetworkInspector.requests self' !! k
                = NetworkInspector.requests self !! k)
  /\ NetworkInspector.completed self' = NetworkInspector.completed self
  /\ (forall (dbg : CombinedDebugger.Debugger) request now previous,
         CombinedDebugger.requests dbg !! CombinedDebugger.ident request
         = Some previous ->
         CombinedDebugger.should_capture_request dbg
           (CombinedDebugger.q_url request)
           (CombinedDebugger.q_resource_type request) = true ->
         let dbg' := CombinedDebugger.on_request request now dbg in
         (exists d,
             CombinedDebugger.requests dbg' !! CombinedDebugger.ident request = Some d
             /\ CombinedDebugger.d_url d = CombinedDebugger.q_url request
             /\ CombinedDebugger.d_status d = None
             /\ CombinedDebugger.d_timestamp_ms d
                = now - CombinedDebugger.start_time dbg)
         /\ CombinedDebugger.events dbg'
            = (CombinedDebugger.events dbg
               ++ [CombinedDebugger.Request (now - CombinedDebugger.start_time dbg)
                     (CombinedDebugger.q_url request)
                     (CombinedDebugger.q_method request)
                     (CombinedDebugger.q_resource_type request)])%list).
Proof.
  intros _ Hcap self'. subst self'.
  destruct (on_request_will_be_sent_accepted p self Hcap)
    as (r & Hreq & _ & Hurl & Hmeth & Hty & Htim & Hresp & Herr & _).
  split; [|split; [|split]].
  - exists r. rewrite Hreq, lookup_insert_eq. repeat split; assumption.
  - intros k Hk. rewrite Hreq. apply lookup_insert_ne. congruence.
  - apply on_request_will_be_sent_completed.
  - intros dbg request now previous _ Hacc dbg'. subst dbg'.
    destruct (on_request_accepted request now dbg Hacc)
      as (Hev & d & Hd & Hurl' & Hst & Hts).
    split; [|exact Hev].
    exists d. rewrite Hd, lookup_insert_eq. repeat split; assumption.
Qed.

(** C8 on a request that is redirected: the second start replaces the
    pending dict and its response. *)
Lemma duplicate_start_replaces_pending_witness :
  let s1 :=
    NetworkInspector.deliver
      [NetworkInspector.RequestWillBeSent
         (Sample.will_be_sent "1" "http://localhost:3000/api/items" "XHR");
       NetworkInspector.ResponseReceived (Sample.received "1" 302)]
      Sample.inspector in
  let s2 :=
    NetworkInspector.on_request_will_be_sent
      (Sample.will_be_sent "1" "http://localhost:3000/api/moved" "XHR") s1 in
  exists r, NetworkInspector.requests s2 !! "1"%string = Some r
            /\ NetworkInspector.r_url r = "http://localhost:3000/api/moved"%string
            /\ NetworkInspector.r_response r = None.
Proof.
  assert (Hold : is_Some
                   (NetworkInspector.requests
                      (NetworkInspector.deliver
                         [NetworkInspector.RequestWillBeSent
                            (Sample.will_be_sent "1" "http://localhost:3000/api/items"
                               "XHR");
                          NetworkInspector.ResponseReceived (Sample.received "1" 302)]
                         Sample.inspector)
                    !! NetworkInspector.ws_requestId
                         (Sample.will_be_sent "1" "http://localhost:3000/api/moved"
                            "XHR"))).
  { eexists. vm_compute. reflexivity. }
  destruct Hold as [old Hold].
  destruct (duplicate_start_replaces_pending _ _ old Hold eq_refl)
    as [(r & Hr & Hurl & _ & _ & _ & Hresp & _) _].
  exists r. split; [exact Hr|]. split; [exact Hurl | exact Hresp].
Defined.

(** C8, counterexample.  A second start with the id of a pending request
    that already has its response: afterwards the pending dict has the URL
    of the second start and no response. *)
Lemma duplicate_start_overwrites :
  let s1 :=
    NetworkInspector.deliver
      [NetworkInspector.RequestWillBeSent
         (Sample.will_be_sent "1" "http://localhost:3000/api/items" "XHR");
       NetworkInspector.ResponseReceived (Sample.received "1" 302)]
      Sample.inspector in
  let s2 :=
    NetworkInspector.on_request_will_be_sent
      (Sample.will_be_sent "1" "http://localhost:3000/api/moved" "XHR") s1 in
  (NetworkInspector.r_url <$> NetworkInspector.requests s1 !! "1"%string)
  = Some "http://localhost:3000/api/items"%string
  /\ (NetworkInspector.status <$>
        (NetworkInspector.requests s1 !! "1"%string
           ≫= NetworkInspector.r_response)) = Some 302
  /\ (NetworkInspector.r_url <$> NetworkInspector.requests s2 !! "1"%string)
     = Some "http://localhost:3000/api/moved"%string
  /\ (NetworkInspector.requests s2 !! "1"%string ≫= NetworkInspector.r_response)
     = None
  /\ s2 <> s1.
Proof.
  repeat split; try (vm_compute; reflexivity).
  intros Heq.
  apply (f_equal (fun s => NetworkInspector.r_url <$>
                             NetworkInspector.requests s !! "1"%string)) in Heq.
  vm_compute in Heq. discriminate Heq.
Qed.

(** ** Navigation failure *)

(** The error count is defined when every completed request without an
    error has its response. *)
Lemma error_count_defined (l : list NetworkInspector.Entry) :
  (forall r, In (NetworkInspector.RequestEntry r) l ->
             NetworkInspector.r_error r = None ->
             is_Some (NetworkInspector.r_response r)) ->
  is_Some (NetworkInspector.error_count l).
Proof.
  induction l as [|e l IH]; intros Hl; simpl; [now eexists|].
  destruct IH as [n ->]; [intros r Hr; apply Hl; now right|].
  destruct e as [r|u t]; simpl.
  - unfold NetworkInspector.is_error. simpl.
    destruct (NetworkInspector.r_error r) eqn:Herr; [now eexists|].
    destruct (Hl r (or_introl eq_refl) Herr) as [resp ->]. now eexists.
  - now eexists.
Qed.

Lemma combined_handle_start_time `{Runtime} self ev :
  CombinedDebugger.start_time (CombinedDebugger.handle self ev)
  = CombinedDebugger.start_time self.
Proof.
  destruct ev; simpl.
  - unfold CombinedDebugger.on_request. now destruct (negb _).
  - unfold CombinedDebugger.on_response.
    now destruct (CombinedDebugger.requests self !! _).
  - unfold CombinedDebugger.on_request_failed.
    now destruct (CombinedDebugger.requests self !! _).
  - unfold CombinedDebugger.on_console. now destruct (_ && _).
  - reflexivity.
Qed.

Lemma combined_deliver_start_time `{Runtime} evs self :
  CombinedDebugger.start_time (CombinedDebugger.deliver evs self)
  = CombinedDebugger.start_time self.
Proof.
  revert self. induction evs as [|ev evs IH]; intros self; simpl; [reflexivity|].
  now rewrite IH, combined_handle_start_time.
Qed.

(** C7 (as amended). When [page.goto] raises, each tool records the
    failure and still returns: the network inspector appends the
    navigation entry to [completed] and its report, when the error count
    is defined, holds it; the console debugger's report holds the
    navigation error; the combined debugger's report holds a
    navigation-error event.  Only the combined debugger then sleeps for the
    observation window and handles its events; the network inspector and
    the console debugger go from the failed [goto] to closing the browser. *)
Theorem navigation_failure_is_recorded `{Runtime} :
  (forall self url duration wait_for_idle env e,
      NetworkInspector.goto_raises env = Some e ->
      let s := NetworkInspector.deliver (NetworkInspector.goto_events env) self in
      let o := NetworkInspector.capture self url duration wait_for_idle env in
      NetworkInspector.trace o = [NetworkInspector.Goto; NetworkInspector.Close]
      /\ NetworkInspector.completed (NetworkInspector.final o)
         = (NetworkInspector.completed s ++ [NetworkInspector.NavigationEntry url e])%list
      /\ NetworkInspector.requests (NetworkInspector.final o)
         = NetworkInspector.requests s
      /\ (forall rep, NetworkInspector.report o = Some rep ->
                      In (NetworkInspector.NavigationEntry url e)
                         (NetworkInspector.data rep))
      /\ ((forall r, In (NetworkInspector.RequestEntry r) (NetworkInspector.completed s) ->
                     NetworkInspector.r_error r = None ->
                     is_Some (NetworkInspector.r_response r)) ->
          is_Some (NetworkInspector.report o)))
  /\ (forall dbg url duration wait_for_idle env e,
         ConsoleDebugger.goto_raises env = Some e ->
         let o := ConsoleDebugger.capture dbg url duration wait_for_idle env in
         ConsoleDebugger.trace o = [ConsoleDebugger.Goto; ConsoleDebugger.Close]
         /\ In (ConsoleDebugger.NavigationError ("Navigation failed: " +:+ e) e)
               (ConsoleDebugger.data (ConsoleDebugger.report o)))
  /\ (forall dbg url duration env e now,
         CombinedDebugger.goto_raises env = Some (e, now) ->
         let o := CombinedDebugger.capture dbg url duration env in
         let failure :=
           CombinedDebugger.NavigationError (now - CombinedDebugger.clock_start env) e in
         CombinedDebugger.trace o
         = [CombinedDebugger.Goto; CombinedDebugger.Sleep duration;
            CombinedDebugger.CloseContext; CombinedDebugger.CloseBrowser]
         /\ CombinedDebugger.final o
            = CombinedDebugger.deliver (CombinedDebugger.sleep_events env)
                (CombinedDebugger.append_event failure
                   (CombinedDebugger.deliver (CombinedDebugger.goto_events env)
                      (CombinedDebugger.set_start_time
                         (CombinedDebugger.clock_start env) dbg)))
         /\ exists c, In c (CombinedDebugger.events_out (CombinedDebugger.report o))
                      /\ CombinedDebugger.event c = failure
                      /\ CombinedDebugger.related_events c = None).
Proof.
  split; [|split].
  - intros self url duration wait_for_idle env e He s o. subst s o.
    unfold NetworkInspector.capture. rewrite He. simpl.
    split; [reflexivity|]. split; [reflexivity|]. split; [reflexivity|]. split.
    + intros rep Hrep. apply build_report_data in Hrep. rewrite Hrep. simpl.
      apply List.in_app_iff. right. now left.
    + intros Hresp. unfold NetworkInspector.build_report. simpl.
      destruct (error_count_defined
                  (NetworkInspector.completed
                     (NetworkInspector.deliver (NetworkInspector.goto_events env) self)
                   ++ [NetworkInspector.NavigationEntry url e])) as [n ->].
      * intros r Hin. apply List.in_app_iff in Hin as [Hin|[Hnav|[]]];
          [now apply Hresp | discriminate Hnav].
      * now eexists.
  - intros dbg url duration wait_for_idle env e He o. subst o.
    unfold ConsoleDebugger.capture. rewrite He. simpl. split; [reflexivity|].
    eapply Permutation_in; [symmetry; apply sorted_perm|].
    apply List.in_app_iff. right. apply List.in_app_iff. right. now left.
  - intros dbg url duration env e now He o failure. subst o failure.
    unfold CombinedDebugger.capture. rewrite He. simpl.
    rewrite combined_deliver_start_time. simpl.
    split; [reflexivity|]. split; [reflexivity|].
    match goal with
    | |- context [CombinedDebugger.deliver (CombinedDebugger.sleep_events env) ?s] =>
        destruct (deliver_events (CombinedDebugger.sleep_events env) s) as [added Hadd];
        destruct (build_output_item
                    (CombinedDebugger.deliver (CombinedDebugger.sleep_events env) s)
                    (CombinedDebugger.NavigationError
                       (now - CombinedDebugger.clock_start env) e))
          as (c & Hc & Hev & Hrel)
    end.
    + rewrite Hadd. simpl. apply List.in_app_iff. left.
      apply List.in_app_iff. right. now left.
    + exists c. split; [exact Hc|]. split; [exact Hev|]. now apply Hrel.
Qed.

(** C7 on a navigation of the network inspector that times out. *)
Lemma navigation_failure_is_recorded_witness :
  let o := NetworkInspector.capture Sample.inspector "http://localhost:3000" 10%Q
             true Sample.failed_navigation_env in
  NetworkInspector.trace o = [NetworkInspector.Goto; NetworkInspector.Close]
  /\ is_Some (NetworkInspector.report o).
Proof.
  destruct (proj1 navigation_failure_is_recorded Sample.inspector
              "http://localhost:3000" 10%Q true Sample.failed_navigation_env
              "Timeout 30000ms exceeded" eq_refl)
    as (Htrace & _ & _ & _ & Hrep).
  split; [exact Htrace|]. apply Hrep. intros r [].
Defined.

(** C7, counterexample.  The navigation of the network inspector times
    out: the only awaits are the [goto] and the close, there is no sleep,
    and the request the page would have made during the window is not
    seen; the navigation entry is the whole of [completed]. *)
Lemma failed_navigation_skips_window :
  let o := NetworkInspector.capture Sample.inspector "http://localhost:3000" 10%Q
             true Sample.failed_navigation_env in
  NetworkInspector.trace o = [NetworkInspector.Goto; NetworkInspector.Close]
  /\ ~ In (NetworkInspector.Sleep 10%Q) (NetworkInspector.trace o)
  /\ NetworkInspector.completed (NetworkInspector.final o)
     = [NetworkInspector.NavigationEntry "http://localhost:3000"
          "Timeout 30000ms exceeded"]
  /\ NetworkInspector.completed
       (NetworkInspector.deliver
          (NetworkInspector.sleep_events Sample.failed_navigation_env)
          Sample.inspector) <> [].
Proof.
  split; [reflexivity|]. split; [|split; [reflexivity|]].
  - intros [Hin|[Hin|[]]]; discriminate Hin.
  - vm_compute. discriminate.
Qed.

(** ** Related events *)

Lemma nearby_In sorted_events e e2 :
  In e2 (CombinedDebugger.nearby sorted_events e)
  <-> In e2 sorted_events
      /\ Z.abs (CombinedDebugger.timestamp_ms e2 - CombinedDebugger.timestamp_ms e) <= 100
      /\ e2 <> e.
Proof.
  unfold CombinedDebugger.nearby.
  rewrite List.filter_In, Bool.andb_true_iff, Z.leb_le, bool_decide_eq_true.
  tauto.
Qed.

Lemma failure_type_iff e :
  Py.str_in (CombinedDebugger.type_of e) ["page_error"; "request_failed"]%string = true
  <-> CombinedDebugger.type_of e = "page_error"%string
      \/ CombinedDebugger.type_of e = "request_failed"%string.
Proof. rewrite str_in_In. simpl. intuition congruence. Qed.

Lemma nearby_sublist sorted_events e :
  sublist (CombinedDebugger.nearby sorted_events e) sorted_events.
Proof.
  unfold CombinedDebugger.nearby.
  induction sorted_events as [|x l IH]; simpl; [constructor|].
  destruct (_ && _); now constructor.
Qed.

(** The related events of an item, the missing key read as the empty list. *)
Lemma correlate_related sorted_events e :
  default [] (CombinedDebugger.related_events
                (CombinedDebugger.correlate sorted_events e))
  = (if Py.str_in (CombinedDebugger.type_of e) ["page_error"; "request_failed"]%string
     then CombinedDebugger.nearby sorted_events e else [])
  /\ (CombinedDebugger.related_events (CombinedDebugger.correlate sorted_events e) = None
      <-> default [] (CombinedDebugger.related_events
                        (CombinedDebugger.correlate sorted_events e)) = []).
Proof.
  unfold CombinedDebugger.correlate.
  destruct (Py.str_in _ _); [|simpl; tauto].
  destruct (CombinedDebugger.nearby sorted_events e); simpl; [tauto|].
  split; [reflexivity|]. split; discriminate.
Qed.

(** C3 (as amended). In the output of [_build_output], the related events
    of an item whose type is ["page_error"] or ["request_failed"] are
    exactly the events of the output that are at most 100 ms away from the
    item's event and differ from it, no more and no less: an event is never
    related to itself, nor to an event with the same content.  They are
    listed in the order of the output, and the key is set exactly when the
    list is not empty.  An item of any other type, ["navigation_error"]
    included, has no related events. *)
Theorem related_events_of_failures (self : CombinedDebugger.Debugger)
    (c : CombinedDebugger.Correlated) :
  In c (CombinedDebugger.events_out (CombinedDebugger.build_output self)) ->
  let e := CombinedDebugger.event c in
  let out := List.map CombinedDebugger.event
               (CombinedDebugger.events_out (CombinedDebugger.build_output self)) in
  let related := default [] (CombinedDebugger.related_events c) in
  let near e2 :=
    Z.abs (CombinedDebugger.timestamp_ms e2 - CombinedDebugger.timestamp_ms e) <= 100 in
  (CombinedDebugger.type_of e = "page_error"%string
   \/ CombinedDebugger.type_of e = "request_failed"%string ->
   (forall e2, In e2 related <-> In e2 out /\ near e2 /\ e2 <> e)
   /\ ~ In e related
   /\ sublist related out
   /\ (CombinedDebugger.related_events c = None <-> related = []))
  /\ (CombinedDebugger.type_of e <> "page_error"%string ->
      CombinedDebugger.type_of e <> "request_failed"%string ->
      CombinedDebugger.related_events c = None).
Proof.
  intros Hc e out related near. subst e out related near.
  rewrite events_out_events.
  unfold CombinedDebugger.build_output in Hc. cbn [CombinedDebugger.events_out] in Hc.
  apply List.in_map_iff in Hc as (e & <- & He).
  rewrite correlate_event.
  destruct (correlate_related
              (Py.sorted CombinedDebugger.timestamp_ms (CombinedDebugger.events self)) e)
    as [Hrel Hnone].
  split.
  - intros Hty. apply failure_type_iff in Hty. rewrite Hty in Hrel.
    split; [|split; [|split]].
    + intros e2. rewrite Hrel, nearby_In. tauto.
    + rewrite Hrel, nearby_In. tauto.
    + rewrite Hrel. apply nearby_sublist.
    + exact Hnone.
  - intros Hp Hr. apply Hnone. rewrite Hrel.
    destruct (Py.str_in _ _) eqn:Hty; [|reflexivity].
    apply failure_type_iff in Hty. tauto.
Qed.

(** C3 on a page error followed 10 ms later by a console error and 450 ms
    later by a message: only the first is related. *)
Lemma related_events_of_failures_witness :
  let o := CombinedDebugger.capture Sample_pages.debugger "http://localhost:3000" 1
             Sample_pages.page_error_env in
  let c := {| CombinedDebugger.event :=
                CombinedDebugger.PageError 50 "TypeError: x is undefined";
              CombinedDebugger.related_events :=
                Some [CombinedDebugger.Console 60 "error" "x"] |} in
  In c (CombinedDebugger.events_out (CombinedDebugger.report o))
  /\ ~ In (CombinedDebugger.Console 500 "log" "late")
          (default [] (CombinedDebugger.related_events c)).
Proof.
  assert (Hc : In {| CombinedDebugger.event :=
                       CombinedDebugger.PageError 50 "TypeError: x is undefined";
                     CombinedDebugger.related_events :=
                       Some [CombinedDebugger.Console 60 "error" "x"] |}
                 (CombinedDebugger.events_out
                    (CombinedDebugger.build_output
                       (CombinedDebugger.final
                          (CombinedDebugger.capture Sample_pages.debugger
                             "http://localhost:3000" 1 Sample_pages.page_error_env))))).
  { vm_compute. left. reflexivity. }
  split; [exact Hc|].
  destruct (related_events_of_failures _ _ Hc) as [Hfail _].
  destruct (Hfail (or_introl eq_refl)) as (Hexact & _).
  intros Hin. apply Hexact in Hin. destruct Hin as (_ & Hnear & _).
  vm_compute in Hnear. apply Hnear. reflexivity.
Defined.

(** C3, counterexample.  The navigation fails and a console message
    follows 10 ms later: the navigation-error item of the report has no
    related events, although the message is within 100 ms of it. *)
Lemma navigation_error_has_no_related_events :
  let o := CombinedDebugger.capture Sample_pages.debugger "http://localhost:3000" 1
             Sample_pages.failed_navigation_env in
  CombinedDebugger.events_out (CombinedDebugger.report o)
  = [ {| CombinedDebugger.event :=
           CombinedDebugger.NavigationError 0 "net::ERR_CONNECTION_REFUSED";
         CombinedDebugger.related_events := None |};
      {| CombinedDebugger.event := CombinedDebugger.Console 10 "log" "retrying";
         CombinedDebugger.related_events := None |} ]
  /\ Z.abs (10 - 0) <= 100.
Proof. split; [vm_compute; reflexivity | simpl; lia]. Qed.

(** Equal dicts are not related to one another: [e != event] compares
    contents, so a second page error with the same text and offset is left
    out of the related events of the first. *)
Example equal_events_are_not_related :
  let e := CombinedDebugger.PageError 50 "boom" in
  CombinedDebugger.nearby [e; e] e = [].
Proof. vm_compute. reflexivity. Qed.

(** ** The severity filter *)

(** [_on_console] of the combined debugger stores a message exactly when
    [errors_only] is off or its level is ["error"] or ["warning"]. *)
Lemma combined_console_filter `{Runtime} (self : CombinedDebugger.Debugger)
    (msg : CombinedDebugger.ConsoleMsg) (now : Z) :
  let level := CombinedDebugger.msg_type msg in
  let stored :=
    CombinedDebugger.Console (now - CombinedDebugger.start_time self) level
      (CombinedDebugger.msg_text msg) in
  (CombinedDebugger.errors_only self = false
   \/ level = "error"%string \/ level = "warning"%string ->
   CombinedDebugger.events (CombinedDebugger.on_console msg now self)
   = (CombinedDebugger.events self ++ [stored])%list)
  /\ (~ (CombinedDebugger.errors_only self = false
         \/ level = "error"%string \/ level = "warning"%string) ->
      CombinedDebugger.on_console msg now self = self).
Proof.
  intros level stored. subst level stored. unfold CombinedDebugger.on_console.
  destruct (Py.str_in (CombinedDebugger.msg_type msg) ["error"; "warning"]%string)
    eqn:Hin.
  - rewrite Bool.andb_false_r. split; [reflexivity|].
    apply str_in_In in Hin. simpl in Hin. intros Hno. exfalso. apply Hno.
    intuition congruence.
  - apply not_true_iff_false in Hin. rewrite str_in_In in Hin. simpl in Hin.
    destruct (CombinedDebugger.errors_only self); simpl.
    + split; [|reflexivity].
      intros [Hf|[He|Hw]]; [discriminate Hf | |]; exfalso; apply Hin; auto.
    + split; [reflexivity|]. intros Hno. exfalso. apply Hno. now left.
Qed.

(** [_on_console_api_called] of the console debugger stores a message
    exactly when [errors_only] is off or its type is ["error"],
    ["warning"] or ["assert"]; [_on_exception_thrown] always stores. *)
Lemma console_debugger_filter (self : ConsoleDebugger.Debugger)
    (p : ConsoleDebugger.ConsoleAPICalled) :
  let msg_type := default "log"%string (ConsoleDebugger.ca_type p) in
  let accepted :=
    ConsoleDebugger.errors_only self = false
    \/ msg_type = "error"%string \/ msg_type = "warning"%string
    \/ msg_type = "assert"%string in
  (accepted ->
   exists m, ConsoleDebugger.messages (ConsoleDebugger.on_console_api_called p self)
             = (ConsoleDebugger.messages self ++ [m])%list
             /\ ConsoleDebugger.level_of m = ConsoleDebugger.type_to_level msg_type)
  /\ (~ accepted -> ConsoleDebugger.on_console_api_called p self = self).
Proof.
  intros msg_type accepted. subst msg_type accepted.
  unfold ConsoleDebugger.on_console_api_called.
  destruct (Py.str_in (default "log"%string (ConsoleDebugger.ca_type p))
              ["error"; "warning"; "assert"]%string) eqn:Hin.
  - rewrite Bool.andb_false_r. split; [intros _; eexists; split; reflexivity|].
    apply str_in_In in Hin. simpl in Hin. intros Hno. exfalso. apply Hno.
    intuition congruence.
  - apply not_true_iff_false in Hin. rewrite str_in_In in Hin. simpl in Hin.
    destruct (ConsoleDebugger.errors_only self); simpl.
    + split; [|reflexivity].
      intros [Hf|[He|[Hw|Ha]]]; [discriminate Hf | | |]; exfalso; apply Hin; auto.
    + split; [intros _; eexists; split; reflexivity|].
      intros Hno. exfalso. apply Hno. now left.
Qed.

(** With [errors_only] on, a console message of type ["log"] is stored by
    neither debugger. *)
Lemma log_dropped_by_errors_only `{Runtime}
    (dbg : ConsoleDebugger.Debugger) (p : ConsoleDebugger.ConsoleAPICalled)
    (self : CombinedDebugger.Debugger) (msg : CombinedDebugger.ConsoleMsg) (now : Z) :
  (ConsoleDebugger.errors_only dbg = true ->
   ConsoleDebugger.ca_type p = Some "log"%string \/ ConsoleDebugger.ca_type p = None ->
   ConsoleDebugger.on_console_api_called p dbg = dbg)
  /\ (CombinedDebugger.errors_only self = true ->
      CombinedDebugger.msg_type msg = "log"%string ->
      CombinedDebugger.on_console msg now self = self).
Proof.
  split.
  - intros Heo Hty. unfold ConsoleDebugger.on_console_api_called. rewrite Heo.
    now destruct Hty as [-> | ->].
  - intros Heo Hty. unfold CombinedDebugger.on_console. now rewrite Heo, Hty.
Qed.

(** The one type on which the test on the type and the test on the level
    differ.  The table of [_type_to_level] gives the type ["warn"] the
    level ["warning"], and with [errors_only] on [_on_console_api_called]
    drops a call of that type.  The protocol does not send it:
    [console.warn] arrives with the type ["warning"], which is stored. *)
Example warn_level_message_dropped :
  let dbg := Sample_pages.errors_only_console in
  let p := Sample_pages.console_call "warn" in
  ConsoleDebugger.type_to_level "warn" = "warning"%string
  /\ ConsoleDebugger.on_console_api_called p dbg = dbg
  /\ ConsoleDebugger.data
       (ConsoleDebugger.build_report
          (ConsoleDebugger.on_console_api_called p dbg) "http://localhost:3000" 10%Q)
     = []
  /\ exists m,
       ConsoleDebugger.messages
         (ConsoleDebugger.on_console_api_called (Sample_pages.console_call "warning") dbg)
       = [m]
       /\ ConsoleDebugger.level_of m = "warning"%string.
Proof.
  repeat split. eexists. split; reflexivity.
Qed.

(** * Further properties of the three tools *)

(** ** Tables of counts *)

Section Count_tables.
Context {A : Type} (key : A -> string).

(** The loop shared by [_count_by_type] and [_count_by_level], from any
    table [m]: the entry of [t] grows by the number of items with key [t]
    and is not created when there is none. *)
Lemma count_fold_lookup (l : list A) (m : gmap string nat) (t : string) :
  fold_left
    (fun counts x => <[key x := (default 0 (counts !! key x) + 1)%nat]> counts) l m
  !! t
  = if (occurrences key t l =? 0)%nat then m !! t
    else Some (default 0 (m !! t) + occurrences key t l)%nat.
Proof.
  revert m. induction l as [|x l IH]; intros m; [reflexivity|].
  simpl fold_left. rewrite IH. unfold occurrences. simpl List.filter.
  destruct (String.eqb_spec (key x) t) as [->|Hne]; simpl length.
  - rewrite lookup_insert_eq. simpl.
    destruct (Nat.eqb_spec (length (List.filter (fun x0 => String.eqb (key x0) t) l)) 0)
      as [->|_]; f_equal; lia.
  - now rewrite lookup_insert_ne.
Qed.

Lemma table_total_bump (m : gmap string nat) (k : string) :
  table_total (<[k := (default 0 (m !! k) + 1)%nat]> m) = S (table_total m).
Proof.
  unfold table_total.
  destruct (m !! k) as [v|] eqn:Hk; simpl.
  - rewrite <- insert_delete_eq.
    rewrite map_fold_insert_L; [| intros; lia | apply lookup_delete_eq].
    rewrite (map_fold_delete_L _ _ k v m); [lia | intros; lia | exact Hk].
  - rewrite map_fold_insert_L; [lia | intros; lia | exact Hk].
Qed.

Lemma count_fold_total (l : list A) (m : gmap string nat) :
  table_total
    (fold_left
       (fun counts x => <[key x := (default 0 (counts !! key x) + 1)%nat]> counts) l m)
  = (table_total m + length l)%nat.
Proof.
  revert m. induction l as [|x l IH]; intros m; simpl; [lia|].
  rewrite IH, table_total_bump. lia.
Qed.

End Count_tables.

(** ** The summary of the network inspector *)

(** [_count_by_type]: the table holds, for every resource type, the number
    of items of [completed] of that type (["Other"] for an item without
    one), has no entry for a type without items, and its values add up to
    the number of items. *)
Theorem by_type_counts_every_item (self : NetworkInspector.Inspector) (t : string) :
  let n := occurrences NetworkInspector.entry_type t (NetworkInspector.completed self) in
  NetworkInspector.count_by_type self !! t = (if (n =? 0)%nat then None else Some n)
  /\ table_total (NetworkInspector.count_by_type self)
     = length (NetworkInspector.completed self).
Proof.
  intros n. subst n. split.
  - pose proof (count_fold_lookup NetworkInspector.entry_type
                  (NetworkInspector.completed self) ∅ t) as Hc.
    rewrite lookup_empty in Hc. exact Hc.
  - pose proof (count_fold_total NetworkInspector.entry_type
                  (NetworkInspector.completed self) ∅) as Hc.
    exact Hc.
Qed.

(** The error weight of one item for the three counters that [errors]
    adds up. *)
Lemma count_status_errors counts e b :
  NetworkInspector.is_error e = Some b ->
  let c := NetworkInspector.count_status counts e in
  (NetworkInspector.failed c + NetworkInspector.c4xx c + NetworkInspector.c5xx c
   = NetworkInspector.failed counts + NetworkInspector.c4xx counts
     + NetworkInspector.c5xx counts + (if b then 1 else 0))%nat.
Proof.
  unfold NetworkInspector.is_error, NetworkInspector.count_status.
  destruct (NetworkInspector.entry_error e); [intros [= <-]; simpl; lia|].
  destruct e as [r|u x]; [|intros [= <-]; simpl; lia].
  destruct r as [? ? ? ? ? ? ? [resp|] ? ? ? ? ?]; simpl; [|discriminate].
  intros [= <-].
  destruct (Z.leb_spec 200 (NetworkInspector.status resp)),
           (Z.ltb_spec (NetworkInspector.status resp) 300),
           (Z.leb_spec 300 (NetworkInspector.status resp)),
           (Z.ltb_spec (NetworkInspector.status resp) 400),
           (Z.leb_spec 400 (NetworkInspector.status resp)),
           (Z.ltb_spec (NetworkInspector.status resp) 500),
           (Z.geb_spec (NetworkInspector.status resp) 400),
           (Z.geb_spec (NetworkInspector.status resp) 500);
    simpl; lia.
Qed.

Lemma error_count_by_status l n counts :
  NetworkInspector.error_count l = Some n ->
  let c := fold_left NetworkInspector.count_status l counts in
  (NetworkInspector.failed c + NetworkInspector.c4xx c + NetworkInspector.c5xx c
   = NetworkInspector.failed counts + NetworkInspector.c4xx counts
     + NetworkInspector.c5xx counts + n)%nat
  /\ (n <= length l)%nat.
Proof.
  revert n counts. induction l as [|e l IH]; intros n counts; simpl.
  - intros [= <-]. split; lia.
  - destruct (NetworkInspector.is_error e) as [b|] eqn:He; [|discriminate].
    destruct (NetworkInspector.error_count l) as [m|]; [|discriminate].
    intros [= <-].
    destruct (IH m (NetworkInspector.count_status counts e) eq_refl) as [Hsum Hle].
    pose proof (count_status_errors counts e b He) as Hstep. simpl in Hstep.
    destruct b; split; lia.
Qed.

(** The [errors] of a report is the number of its items counted as
    [failed], [4xx] or [5xx] by [by_status], and is at most [total]. *)
Theorem errors_are_failed_4xx_5xx (self : NetworkInspector.Inspector)
    (url : string) (duration : Q) (rep : NetworkInspector.Report) :
  NetworkInspector.build_report self url duration = Some rep ->
  let s := NetworkInspector.summary rep in
  let c := NetworkInspector.by_status s in
  NetworkInspector.errors s
  = (NetworkInspector.failed c + NetworkInspector.c4xx c + NetworkInspector.c5xx c)%nat
  /\ (NetworkInspector.errors s <= NetworkInspector.total s)%nat.
Proof.
  unfold NetworkInspector.build_report.
  destruct (NetworkInspector.error_count (NetworkInspector.completed self))
    as [n|] eqn:Hn; [|discriminate].
  intros [= <-]. simpl.
  destruct (error_count_by_status _ n
              {| NetworkInspector.c2xx := 0; NetworkInspector.c3xx := 0;
                 NetworkInspector.c4xx := 0; NetworkInspector.c5xx := 0;
                 NetworkInspector.failed := 0 |} Hn) as [Hsum Hle].
  simpl in Hsum. unfold NetworkInspector.count_by_status. split; lia.
Qed.

(** A page with a 200, a 404 and a failed request: the report counts two
    errors among three items. *)
Lemma errors_are_failed_4xx_5xx_witness :
  match NetworkInspector.build_report
          (NetworkInspector.deliver mixed_traffic Sample.inspector)
          "http://localhost:3000" 10%Q with
  | Some rep =>
      NetworkInspector.errors (NetworkInspector.summary rep) = 2%nat
      /\ NetworkInspector.total (NetworkInspector.summary rep) = 3%nat
  | None => False
  end.
Proof.
  destruct (NetworkInspector.build_report
              (NetworkInspector.deliver mixed_traffic Sample.inspector)
              "http://localhost:3000" 10%Q) as [rep|] eqn:E.
  - destruct (errors_are_failed_4xx_5xx _ _ _ _ E) as [Herr _].
    rewrite Herr. vm_compute in E. injection E as <-. vm_compute. split; reflexivity.
  - vm_compute in E. discriminate E.
Defined.

(** ** Invariants of the network inspector's handlers *)

Section Network_invariants.
Context `{Runtime}.

Import NetworkInspector.

Lemma handle_capture_bodies self ev :
  capture_bodies (handle self ev) = capture_bodies self.
Proof.
  destruct ev as [p|p|p|p]; simpl.
  - unfold on_request_will_be_sent. now destruct (negb _).
  - unfold on_response_received. now destruct (requests self !! _).
  - unfold on_loading_finished. destruct (requests self !! _); [|easy].
    destruct (if negb (errors_only self) then _ else _) as [[|]|]; easy.
  - unfold on_loading_failed. now destruct (requests self !! _).
Qed.

Lemma handle_well_formed self ev : well_formed self -> well_formed (handle self ev).
Proof.
  intros [Hpend Hdone]. unfold well_formed.
  rewrite handle_capture_bodies.
  destruct ev as [p|p|p|p]; simpl.
  - unfold on_request_will_be_sent. destruct (negb _); simpl; [now split|].
    split; [|exact Hdone].
    intros k r Hk. apply lookup_insert_Some in Hk as [[_ <-]|[_ Hk]];
      [now repeat split | exact (Hpend _ _ Hk)].
  - unfold on_response_received.
    destruct (requests self !! rr_requestId p) as [req|] eqn:Hreq; simpl;
      [|now split].
    split; [|exact Hdone].
    intros k r Hk. apply lookup_insert_Some in Hk as [[_ <-]|[_ Hk]];
      [|exact (Hpend _ _ Hk)].
    destruct (Hpend _ _ Hreq) as [Herr Hbody].
    destruct (rr_timing p); simpl; split; auto.
  - unfold on_loading_finished.
    destruct (requests self !! lf_requestId p) as [req|] eqn:Hreq; simpl;
      [|now split].
    destruct (Hpend _ _ Hreq) as [Herr Hbody].
    assert (Hreq2 :
      forall r,
        r = (if capture_bodies self
             then match lf_fetch p with
                  | FetchOk body base64Encoded =>
                      set_body_base64 (Some (default false base64Encoded))
                        (set_response_body
                           (Some (Some (truncate_body (max_body_size self)
                                          (default ""%string body))))
                           (set_encoded_data_length
                              (Some (default 0 (lf_encodedDataLength p)))
                              (set_completed (Some true) req)))
                  | FetchRaises =>
                      set_response_body (Some None)
                        (set_encoded_data_length
                           (Some (default 0 (lf_encodedDataLength p)))
                           (set_completed (Some true) req))
                  end
             else set_encoded_data_length (Some (default 0 (lf_encodedDataLength p)))
                    (set_completed (Some true) req)) ->
        r_error r = None /\ r_completed r = Some true
        /\ (capture_bodies self = false ->
            r_response_body r = None /\ r_body_base64 r = None)).
    { intros r ->. destruct (capture_bodies self) eqn:Hcb.
      - destruct (lf_fetch p); simpl; repeat split; auto; discriminate.
      - simpl. repeat split; auto; now apply Hbody. }
    destruct (if negb (errors_only self) then _ else _) as [[|]|]; simpl.
    + split.
      * intros k r Hk. apply lookup_delete_Some in Hk as [_ Hk]. exact (Hpend _ _ Hk).
      * intros r Hin. apply List.in_app_iff in Hin as [Hin|[[= <-]|[]]];
          [now apply Hdone|].
        destruct (Hreq2 _ eq_refl) as (He & Hc & Hb). split; [now left | exact Hb].
    + split; [|exact Hdone].
      intros k r Hk. apply lookup_delete_Some in Hk as [_ Hk]. exact (Hpend _ _ Hk).
    + split; [|exact Hdone].
      intros k r Hk. apply lookup_insert_Some in Hk as [[_ <-]|[_ Hk]];
        [|exact (Hpend _ _ Hk)].
      destruct (Hreq2 _ eq_refl) as (He & Hc & Hb). now split.
  - unfold on_loading_failed.
    destruct (requests self !! fl_requestId p) as [req|] eqn:Hreq; simpl;
      [|now split].
    destruct (Hpend _ _ Hreq) as [Herr Hbody]. split.
    + intros k r Hk. apply lookup_delete_Some in Hk as [_ Hk]. exact (Hpend _ _ Hk).
    + intros r Hin. apply List.in_app_iff in Hin as [Hin|[[= <-]|[]]];
        [now apply Hdone|].
      simpl. split; [right; split; [now eexists | reflexivity] | exact Hbody].
Qed.

Lemma deliver_well_formed evs self :
  well_formed self -> well_formed (deliver evs self).
Proof.
  revert self. induction evs as [|ev evs IH]; intros self Hwf; simpl; [exact Hwf|].
  apply IH, handle_well_formed, Hwf.
Qed.

Lemma init_well_formed ft up eo cb mbs : well_formed (init ft up eo cb mbs).
Proof.
  split.
  - intros k r Hk. simpl in Hk. now rewrite lookup_empty in Hk.
  - intros r [].
Qed.

End Network_invariants.

Section Network_reports.
Context `{Runtime}.

Import NetworkInspector.

Lemma capture_completed_requests self url duration wait_for_idle env r :
  In (RequestEntry r) (completed (final (capture self url duration wait_for_idle env)))
  <-> In (RequestEntry r) (completed (deliver (delivered wait_for_idle env) self)).
Proof.
  rewrite capture_final. destruct (goto_raises env); [|reflexivity].
  simpl. rewrite List.in_app_iff. simpl. intuition discriminate.
Qed.

End Network_reports.

(** In every run of [capture] on a new inspector, a request item of
    [completed] has ["completed": True] exactly when it has no error and
    ["completed": False] exactly when it has one: the flag tells finished
    requests from failed ones. *)
Theorem completed_flag_matches_error `{Runtime}
    (filter_types : option (list string)) (url_pattern : option string)
    (errors_only capture_bodies : bool) (max_body_size : Z)
    (url : string) (duration : Q) (wait_for_idle : bool) (env : NetworkInspector.Env) :
  let self := NetworkInspector.init filter_types url_pattern errors_only
                capture_bodies max_body_size in
  let o := NetworkInspector.capture self url duration wait_for_idle env in
  Forall
    (fun e =>
       match e with
       | NetworkInspector.RequestEntry r =>
           (NetworkInspector.r_completed r = Some true
            <-> NetworkInspector.r_error r = None)
           /\ (NetworkInspector.r_completed r = Some false
               <-> is_Some (NetworkInspector.r_error r))
       | NetworkInspector.NavigationEntry _ _ => True
       end)
    (NetworkInspector.completed (NetworkInspector.final o)).
Proof.
  intros self o. apply List.Forall_forall. intros [r|u x] Hin; [|exact I].
  apply capture_completed_requests in Hin.
  destruct (deliver_well_formed (delivered wait_for_idle env) self
              (init_well_formed _ _ _ _ _)) as [_ Hdone].
  destruct (Hdone r Hin) as [[[Herr Hc]|[[x Herr] Hc]] _]; rewrite Herr, Hc.
  - split; split; try reflexivity; try discriminate. intros [y Hy]. discriminate Hy.
  - split; split; try discriminate; try reflexivity. intros _. now eexists.
Qed.

Lemma deliver_capture_bodies `{Runtime} evs self :
  NetworkInspector.capture_bodies (NetworkInspector.deliver evs self)
  = NetworkInspector.capture_bodies self.
Proof.
  revert self. induction evs as [|ev evs IH]; intros self; [reflexivity|].
  change (NetworkInspector.deliver (ev :: evs) self)
    with (NetworkInspector.deliver evs (NetworkInspector.handle self ev)).
  now rewrite IH, handle_capture_bodies.
Qed.

(** Without body capture no request the inspector holds, pending or
    completed, has the key ["response_body"] or ["body_base64"]. *)
Theorem no_body_without_capture `{Runtime}
    (filter_types : option (list string)) (url_pattern : option string)
    (errors_only : bool) (max_body_size : Z)
    (evs : list NetworkInspector.CdpEvent) (r : NetworkInspector.Request) :
  let self := NetworkInspector.deliver evs
                (NetworkInspector.init filter_types url_pattern errors_only false
                   max_body_size) in
  stored self r ->
  NetworkInspector.r_response_body r = None
  /\ NetworkInspector.r_body_base64 r = None.
Proof.
  intros self Hst. subst self.
  destruct (deliver_well_formed evs
              (NetworkInspector.init filter_types url_pattern errors_only false
                 max_body_size) (init_well_formed _ _ _ _ _)) as [Hpend Hdone].
  pose proof (deliver_capture_bodies evs
                (NetworkInspector.init filter_types url_pattern errors_only false
                   max_body_size)) as Hcb.
  simpl in Hcb.
  destruct Hst as [Hin|[k Hk]].
  - now apply (Hdone r Hin).
  - now apply (Hpend k r Hk).
Qed.

(** A 200 answered with body capture off: the completed request has no
    body key. *)
Lemma no_body_without_capture_witness :
  exists r,
    NetworkInspector.completed
      (NetworkInspector.deliver
         (NetworkInspector.goto_events Sample.one_request_env) Sample.inspector)
    = [NetworkInspector.RequestEntry r]
    /\ NetworkInspector.r_response_body r = None.
Proof.
  eexists. split; [vm_compute; reflexivity|].
  refine (proj1 (no_body_without_capture None None false 10240
                   (NetworkInspector.goto_events Sample.one_request_env) _ _)).
  left. vm_compute. left. reflexivity.
Defined.

(** ** The errors-only mode of the network inspector *)

Section Errors_only.
Context `{Runtime}.

Import NetworkInspector.

Lemma handle_errors_only self ev :
  errors_only self = true ->
  Forall (fun e => is_error e = Some true) (completed self) ->
  Forall (fun e => is_error e = Some true) (completed (handle self ev)).
Proof.
  intros Heo Hall. destruct ev as [p|p|p|p]; simpl.
  - unfold on_request_will_be_sent. now destruct (negb _).
  - unfold on_response_received. now destruct (requests self !! _).
  - unfold on_loading_finished. destruct (requests self !! _) as [req|]; [|exact Hall].
    rewrite Heo. simpl negb. cbv iota.
    match goal with
    | |- context [is_error ?e] => destruct (is_error e) as [[|]|] eqn:He
    end; simpl; try exact Hall.
    apply List.Forall_app. split; [exact Hall|]. now constructor.
  - unfold on_loading_failed. destruct (requests self !! _) as [req|]; [|exact Hall].
    simpl. apply List.Forall_app. split; [exact Hall|]. now constructor.
Qed.

Lemma deliver_errors_only evs self :
  errors_only self = true ->
  Forall (fun e => is_error e = Some true) (completed self) ->
  Forall (fun e => is_error e = Some true) (completed (deliver evs self)).
Proof.
  revert self. induction evs as [|ev evs IH]; intros self Heo Hall; [exact Hall|].
  change (deliver (ev :: evs) self) with (deliver evs (handle self ev)).
  apply IH.
  - destruct (handle_config self ev) as (_ & _ & ->). exact Heo.
  - now apply handle_errors_only.
Qed.

Lemma error_count_all_errors l :
  Forall (fun e => is_error e = Some true) l -> error_count l = Some (length l).
Proof.
  induction 1 as [|e l He _ IH]; simpl; [reflexivity|]. now rewrite He, IH.
Qed.

End Errors_only.

(** With [errors_only] on, [capture] on a new inspector always returns its
    report, every item of which is an error (a failed request, a response
    with status 400 or more, or the navigation entry), so that [errors]
    equals [total]; a request that finishes with a status below 400 is
    never reported. *)
Theorem errors_only_reports_errors_only `{Runtime}
    (filter_types : option (list string)) (url_pattern : option string)
    (capture_bodies : bool) (max_body_size : Z)
    (url : string) (duration : Q) (wait_for_idle : bool) (env : NetworkInspector.Env) :
  let self := NetworkInspector.init filter_types url_pattern true capture_bodies
                max_body_size in
  let o := NetworkInspector.capture self url duration wait_for_idle env in
  exists rep,
    NetworkInspector.report o = Some rep
    /\ Forall (fun e => NetworkInspector.is_error e = Some true)
              (NetworkInspector.data rep)
    /\ NetworkInspector.errors (NetworkInspector.summary rep)
       = NetworkInspector.total (NetworkInspector.summary rep).
Proof.
  intros self o.
  assert (Hall : Forall (fun e => NetworkInspector.is_error e = Some true)
                   (NetworkInspector.completed (NetworkInspector.final o))).
  { subst o. rewrite capture_final.
    pose proof (deliver_errors_only (delivered wait_for_idle env) self eq_refl
                  (List.Forall_nil _)) as Hd.
    destruct (NetworkInspector.goto_raises env); [|exact Hd].
    simpl. apply List.Forall_app. split; [exact Hd|]. now constructor. }
  subst o. rewrite capture_report. unfold NetworkInspector.build_report.
  rewrite (error_count_all_errors _ Hall). eexists. split; [reflexivity|].
  simpl. split; [exact Hall | reflexivity].
Qed.

(** ** Terminal events and unknown ids *)

Section Terminal.
Context `{Runtime}.

Import NetworkInspector.

(** Any event but a start is ignored for an id that is not pending. *)
Lemma handle_unknown_id self ev :
  follows_start ev -> requests self !! event_id ev = None -> handle self ev = self.
Proof.
  destruct ev as [p|p|p|p]; simpl; intros Hf Hnone; [destruct Hf| | |].
  - unfold on_response_received. now rewrite Hnone.
  - unfold on_loading_finished. now rewrite Hnone.
  - unfold on_loading_failed. now rewrite Hnone.
Qed.

Lemma on_loading_failed_removes p self :
  requests (on_loading_failed p self) !! fl_requestId p = None.
Proof.
  unfold on_loading_failed.
  destruct (requests self !! fl_requestId p) eqn:Hreq; simpl;
    [apply lookup_delete_eq | exact Hreq].
Qed.

Lemma on_loading_finished_removes p self :
  requests (on_loading_finished p self) !! lf_requestId p = None
  \/ (errors_only self = true
      /\ exists req, requests self !! lf_requestId p = Some req
                     /\ r_error req = None /\ r_response req = None).
Proof.
  unfold on_loading_finished.
  destruct (requests self !! lf_requestId p) as [req|] eqn:Hreq; [|now left].
  destruct (errors_only self); simpl negb; cbv iota.
  - match goal with
    | |- context [is_error ?e] => destruct (is_error e) as [[|]|] eqn:He
    end; simpl; try (left; apply lookup_delete_eq).
    right. split; [reflexivity|]. exists req. split; [reflexivity|].
    unfold is_error in He. simpl in He.
    destruct (capture_bodies self); [destruct (lf_fetch p)|]; simpl in He;
      destruct (r_error req), (r_response req); try discriminate; now split.
  - left. simpl. apply lookup_delete_eq.
Qed.

End Terminal.

Section Terminal_runs.
Context `{Runtime}.

Import NetworkInspector.

(** Only a request start makes an id pending. *)
Lemma handle_keeps_unknown self ev id :
  requests self !! id = None ->
  (forall p, ev = RequestWillBeSent p -> ws_requestId p <> id) ->
  requests (handle self ev) !! id = None.
Proof.
  intros Hnone Hstart. destruct ev as [p|p|p|p]; simpl.
  - unfold on_request_will_be_sent. destruct (negb _); [exact Hnone|].
    simpl. rewrite lookup_insert_ne by exact (Hstart p eq_refl). exact Hnone.
  - unfold on_response_received.
    destruct (requests self !! rr_requestId p) eqn:Hreq; [|exact Hnone].
    simpl. rewrite lookup_insert_ne by congruence. exact Hnone.
  - unfold on_loading_finished.
    destruct (requests self !! lf_requestId p) eqn:Hreq; [|exact Hnone].
    destruct (if negb (errors_only self) then _ else _) as [k|]; simpl.
    + rewrite lookup_delete_ne by congruence. now destruct k.
    + rewrite lookup_insert_ne by congruence. exact Hnone.
  - unfold on_loading_failed.
    destruct (requests self !! fl_requestId p) eqn:Hreq; [|exact Hnone].
    simpl. rewrite lookup_delete_ne by congruence. exact Hnone.
Qed.

Lemma start_ids_app evs evs' : start_ids (evs ++ evs') = (start_ids evs ++ start_ids evs')%list.
Proof.
  induction evs as [|ev evs IH]; simpl; [reflexivity|].
  destruct ev; simpl; now rewrite IH.
Qed.

Lemma deliver_keeps_unknown evs self id :
  requests self !! id = None -> ~ In id (start_ids evs) ->
  requests (deliver evs self) !! id = None.
Proof.
  revert self. induction evs as [|ev evs IH]; intros self Hnone Hid; [exact Hnone|].
  change (deliver (ev :: evs) self) with (deliver evs (handle self ev)).
  apply IH.
  - apply handle_keeps_unknown; [exact Hnone|].
    intros p -> Heq. apply Hid. simpl. now left.
  - intros Hin. apply Hid. destruct ev; simpl; auto.
Qed.

(** An id that is not pending stays so through a run of events without a
    start for it, and every event of the run that carries the id leaves
    the inspector as it finds it. *)
Lemma unknown_id_ignored evs self id :
  requests self !! id = None -> ~ In id (start_ids evs) ->
  requests (deliver evs self) !! id = None
  /\ forall before ev after,
       evs = (before ++ ev :: after)%list -> event_id ev = id ->
       handle (deliver before self) ev = deliver before self.
Proof.
  intros Hnone Hid. split; [now apply deliver_keeps_unknown|].
  intros before ev after -> Hev.
  rewrite start_ids_app, List.in_app_iff in Hid.
  apply handle_unknown_id.
  - destruct ev as [p|p|p|p]; simpl; try exact I.
    apply Hid. right. simpl. left. exact Hev.
  - rewrite Hev. apply deliver_keeps_unknown; tauto.
Qed.

End Terminal_runs.

(** A request is completed at most once by a start.  Once
    [_on_loading_failed] has run for an id, or [_on_loading_finished] has
    run for it without raising, the id is not pending, and through any
    later run of events it stays so until a new start carries the id:
    every response, finished or failed event with that id in the run
    leaves the inspector as it finds it.  The finished handler raises, and
    keeps the request pending, only with [errors_only] on for a request
    that has neither error nor response. *)
Theorem terminal_event_is_final `{Runtime} (self : NetworkInspector.Inspector) :
  let final id s :=
    forall evs,
      ~ In id (start_ids evs) ->
      NetworkInspector.requests (NetworkInspector.deliver evs s) !! id = None
      /\ forall before ev after,
           evs = (before ++ ev :: after)%list -> event_id ev = id ->
           NetworkInspector.handle (NetworkInspector.deliver before s) ev
           = NetworkInspector.deliver before s in
  (forall p,
      final (NetworkInspector.fl_requestId p) (NetworkInspector.on_loading_failed p self))
  /\ (forall p,
         final (NetworkInspector.lf_requestId p)
           (NetworkInspector.on_loading_finished p self)
         \/ (NetworkInspector.errors_only self = true
             /\ exists req,
                  NetworkInspector.requests self !! NetworkInspector.lf_requestId p
                  = Some req
                  /\ NetworkInspector.r_error req = None
                  /\ NetworkInspector.r_response req = None)).
Proof.
  intros final. subst final. split.
  - intros p evs Hid.
    apply unknown_id_ignored; [apply on_loading_failed_removes | exact Hid].
  - intros p.
    destruct (on_loading_finished_removes p self) as [Hnone|Hraise];
      [left | now right].
    intros evs Hid. now apply unknown_id_ignored.
Qed.

(** When the filter rejects every start of a run of events and nothing is
    pending, the run leaves the inspector as it is: no pending request
    and no completed item come from rejected traffic. *)
Theorem rejected_traffic_leaves_no_trace `{Runtime}
    (self : NetworkInspector.Inspector) (evs : list NetworkInspector.CdpEvent) :
  NetworkInspector.requests self = ∅ ->
  (forall p, In (NetworkInspector.RequestWillBeSent p) evs ->
             NetworkInspector.should_capture self (NetworkInspector.ws_url p)
               (default "Other"%string (NetworkInspector.ws_type p)) = false) ->
  NetworkInspector.deliver evs self = self.
Proof.
  induction evs as [|ev evs IH]; intros Hempty Hrej; [reflexivity|].
  change (NetworkInspector.deliver (ev :: evs) self)
    with (NetworkInspector.deliver evs (NetworkInspector.handle self ev)).
  assert (Hstep : NetworkInspector.handle self ev = self).
  { destruct ev as [p|p|p|p].
    - apply on_request_will_be_sent_rejected, Hrej. now left.
    - apply handle_unknown_id; [exact I | now rewrite Hempty, lookup_empty].
    - apply handle_unknown_id; [exact I | now rewrite Hempty, lookup_empty].
    - apply handle_unknown_id; [exact I | now rewrite Hempty, lookup_empty]. }
  rewrite Hstep. apply IH; [exact Hempty|].
  intros p Hin. apply Hrej. now right.
Qed.

(** The mixed page seen through a filter for WebSocket traffic: nothing is
    pending and nothing is completed. *)
Lemma rejected_traffic_leaves_no_trace_witness :
  let self := NetworkInspector.init (Some ["websocket"%string]) None false false 10240 in
  NetworkInspector.deliver mixed_traffic self = self.
Proof.
  apply rejected_traffic_leaves_no_trace; [reflexivity|].
  intros p Hin. simpl in Hin.
  repeat (destruct Hin as [Hin|Hin];
          [first [injection Hin as <-; reflexivity | discriminate Hin]|]).
  destruct Hin.
Defined.

(** ** The buffers only grow *)

Lemma network_handle_appends `{Runtime} self ev :
  NetworkInspector.completed self
    `prefix_of` NetworkInspector.completed (NetworkInspector.handle self ev).
Proof.
  destruct ev as [p|p|p|p]; simpl.
  - unfold NetworkInspector.on_request_will_be_sent. now destruct (negb _).
  - unfold NetworkInspector.on_response_received.
    now destruct (NetworkInspector.requests self !! _).
  - unfold NetworkInspector.on_loading_finished.
    destruct (NetworkInspector.requests self !! _); [|reflexivity].
    destruct (if negb (NetworkInspector.errors_only self) then _ else _) as [[|]|];
      simpl; try reflexivity.
    now apply prefix_app_r.
  - unfold NetworkInspector.on_loading_failed.
    destruct (NetworkInspector.requests self !! _); [|reflexivity].
    simpl. now apply prefix_app_r.
Qed.

Lemma console_handle_appends dbg ev :
  ConsoleDebugger.messages dbg
    `prefix_of` ConsoleDebugger.messages (ConsoleDebugger.handle dbg ev)
  /\ ConsoleDebugger.exceptions dbg
       `prefix_of` ConsoleDebugger.exceptions (ConsoleDebugger.handle dbg ev).
Proof.
  destruct ev as [p|p]; simpl.
  - unfold ConsoleDebugger.on_console_api_called. destruct (_ && _); simpl;
      split; try reflexivity.
    now apply prefix_app_r.
  - split; [reflexivity|]. simpl. now apply prefix_app_r.
Qed.

(** The three buffers are append-only: whatever events are delivered, the
    items an object held before are still there afterwards, unchanged, in
    the same order and in front of the new ones. *)
Theorem buffers_are_append_only `{Runtime} :
  (forall evs self,
      NetworkInspector.completed self
        `prefix_of` NetworkInspector.completed (NetworkInspector.deliver evs self))
  /\ (forall evs dbg,
         ConsoleDebugger.messages dbg
           `prefix_of` ConsoleDebugger.messages (ConsoleDebugger.deliver evs dbg)
         /\ ConsoleDebugger.exceptions dbg
              `prefix_of` ConsoleDebugger.exceptions (ConsoleDebugger.deliver evs dbg))
  /\ (forall evs self,
         CombinedDebugger.events self
           `prefix_of` CombinedDebugger.events (CombinedDebugger.deliver evs self)).
Proof.
  split; [|split].
  - intros evs. induction evs as [|ev evs IH]; intros self; [reflexivity|].
    change (NetworkInspector.deliver (ev :: evs) self)
      with (NetworkInspector.deliver evs (NetworkInspector.handle self ev)).
    etransitivity; [apply network_handle_appends | apply IH].
  - intros evs. induction evs as [|ev evs IH]; intros dbg; [split; reflexivity|].
    change (ConsoleDebugger.deliver (ev :: evs) dbg)
      with (ConsoleDebugger.deliver evs (ConsoleDebugger.handle dbg ev)).
    destruct (console_handle_appends dbg ev) as [Hm He].
    destruct (IH (ConsoleDebugger.handle dbg ev)) as [Hm' He'].
    split; etransitivity; eassumption.
  - intros evs self. destruct (deliver_events evs self) as [added ->].
    now apply prefix_app_r.
Qed.

(** ** The console debugger *)

Lemma occurrences_perm {A : Type} (key : A -> string) (t : string) (l l' : list A) :
  Permutation l l' -> occurrences key t l = occurrences key t l'.
Proof.
  unfold occurrences. induction 1 as [|x l l' _ IH|x y l|l l' l'' _ IH1 _ IH2]; simpl.
  - reflexivity.
  - destruct (String.eqb (key x) t); simpl; now rewrite IH.
  - destruct (String.eqb (key x) t), (String.eqb (key y) t); reflexivity.
  - now rewrite IH1.
Qed.

Lemma occurrences_app {A : Type} (key : A -> string) (t : string) (l l' : list A) :
  occurrences key t (l ++ l') = (occurrences key t l + occurrences key t l')%nat.
Proof. unfold occurrences. now rewrite List.filter_app, List.length_app. Qed.

Lemma occurrences_all {A : Type} (key : A -> string) (t : string) (l : list A) :
  Forall (fun x => key x = t) l -> occurrences key t l = length l.
Proof.
  unfold occurrences. induction 1 as [|x l Hx _ IH]; simpl; [reflexivity|].
  rewrite Hx, String.eqb_refl. simpl. now rewrite IH.
Qed.

Lemma occurrences_two {A : Type} (key : A -> string) (t u : string) (l : list A) :
  t <> u ->
  (occurrences key t l + occurrences key u l <= length l)%nat
  /\ (Forall (fun x => key x = t \/ key x = u) l ->
      (occurrences key t l + occurrences key u l = length l)%nat).
Proof.
  intros Hne. unfold occurrences. induction l as [|x l [IHle IHeq]]; simpl.
  - split; [lia | reflexivity].
  - destruct (String.eqb_spec (key x) t) as [Ht|Ht],
             (String.eqb_spec (key x) u) as [Hu|Hu]; simpl.
    + congruence.
    + split; [lia|]. intros Hall. inversion Hall; subst. specialize (IHeq H2). lia.
    + split; [lia|]. intros Hall. inversion Hall; subst. specialize (IHeq H2). lia.
    + split; [lia|]. intros Hall. inversion Hall; subst. tauto.
Qed.

Lemma occurrences_positive {A : Type} (key : A -> string) (t : string) (l : list A) :
  occurrences key t l <> 0%nat -> exists x, In x l /\ key x = t.
Proof.
  unfold occurrences. intros Hn.
  destruct (List.filter (fun x => String.eqb (key x) t) l) as [|x rest] eqn:Hf;
    [now destruct Hn|].
  assert (Hin : In x (List.filter (fun x => String.eqb (key x) t) l))
    by (rewrite Hf; now left).
  apply List.filter_In in Hin as [Hin Heq]. apply String.eqb_eq in Heq. eauto.
Qed.

(** [_type_to_level] only returns one of the four levels. *)
Lemma type_to_level_range (msg_type : string) :
  In (ConsoleDebugger.type_to_level msg_type) levels.
Proof.
  unfold ConsoleDebugger.type_to_level, ConsoleDebugger.mapping, levels. simpl.
  repeat match goal with
         | |- context [String.eqb msg_type ?s] => destruct (String.eqb msg_type s)
         end; simpl; auto.
Qed.

Lemma accepted_type_level (type : string) :
  In type ["error"; "warning"; "assert"]%string ->
  ConsoleDebugger.type_to_level type = "error"%string
  \/ ConsoleDebugger.type_to_level type = "warning"%string.
Proof. intros [<-|[<-|[<-|[]]]]; vm_compute; auto. Qed.

Lemma console_handle_errors_only dbg ev :
  ConsoleDebugger.errors_only (ConsoleDebugger.handle dbg ev)
  = ConsoleDebugger.errors_only dbg.
Proof.
  destruct ev as [p|p]; simpl; [|reflexivity].
  unfold ConsoleDebugger.on_console_api_called. now destruct (_ && _).
Qed.

Lemma console_handle_well_formed dbg ev :
  console_well_formed dbg -> console_well_formed (ConsoleDebugger.handle dbg ev).
Proof.
  intros [Hm He]. unfold console_well_formed. rewrite console_handle_errors_only.
  destruct ev as [p|p]; simpl.
  - unfold ConsoleDebugger.on_console_api_called.
    destruct (Py.str_in (default "log"%string (ConsoleDebugger.ca_type p))
                ["error"; "warning"; "assert"]%string) eqn:Hin.
    + rewrite Bool.andb_false_r. cbn -[Py.str_in ConsoleDebugger.type_to_level].
      split; [|exact He]. apply List.Forall_app. split; [exact Hm|].
      constructor; [|constructor]. split; [reflexivity|].
      intros _. apply str_in_In in Hin. exact Hin.
    + destruct (ConsoleDebugger.errors_only dbg) eqn:Heo;
        cbn -[Py.str_in ConsoleDebugger.type_to_level]; [now split|].
      split; [|exact He]. apply List.Forall_app. split; [exact Hm|].
      constructor; [|constructor]. split; [reflexivity | discriminate].
  - split; [exact Hm|]. apply List.Forall_app. split; [exact He|].
    now repeat constructor.
Qed.

Lemma console_deliver_well_formed evs dbg :
  console_well_formed dbg -> console_well_formed (ConsoleDebugger.deliver evs dbg).
Proof.
  revert dbg. induction evs as [|ev evs IH]; intros dbg Hwf; [exact Hwf|].
  change (ConsoleDebugger.deliver (ev :: evs) dbg)
    with (ConsoleDebugger.deliver evs (ConsoleDebugger.handle dbg ev)).
  apply IH, console_handle_well_formed, Hwf.
Qed.

Lemma console_deliver_app evs1 evs2 dbg :
  ConsoleDebugger.deliver (evs1 ++ evs2) dbg
  = ConsoleDebugger.deliver evs2 (ConsoleDebugger.deliver evs1 dbg).
Proof. apply fold_left_app. Qed.

(** The object the console debugger's [capture] ends with. *)
Lemma console_capture_final dbg url duration wait_for_idle env :
  ConsoleDebugger.final (ConsoleDebugger.capture dbg url duration wait_for_idle env)
  = match ConsoleDebugger.goto_raises env with
    | Some e =>
        ConsoleDebugger.append_exception
          (ConsoleDebugger.NavigationError ("Navigation failed: " +:+ e) e)
          (ConsoleDebugger.deliver (console_delivered wait_for_idle env) dbg)
    | None => ConsoleDebugger.deliver (console_delivered wait_for_idle env) dbg
    end
  /\ ConsoleDebugger.report (ConsoleDebugger.capture dbg url duration wait_for_idle env)
     = ConsoleDebugger.build_report
         (ConsoleDebugger.final
            (ConsoleDebugger.capture dbg url duration wait_for_idle env))
         url duration.
Proof.
  unfold ConsoleDebugger.capture, console_delivered.
  destruct (ConsoleDebugger.goto_raises env); simpl.
  - now rewrite List.app_nil_r.
  - destruct wait_for_idle; simpl; now rewrite !console_deliver_app.
Qed.

Lemma console_capture_well_formed eo st ts url duration wait_for_idle env :
  console_well_formed
    (ConsoleDebugger.final
       (ConsoleDebugger.capture (ConsoleDebugger.init eo st ts) url duration
          wait_for_idle env)).
Proof.
  destruct (console_capture_final (ConsoleDebugger.init eo st ts) url duration
              wait_for_idle env) as [-> _].
  assert (Hwf : console_well_formed
                  (ConsoleDebugger.deliver (console_delivered wait_for_idle env)
                     (ConsoleDebugger.init eo st ts))).
  { apply console_deliver_well_formed. split; constructor. }
  destruct (ConsoleDebugger.goto_raises env); [|exact Hwf].
  destruct Hwf as [Hm He]. split; [exact Hm|].
  simpl. apply List.Forall_app. split; [exact He | now repeat constructor].
Qed.

Lemma console_levels_of_well_formed dbg :
  console_well_formed dbg ->
  Forall (fun e => In (ConsoleDebugger.level_of e) levels)
         (ConsoleDebugger.messages dbg)
  /\ Forall (fun e => ConsoleDebugger.level_of e = "error"%string)
            (ConsoleDebugger.exceptions dbg).
Proof.
  intros [Hm He]. split.
  - eapply List.Forall_impl; [|exact Hm].
    intros [ty lvl ? ? ? ?|? ? ? ? ? ? ? ?|? ?]; simpl; try tauto.
    intros [-> _]. apply type_to_level_range.
  - eapply List.Forall_impl; [|exact He].
    intros [ty lvl ? ? ? ?|? ? ? ? ? ? ? ?|? ?]; simpl; tauto.
Qed.

Lemma console_report_of_capture eo st ts url duration wait_for_idle env :
  let o := ConsoleDebugger.capture (ConsoleDebugger.init eo st ts) url duration
             wait_for_idle env in
  let dbg := ConsoleDebugger.final o in
  ConsoleDebugger.report o = ConsoleDebugger.build_report dbg url duration
  /\ Permutation (ConsoleDebugger.data (ConsoleDebugger.report o))
       (ConsoleDebugger.messages dbg ++ ConsoleDebugger.exceptions dbg)
  /\ console_well_formed dbg.
Proof.
  intros o dbg. subst o dbg.
  destruct (console_capture_final (ConsoleDebugger.init eo st ts) url duration
              wait_for_idle env) as [_ Hrep].
  split; [exact Hrep|]. rewrite Hrep. split; [apply sorted_perm|].
  apply console_capture_well_formed.
Qed.

(** [_count_by_level] on the entries of a report, read through one key. *)
Lemma console_by_level_lookup dbg url duration t :
  let r := ConsoleDebugger.build_report dbg url duration in
  let n := occurrences ConsoleDebugger.level_of t (ConsoleDebugger.data r) in
  ConsoleDebugger.by_level (ConsoleDebugger.summary r) !! t
  = (if (n =? 0)%nat then None else Some n)
  /\ table_total (ConsoleDebugger.by_level (ConsoleDebugger.summary r))
     = length (ConsoleDebugger.data r).
Proof.
  intros r n. subst r n. simpl. unfold ConsoleDebugger.count_by_level. split.
  - pose proof (count_fold_lookup ConsoleDebugger.level_of
                  (Py.sorted ConsoleDebugger.timestamp_key
                     (ConsoleDebugger.messages dbg ++ ConsoleDebugger.exceptions dbg))
                  ∅ t) as Hc.
    rewrite lookup_empty in Hc. exact Hc.
  - exact (count_fold_total ConsoleDebugger.level_of
             (Py.sorted ConsoleDebugger.timestamp_key
                (ConsoleDebugger.messages dbg ++ ConsoleDebugger.exceptions dbg)) ∅).
Qed.

(** Every entry of a console report has one of the levels info, debug,
    warning and error, and [by_level] has no other key. *)
Theorem console_levels_are_the_four (errors_only with_stack_traces include_timestamps : bool)
    (url : string) (duration : Q) (wait_for_idle : bool) (env : ConsoleDebugger.Env) :
  let r := ConsoleDebugger.report
             (ConsoleDebugger.capture
                (ConsoleDebugger.init errors_only with_stack_traces include_timestamps)
                url duration wait_for_idle env) in
  Forall (fun e => In (ConsoleDebugger.level_of e) levels) (ConsoleDebugger.data r)
  /\ (forall t, is_Some (ConsoleDebugger.by_level (ConsoleDebugger.summary r) !! t) ->
                In t levels).
Proof.
  intros r. subst r.
  destruct (console_report_of_capture errors_only with_stack_traces include_timestamps
              url duration wait_for_idle env) as (Hrep & Hperm & Hwf).
  set (o := ConsoleDebugger.capture _ url duration wait_for_idle env) in *.
  assert (Hall : Forall (fun e => In (ConsoleDebugger.level_of e) levels)
                   (ConsoleDebugger.data (ConsoleDebugger.report o))).
  { eapply Permutation_Forall; [symmetry; exact Hperm|].
    destruct (console_levels_of_well_formed _ Hwf) as [Hm He].
    apply List.Forall_app. split; [exact Hm|].
    eapply List.Forall_impl; [|exact He]. intros e ->. unfold levels. simpl. auto. }
  split; [exact Hall|]. intros t Ht.
  rewrite Hrep in Ht, Hall.
  destruct (console_by_level_lookup (ConsoleDebugger.final o) url duration t)
    as [Hlook _].
  cbv zeta in Hlook. rewrite Hlook in Ht.
  destruct (Nat.eqb_spec
              (occurrences ConsoleDebugger.level_of t
                 (ConsoleDebugger.data
                    (ConsoleDebugger.build_report (ConsoleDebugger.final o) url duration)))
              0) as [_|Hpos]; [now destruct Ht|].
  destruct (occurrences_positive _ _ _ Hpos) as (e & Hin & <-).
  rewrite List.Forall_forall in Hall. now apply Hall.
Qed.

(** The counts of a console report agree with one another: [total] is
    [messages] plus [exceptions] and the sum of [by_level]; [errors] and
    [warnings] are the [by_level] entries of ["error"] and ["warning"]
    (0 for a missing key); every exception and navigation error counts as an
    error; errors and warnings together are at most [total]. *)
Theorem console_summary_is_consistent
    (errors_only with_stack_traces include_timestamps : bool)
    (url : string) (duration : Q) (wait_for_idle : bool) (env : ConsoleDebugger.Env) :
  let s := ConsoleDebugger.summary
             (ConsoleDebugger.report
                (ConsoleDebugger.capture
                   (ConsoleDebugger.init errors_only with_stack_traces include_timestamps)
                   url duration wait_for_idle env)) in
  ConsoleDebugger.total s
  = (ConsoleDebugger.n_messages s + ConsoleDebugger.n_exceptions s)%nat
  /\ table_total (ConsoleDebugger.by_level s) = ConsoleDebugger.total s
  /\ ConsoleDebugger.errors s
     = default 0%nat (ConsoleDebugger.by_level s !! "error"%string)
  /\ ConsoleDebugger.warnings s
     = default 0%nat (ConsoleDebugger.by_level s !! "warning"%string)
  /\ (ConsoleDebugger.n_exceptions s <= ConsoleDebugger.errors s)%nat
  /\ (ConsoleDebugger.errors s + ConsoleDebugger.warnings s
      <= ConsoleDebugger.total s)%nat.
Proof.
  intros s. subst s.
  destruct (console_report_of_capture errors_only with_stack_traces include_timestamps
              url duration wait_for_idle env) as (Hrep & Hperm & Hwf).
  set (o := ConsoleDebugger.capture _ url duration wait_for_idle env) in *.
  rewrite Hrep in *.
  destruct (console_by_level_lookup (ConsoleDebugger.final o) url duration "error")
    as [Herr Htot].
  destruct (console_by_level_lookup (ConsoleDebugger.final o) url duration "warning")
    as [Hwarn _].
  cbv zeta in Herr, Hwarn. rewrite Herr, Hwarn, Htot. clear Herr Hwarn Htot.
  set (r := ConsoleDebugger.build_report (ConsoleDebugger.final o) url duration) in *.
  assert (Herrors : ConsoleDebugger.errors (ConsoleDebugger.summary r)
                    = occurrences ConsoleDebugger.level_of "error"
                        (ConsoleDebugger.data r)) by reflexivity.
  assert (Hwarnings : ConsoleDebugger.warnings (ConsoleDebugger.summary r)
                      = occurrences ConsoleDebugger.level_of "warning"
                          (ConsoleDebugger.data r)) by reflexivity.
  assert (Htotal : ConsoleDebugger.total (ConsoleDebugger.summary r)
                   = length (ConsoleDebugger.data r)) by reflexivity.
  assert (Hmsgs : ConsoleDebugger.n_messages (ConsoleDebugger.summary r)
                  = length (ConsoleDebugger.messages (ConsoleDebugger.final o)))
    by reflexivity.
  assert (Hexcs : ConsoleDebugger.n_exceptions (ConsoleDebugger.summary r)
                  = length (ConsoleDebugger.exceptions (ConsoleDebugger.final o)))
    by reflexivity.
  rewrite Herrors, Hwarnings, Htotal, Hmsgs, Hexcs.
  pose proof (Permutation_length Hperm) as Hlen. rewrite List.length_app in Hlen.
  destruct (occurrences_two ConsoleDebugger.level_of "error" "warning"
              (ConsoleDebugger.data r)) as [Hle _]; [discriminate|].
  assert (Hexc : (length (ConsoleDebugger.exceptions (ConsoleDebugger.final o))
                  <= occurrences ConsoleDebugger.level_of "error"
                       (ConsoleDebugger.data r))%nat).
  { rewrite (occurrences_perm _ _ _ _ Hperm), occurrences_app.
    destruct (console_levels_of_well_formed _ Hwf) as [_ He].
    rewrite (occurrences_all _ _ _ He). lia. }
  repeat split; try assumption; try reflexivity.
  - now destruct (occurrences _ "error"%string _).
  - now destruct (occurrences _ "warning"%string _).
Qed.

(** With [errors_only] on, every entry of a console report has the level
    error or warning, so that [errors] plus [warnings] is [total]: no
    message of level info or debug is reported. *)
Theorem console_errors_only_levels (with_stack_traces include_timestamps : bool)
    (url : string) (duration : Q) (wait_for_idle : bool) (env : ConsoleDebugger.Env) :
  let r := ConsoleDebugger.report
             (ConsoleDebugger.capture
                (ConsoleDebugger.init true with_stack_traces include_timestamps)
                url duration wait_for_idle env) in
  Forall (fun e => ConsoleDebugger.level_of e = "error"%string
                   \/ ConsoleDebugger.level_of e = "warning"%string)
         (ConsoleDebugger.data r)
  /\ (ConsoleDebugger.errors (ConsoleDebugger.summary r)
      + ConsoleDebugger.warnings (ConsoleDebugger.summary r)
      = ConsoleDebugger.total (ConsoleDebugger.summary r))%nat.
Proof.
  intros r. subst r.
  destruct (console_report_of_capture true with_stack_traces include_timestamps
              url duration wait_for_idle env) as (Hrep & Hperm & Hwf).
  set (o := ConsoleDebugger.capture _ url duration wait_for_idle env) in *.
  assert (Heo : ConsoleDebugger.errors_only (ConsoleDebugger.final o) = true).
  { subst o.
    destruct (console_capture_final
                (ConsoleDebugger.init true with_stack_traces include_timestamps)
                url duration wait_for_idle env) as [-> _].
    assert (Hd : forall evs dbg,
               ConsoleDebugger.errors_only (ConsoleDebugger.deliver evs dbg)
               = ConsoleDebugger.errors_only dbg).
    { intros evs. induction evs as [|ev evs IH]; intros dbg; [reflexivity|].
      change (ConsoleDebugger.deliver (ev :: evs) dbg)
        with (ConsoleDebugger.deliver evs (ConsoleDebugger.handle dbg ev)).
      now rewrite IH, console_handle_errors_only. }
    destruct (ConsoleDebugger.goto_raises env); simpl; now rewrite Hd. }
  assert (Hall : Forall (fun e => ConsoleDebugger.level_of e = "error"%string
                                  \/ ConsoleDebugger.level_of e = "warning"%string)
                   (ConsoleDebugger.data (ConsoleDebugger.report o))).
  { eapply Permutation_Forall; [symmetry; exact Hperm|].
    destruct (console_levels_of_well_formed _ Hwf) as [_ He].
    destruct Hwf as [Hm _].
    apply List.Forall_app. split.
    - eapply List.Forall_impl; [|exact Hm].
      intros [ty lvl ? ? ? ?|? ? ? ? ? ? ? ?|? ?]; simpl; try tauto.
      intros [-> Hty]. apply accepted_type_level, Hty, Heo.
    - eapply List.Forall_impl; [|exact He]. intros e ->. now left. }
  split; [exact Hall|].
  rewrite Hrep in Hall |- *.
  destruct (occurrences_two ConsoleDebugger.level_of "error" "warning"
              (ConsoleDebugger.data
                 (ConsoleDebugger.build_report (ConsoleDebugger.final o) url duration)))
    as [_ Heq]; [discriminate|].
  exact (Heq Hall).
Qed.

(** ** The summary of the combined debugger *)

Lemma filter_length_perm {A : Type} (f : A -> bool) (l l' : list A) :
  Permutation l l' -> length (List.filter f l) = length (List.filter f l').
Proof.
  induction 1 as [|x l l' _ IH|x y l|l l' l'' _ IH1 _ IH2]; simpl.
  - reflexivity.
  - destruct (f x); simpl; now rewrite IH.
  - destruct (f x), (f y); reflexivity.
  - now rewrite IH1.
Qed.

Lemma count_types_of_types types (self : CombinedDebugger.Debugger) :
  CombinedDebugger.count_types types
    (CombinedDebugger.events_out (CombinedDebugger.build_output self))
  = of_types types (CombinedDebugger.events self).
Proof.
  unfold of_types. rewrite <- (filter_length_perm _ _ _ (sorted_perm
                                 CombinedDebugger.timestamp_ms
                                 (CombinedDebugger.events self))).
  unfold CombinedDebugger.build_output. cbn [CombinedDebugger.events_out].
  unfold CombinedDebugger.count_types.
  generalize (Py.sorted CombinedDebugger.timestamp_ms (CombinedDebugger.events self))
    at 1 as s.
  intros s.
  induction (Py.sorted CombinedDebugger.timestamp_ms (CombinedDebugger.events self))
    as [|e l IH]; simpl; [reflexivity|].
  rewrite correlate_event. destruct (Py.str_in _ types); simpl; now rewrite IH.
Qed.

Lemma of_types_partition (l : list CombinedDebugger.Event) :
  length l
  = (of_types ["request"]%string l + of_types ["response"]%string l
     + of_types ["page_error"; "request_failed"]%string l
     + of_types ["console"]%string l
     + of_types ["navigation_error"]%string l)%nat.
Proof.
  unfold of_types. induction l as [|e l IH]; [reflexivity|].
  destruct e; simpl in *; lia.
Qed.

Lemma of_types_app types l l' :
  of_types types (l ++ l') = (of_types types l + of_types types l')%nat.
Proof. unfold of_types. now rewrite List.filter_app, List.length_app. Qed.

Lemma combined_handle_no_navigation_error `{Runtime} self ev :
  of_types ["navigation_error"]%string
    (CombinedDebugger.events (CombinedDebugger.handle self ev))
  = of_types ["navigation_error"]%string (CombinedDebugger.events self).
Proof.
  destruct ev as [request now|response now|request now|msg now|error now]; simpl.
  - unfold CombinedDebugger.on_request. destruct (negb _); simpl; [reflexivity|].
    rewrite of_types_app. unfold of_types. simpl. lia.
  - unfold CombinedDebugger.on_response.
    destruct (CombinedDebugger.requests self !! _); simpl; [|reflexivity].
    rewrite of_types_app. unfold of_types. simpl. lia.
  - unfold CombinedDebugger.on_request_failed.
    destruct (CombinedDebugger.requests self !! _); simpl; [|reflexivity].
    rewrite of_types_app. unfold of_types. simpl. lia.
  - unfold CombinedDebugger.on_console. destruct (_ && _); simpl; [reflexivity|].
    rewrite of_types_app. unfold of_types. simpl. lia.
  - rewrite of_types_app. unfold of_types. simpl. lia.
Qed.

Lemma combined_deliver_no_navigation_error `{Runtime} evs self :
  of_types ["navigation_error"]%string
    (CombinedDebugger.events (CombinedDebugger.deliver evs self))
  = of_types ["navigation_error"]%string (CombinedDebugger.events self).
Proof.
  revert self. induction evs as [|ev evs IH]; intros self; [reflexivity|].
  change (CombinedDebugger.deliver (ev :: evs) self)
    with (CombinedDebugger.deliver evs (CombinedDebugger.handle self ev)).
  now rewrite IH, combined_handle_no_navigation_error.
Qed.

(** The counts of the combined summary, read on [self.events]. *)
Lemma combined_summary_counts (self : CombinedDebugger.Debugger) :
  let s := CombinedDebugger.summary (CombinedDebugger.build_output self) in
  CombinedDebugger.total_events s = length (CombinedDebugger.events self)
  /\ CombinedDebugger.n_requests s
     = of_types ["request"]%string (CombinedDebugger.events self)
  /\ CombinedDebugger.n_responses s
     = of_types ["response"]%string (CombinedDebugger.events self)
  /\ CombinedDebugger.errors s
     = of_types ["page_error"; "request_failed"]%string (CombinedDebugger.events self)
  /\ CombinedDebugger.console_messages s
     = of_types ["console"]%string (CombinedDebugger.events self).
Proof.
  intros s. subst s. split; [|repeat split; apply count_types_of_types].
  simpl. now rewrite List.length_map, sorted_length.
Qed.

(** The four counts of the combined summary cover every event but the
    navigation error: [total_events] is [requests] plus [responses] plus
    [errors] plus [console_messages], plus one when [page.goto] raised. *)
Theorem combined_summary_partitions_events `{Runtime}
    (filter_types : option (list string)) (url_pattern : option string)
    (errors_only capture_bodies : bool) (max_body_size : Z)
    (url : string) (duration : Z) (env : CombinedDebugger.Env) :
  let self := CombinedDebugger.init filter_types url_pattern errors_only
                capture_bodies max_body_size in
  let s := CombinedDebugger.summary
             (CombinedDebugger.report (CombinedDebugger.capture self url duration env)) in
  CombinedDebugger.total_events s
  = (CombinedDebugger.n_requests s + CombinedDebugger.n_responses s
     + CombinedDebugger.errors s + CombinedDebugger.console_messages s
     + match CombinedDebugger.goto_raises env with Some _ => 1 | None => 0 end)%nat.
Proof.
  intros self s. subst s.
  set (o := CombinedDebugger.capture self url duration env).
  change (CombinedDebugger.report o)
    with (CombinedDebugger.build_output (CombinedDebugger.final o)).
  destruct (combined_summary_counts (CombinedDebugger.final o))
    as (Htot & Hreq & Hresp & Herr & Hcon).
  cbv zeta in Htot, Hreq, Hresp, Herr, Hcon.
  rewrite Htot, Hreq, Hresp, Herr, Hcon, of_types_partition.
  f_equal. subst o. unfold CombinedDebugger.capture. cbn [CombinedDebugger.final].
  rewrite combined_deliver_no_navigation_error.
  destruct (CombinedDebugger.goto_raises env) as [[e now]|].
  - cbn [CombinedDebugger.append_event CombinedDebugger.events].
    rewrite of_types_app, combined_deliver_no_navigation_error. reflexivity.
  - now rewrite combined_deliver_no_navigation_error.
Qed.

(** ** Offsets of the combined debugger *)

Lemma combined_handle_offsets `{Runtime} self ev e :
  In e (CombinedDebugger.events (CombinedDebugger.handle self ev)) ->
  In e (CombinedDebugger.events self)
  \/ CombinedDebugger.timestamp_ms e = clock_of ev - CombinedDebugger.start_time self.
Proof.
  destruct ev as [request now|response now|request now|msg now|error now]; simpl.
  - unfold CombinedDebugger.on_request. destruct (negb _); simpl; [now left|].
    rewrite List.in_app_iff. intros [Hin|[<-|[]]]; [now left | now right].
  - unfold CombinedDebugger.on_response.
    destruct (CombinedDebugger.requests self !! _); simpl; [|now left].
    rewrite List.in_app_iff. intros [Hin|[<-|[]]]; [now left | now right].
  - unfold CombinedDebugger.on_request_failed.
    destruct (CombinedDebugger.requests self !! _); simpl; [|now left].
    rewrite List.in_app_iff. intros [Hin|[<-|[]]]; [now left | now right].
  - unfold CombinedDebugger.on_console. destruct (_ && _); simpl; [now left|].
    rewrite List.in_app_iff. intros [Hin|[<-|[]]]; [now left | now right].
  - rewrite List.in_app_iff. intros [Hin|[<-|[]]]; [now left | now right].
Qed.

Lemma combined_deliver_offsets `{Runtime} evs self e :
  In e (CombinedDebugger.events (CombinedDebugger.deliver evs self)) ->
  In e (CombinedDebugger.events self)
  \/ exists t, In t (List.map clock_of evs)
               /\ CombinedDebugger.timestamp_ms e = t - CombinedDebugger.start_time self.
Proof.
  revert self. induction evs as [|ev evs IH]; intros self Hin; [now left|].
  change (CombinedDebugger.deliver (ev :: evs) self)
    with (CombinedDebugger.deliver evs (CombinedDebugger.handle self ev)) in Hin.
  destruct (IH _ Hin) as [Hstep|(t & Ht & Hts)].
  - destruct (combined_handle_offsets self ev e Hstep) as [Hold|Hnew]; [now left|].
    right. exists (clock_of ev). split; [now left | exact Hnew].
  - right. exists t. split; [now right|].
    now rewrite Hts, combined_handle_start_time.
Qed.

(** Every event of a combined report carries as [timestamp_ms] a clock
    reading of the capture minus the reading taken at its start; when no
    reading is earlier than the start, no offset is negative. *)
Theorem offsets_are_readings_since_start `{Runtime}
    (filter_types : option (list string)) (url_pattern : option string)
    (errors_only capture_bodies : bool) (max_body_size : Z)
    (url : string) (duration : Z) (env : CombinedDebugger.Env) :
  let self := CombinedDebugger.init filter_types url_pattern errors_only
                capture_bodies max_body_size in
  let r := CombinedDebugger.report (CombinedDebugger.capture self url duration env) in
  Forall
    (fun c =>
       exists t, In t (readings env)
                 /\ CombinedDebugger.timestamp_ms (CombinedDebugger.event c)
                    = t - CombinedDebugger.clock_start env)
    (CombinedDebugger.events_out r)
  /\ ((forall t, In t (readings env) -> CombinedDebugger.clock_start env <= t) ->
      Forall (fun c => 0 <= CombinedDebugger.timestamp_ms (CombinedDebugger.event c))
             (CombinedDebugger.events_out r)).
Proof.
  intros self r.
  assert (Hall : Forall
                   (fun c =>
                      exists t, In t (readings env)
                                /\ CombinedDebugger.timestamp_ms (CombinedDebugger.event c)
                                   = t - CombinedDebugger.clock_start env)
                   (CombinedDebugger.events_out r)).
  { apply List.Forall_forall. intros c Hc.
    assert (Hev : In (CombinedDebugger.event c)
                    (CombinedDebugger.events
                       (CombinedDebugger.final
                          (CombinedDebugger.capture self url duration env)))).
    { eapply Permutation_in; [apply sorted_perm|].
      rewrite <- events_out_events. now apply List.in_map. }
    unfold CombinedDebugger.capture in Hev. cbn [CombinedDebugger.final] in Hev.
    unfold readings.
    destruct (combined_deliver_offsets _ _ _ Hev) as [Hmid|(t & Ht & Hts)].
    - assert (Hgoto :
        In (CombinedDebugger.event c)
           (CombinedDebugger.events
              (CombinedDebugger.deliver (CombinedDebugger.goto_events env)
                 (CombinedDebugger.set_start_time (CombinedDebugger.clock_start env)
                    self)))
        \/ exists e now, CombinedDebugger.goto_raises env = Some (e, now)
                         /\ CombinedDebugger.timestamp_ms (CombinedDebugger.event c)
                            = now - CombinedDebugger.clock_start env).
      { destruct (CombinedDebugger.goto_raises env) as [[e now]|]; [|now left].
        cbn [CombinedDebugger.append_event CombinedDebugger.events] in Hmid.
        apply List.in_app_iff in Hmid as [Hmid|[<-|[]]]; [now left|].
        right. exists e, now. split; [reflexivity|].
        simpl. now rewrite combined_deliver_start_time. }
      destruct Hgoto as [Hgoto|(e & now & Hraise & Hts)].
      + destruct (combined_deliver_offsets _ _ _ Hgoto) as [[]|(t & Ht & Hts)].
        exists t. split; [apply List.in_app_iff; now left | exact Hts].
      + exists now. split; [|exact Hts].
        apply List.in_app_iff. right. apply List.in_app_iff. left.
        rewrite Hraise. now left.
    - exists t. split.
      + apply List.in_app_iff. right. apply List.in_app_iff. now right.
      + rewrite Hts. f_equal.
        destruct (CombinedDebugger.goto_raises env) as [[e now]|]; simpl;
          now rewrite combined_deliver_start_time. }
  split; [exact Hall|]. intros Hmono.
  eapply List.Forall_impl; [|exact Hall].
  intros c (t & Ht & ->). specialize (Hmono t Ht). lia.
Qed.

(** The failed navigation above: its readings are 1000 and 1010 for a
    start at 1000. *)
Lemma offsets_are_readings_since_start_witness :
  Forall (fun c => 0 <= CombinedDebugger.timestamp_ms (CombinedDebugger.event c))
         (CombinedDebugger.events_out
            (CombinedDebugger.report
               (CombinedDebugger.capture Sample_pages.debugger "http://localhost:3000" 1
                  Sample_pages.failed_navigation_env))).
Proof.
  apply (proj2 (offsets_are_readings_since_start None None false false 10240
                  "http://localhost:3000" 1 Sample_pages.failed_navigation_env)).
  intros t Ht. simpl in Ht. destruct Ht as [<-|[<-|[]]]; simpl; lia.
Defined.

(** ** Related events *)

Lemma ascending_filter {A : Type} (key : A -> Z) (f : A -> bool) (l : list A) :
  ascending key l -> ascending key (List.filter f l).
Proof.
  unfold ascending. induction 1 as [|x l Hl IH Hx]; simpl; [constructor|].
  destruct (f x); [|exact IH].
  constructor; [exact IH|].
  apply List.Forall_forall. intros y Hy. apply List.filter_In in Hy as [Hy _].
  rewrite List.Forall_forall in Hx. now apply Hx.
Qed.

(** In a combined report, related events are listed in non-decreasing
    order of offset, and being related is mutual between two items that
    both are page errors or failed requests: if the event of one is among
    the related events of the other, the converse holds too. *)
Theorem related_events_are_mutual_and_sorted (self : CombinedDebugger.Debugger) :
  let out := CombinedDebugger.events_out (CombinedDebugger.build_output self) in
  let failure c :=
    Py.str_in (CombinedDebugger.type_of (CombinedDebugger.event c))
      ["page_error"; "request_failed"]%string = true in
  let related c := default [] (CombinedDebugger.related_events c) in
  Forall (fun c => ascending CombinedDebugger.timestamp_ms (related c)) out
  /\ (forall c1 c2,
         In c1 out -> In c2 out -> failure c1 -> failure c2 ->
         In (CombinedDebugger.event c2) (related c1) ->
         In (CombinedDebugger.event c1) (related c2)).
Proof.
  intros out failure related. subst out failure related.
  unfold CombinedDebugger.build_output. cbn [CombinedDebugger.events_out].
  set (s := Py.sorted CombinedDebugger.timestamp_ms (CombinedDebugger.events self)).
  split.
  - apply List.Forall_forall. intros c Hc.
    apply List.in_map_iff in Hc as (e & <- & He).
    destruct (correlate_related s e) as [-> _].
    destruct (Py.str_in _ _); [|constructor].
    apply ascending_filter, sorted_ascending.
  - intros c1 c2 Hc1 Hc2.
    apply List.in_map_iff in Hc1 as (e1 & <- & He1).
    apply List.in_map_iff in Hc2 as (e2 & <- & He2).
    rewrite !correlate_event.
    destruct (correlate_related s e1) as [-> _].
    destruct (correlate_related s e2) as [-> _].
    intros -> ->. rewrite !nearby_In. intros (_ & Hnear & Hne).
    split; [exact He1|]. split; [lia | congruence].
Qed.

(** ** The errors-only mode of the combined debugger *)

Lemma combined_handle_same_view `{Runtime} a b ev :
  same_network_view a b ->
  same_network_view (CombinedDebugger.handle a ev) (CombinedDebugger.handle b ev).
Proof.
  intros (Hreq & Hst & Hft & Hup & Hev). unfold same_network_view.
  destruct (combined_handle_config a ev) as [-> ->].
  destruct (combined_handle_config b ev) as [-> ->].
  rewrite !combined_handle_start_time.
  destruct ev as [request now|response now|request now|msg now|error now]; simpl.
  - unfold CombinedDebugger.on_request.
    rewrite (should_capture_request_config a b) by assumption.
    destruct (negb _); simpl; [now repeat split|].
    rewrite !List.filter_app, Hev, ?Hreq, ?Hst. now repeat split.
  - unfold CombinedDebugger.on_response. rewrite Hreq.
    destruct (CombinedDebugger.requests b !! _); simpl; [|now repeat split].
    rewrite !List.filter_app, Hev, ?Hreq, ?Hst. now repeat split.
  - unfold CombinedDebugger.on_request_failed. rewrite Hreq.
    destruct (CombinedDebugger.requests b !! _); simpl; [|now repeat split].
    rewrite !List.filter_app, Hev, ?Hst. now repeat split.
  - unfold CombinedDebugger.on_console.
    destruct (CombinedDebugger.errors_only a && _),
             (CombinedDebugger.errors_only b && _); simpl;
      rewrite ?List.filter_app; simpl; rewrite ?List.app_nil_r; now repeat split.
  - rewrite !List.filter_app, Hev, ?Hst. now repeat split.
Qed.

Lemma combined_deliver_same_view `{Runtime} evs a b :
  same_network_view a b ->
  same_network_view (CombinedDebugger.deliver evs a) (CombinedDebugger.deliver evs b).
Proof.
  revert a b. induction evs as [|ev evs IH]; intros a b Hab; [exact Hab|].
  change (CombinedDebugger.deliver (ev :: evs) a)
    with (CombinedDebugger.deliver evs (CombinedDebugger.handle a ev)).
  change (CombinedDebugger.deliver (ev :: evs) b)
    with (CombinedDebugger.deliver evs (CombinedDebugger.handle b ev)).
  now apply IH, combined_handle_same_view.
Qed.

Lemma of_types_non_console types l l' :
  Py.str_in "console" types = false ->
  List.filter non_console l = List.filter non_console l' ->
  of_types types l = of_types types l'.
Proof.
  intros Hty Heq. unfold of_types.
  assert (Hf : forall l0,
             length (List.filter
                       (fun e => Py.str_in (CombinedDebugger.type_of e) types) l0)
             = length (List.filter
                         (fun e => Py.str_in (CombinedDebugger.type_of e) types)
                         (List.filter non_console l0))).
  { induction l0 as [|e l0 IH]; [reflexivity|].
    cbn [List.filter]. unfold non_console at 1.
    destruct (String.eqb_spec (CombinedDebugger.type_of e) "console") as [Hcon|_];
      cbn [negb].
    - rewrite Hcon, Hty. exact IH.
    - cbn [List.filter].
      destruct (Py.str_in (CombinedDebugger.type_of e) types); cbn [length];
        now rewrite IH. }
  now rewrite (Hf l), (Hf l'), Heq.
Qed.

(** In the combined debugger [errors_only] filters console messages and
    nothing else: with the flag on or off, a capture of the same page
    ends with the same pending requests and the same events apart from
    console messages, and reports the same [requests], [responses] and
    [errors] counts.  Requests and responses are reported in errors-only
    mode too, whatever their status. *)
Theorem combined_errors_only_keeps_network_events `{Runtime}
    (filter_types : option (list string)) (url_pattern : option string)
    (capture_bodies : bool) (max_body_size : Z)
    (url : string) (duration : Z) (env : CombinedDebugger.Env) :
  let run errors_only :=
    CombinedDebugger.capture
      (CombinedDebugger.init filter_types url_pattern errors_only capture_bodies
         max_body_size) url duration env in
  let s errors_only := CombinedDebugger.summary (CombinedDebugger.report (run errors_only)) in
  same_network_view (CombinedDebugger.final (run true))
                    (CombinedDebugger.final (run false))
  /\ CombinedDebugger.n_requests (s true) = CombinedDebugger.n_requests (s false)
  /\ CombinedDebugger.n_responses (s true) = CombinedDebugger.n_responses (s false)
  /\ CombinedDebugger.errors (s true) = CombinedDebugger.errors (s false).
Proof.
  intros run s.
  assert (Hview : same_network_view (CombinedDebugger.final (run true))
                                    (CombinedDebugger.final (run false))).
  { subst run. unfold CombinedDebugger.capture. cbn [CombinedDebugger.final].
    apply combined_deliver_same_view.
    assert (Hgoto : same_network_view
                      (CombinedDebugger.deliver (CombinedDebugger.goto_events env)
                         (CombinedDebugger.set_start_time (CombinedDebugger.clock_start env)
                            (CombinedDebugger.init filter_types url_pattern true
                               capture_bodies max_body_size)))
                      (CombinedDebugger.deliver (CombinedDebugger.goto_events env)
                         (CombinedDebugger.set_start_time (CombinedDebugger.clock_start env)
                            (CombinedDebugger.init filter_types url_pattern false
                               capture_bodies max_body_size)))).
    { apply combined_deliver_same_view. now repeat split. }
    destruct (CombinedDebugger.goto_raises env) as [[e now]|]; [|exact Hgoto].
    destruct Hgoto as (Hreq & Hst & Hft & Hup & Hev).
    unfold same_network_view. simpl.
    rewrite !List.filter_app, Hev, Hst. now repeat split. }
  split; [exact Hview|].
  destruct Hview as (_ & _ & _ & _ & Hev).
  subst s. cbn beta.
  change (CombinedDebugger.report (run true))
    with (CombinedDebugger.build_output (CombinedDebugger.final (run true))).
  change (CombinedDebugger.report (run false))
    with (CombinedDebugger.build_output (CombinedDebugger.final (run false))).
  destruct (combined_summary_counts (CombinedDebugger.final (run true)))
    as (_ & -> & -> & -> & _).
  destruct (combined_summary_counts (CombinedDebugger.final (run false)))
    as (_ & -> & -> & -> & _).
  repeat split; now apply of_types_non_console.
Qed.

(** ** Allowlists given on the command line *)

Lemma split_not_nil sep s : Cli.split sep s <> [].
Proof.
  destruct s as [|c s]; simpl; [discriminate|].
  destruct (Ascii.eqb c sep); [discriminate|].
  destruct (Cli.split sep s); discriminate.
Qed.

Lemma split_length sep s : length (Cli.split sep s) = S (Cli.count_char sep s).
Proof.
  induction s as [|c s IH]; simpl; [reflexivity|].
  destruct (Ascii.eqb c sep); simpl; [now rewrite IH|].
  destruct (Cli.split sep s) as [|piece rest] eqn:Hs; [now destruct (split_not_nil sep s)|].
  simpl in *. exact IH.
Qed.

(** The pieces of a split, joined again with the separator, give the
    string back. *)
Lemma split_join sep s :
  String.concat (String sep EmptyString) (Cli.split sep s) = s.
Proof.
  induction s as [|c s IH]; simpl; [reflexivity|].
  destruct (Ascii.eqb_spec c sep) as [->|Hne].
  - destruct (Cli.split sep s) as [|piece rest] eqn:Hs;
      [now destruct (split_not_nil sep s)|].
    simpl in *. now rewrite IH.
  - destruct (Cli.split sep s) as [|piece rest] eqn:Hs;
      [now destruct (split_not_nil sep s)|].
    destruct rest; simpl in *; now rewrite <- IH.
Qed.

(** An allowlist that comes from [--filter] is never the empty list: the
    option absent or empty gives no allowlist, and otherwise the list has
    one entry more than the option has commas.  So for an inspector built
    by [main] the filter accepts an event exactly when there is no
    allowlist or the allowlist holds its resource type up to case, and
    there is no pattern or the pattern is found in its URL. *)
Theorem command_line_allowlist_is_not_empty `{Runtime}
    (strip : string -> string) (args : Cli.Args) (url resource_type : string) :
  let self := Cli.network_inspector strip args in
  NetworkInspector.filter_types self <> Some []
  /\ (forall ts, NetworkInspector.filter_types self = Some ts ->
                 exists f, Cli.a_filter args = Some f
                           /\ length ts = S (Cli.count_char ","%char f))
  /\ (NetworkInspector.should_capture self url resource_type = true
      <-> (NetworkInspector.filter_types self = None
           \/ exists ts, NetworkInspector.filter_types self = Some ts
                         /\ In (str_lower resource_type) (List.map str_lower ts))
          /\ (NetworkInspector.url_pattern self = None
              \/ exists p, NetworkInspector.url_pattern self = Some p
                           /\ re_search p url = true)).
Proof.
  intros self.
  assert (Hft : NetworkInspector.filter_types self
                = Cli.filter_types_of_arg strip (Cli.a_filter args)) by reflexivity.
  assert (Hne : NetworkInspector.filter_types self <> Some []).
  { rewrite Hft. unfold Cli.filter_types_of_arg.
    destruct (Cli.a_filter args) as [[|c f]|]; try discriminate.
    intros [= Hmap]. apply List.map_eq_nil in Hmap.
    now apply (split_not_nil ","%char (String c f)). }
  split; [exact Hne|]. split.
  - intros ts Hts. rewrite Hft in Hts. unfold Cli.filter_types_of_arg in Hts.
    destruct (Cli.a_filter args) as [[|c f]|]; try discriminate.
    injection Hts as <-. exists (String c f). split; [reflexivity|].
    rewrite List.length_map. exact (split_length ","%char (String c f)).
  - assert (Hty : allowlist_admits (NetworkInspector.filter_types self) resource_type
                  <-> (NetworkInspector.filter_types self = None
                       \/ exists ts, NetworkInspector.filter_types self = Some ts
                                     /\ In (str_lower resource_type)
                                           (List.map str_lower ts))).
    { unfold allowlist_admits.
      destruct (NetworkInspector.filter_types self) as [ts|]; [|tauto]. split.
      - intros [->|Hin]; [now destruct Hne | right; eauto].
      - intros [Hnone|(ts' & [= <-] & Hin)]; [discriminate | now right]. }
    assert (Hurl : pattern_admits (NetworkInspector.url_pattern self) url
                   <-> (NetworkInspector.url_pattern self = None
                        \/ exists p, NetworkInspector.url_pattern self = Some p
                                     /\ re_search p url = true)).
    { unfold pattern_admits.
      destruct (NetworkInspector.url_pattern self) as [p|]; [|tauto]. split.
      - intros Hs. right. eauto.
      - intros [Hnone|(p' & [= <-] & Hs)]; [discriminate | exact Hs]. }
    rewrite should_capture_iff. tauto.
Qed.

(** The same for the combined debugger built by its [main]. *)
Lemma combined_command_line_allowlist (strip : string -> string)
    (filter url_pattern : option string) (errors_only : bool) :
  CombinedDebugger.filter_types (Cli.combined_debugger strip filter url_pattern errors_only)
  <> Some [].
Proof.
  change (Cli.filter_types_of_arg strip filter <> Some []).
  unfold Cli.filter_types_of_arg. destruct filter as [[|c f]|]; try discriminate.
  intros [= Hmap]. apply List.map_eq_nil in Hmap.
  now apply (split_not_nil ","%char (String c f)).
Qed.

(** ** The connection test of cdp_session.py *)



(** [enable_domains] stops at the first command that raises: the commands
    sent are those of the domains up to that one, the later domains are
    never enabled, and the exception is that of the failing command; it
    returns exactly when no command raises.  [disable_domains] sends the
    command of every domain and never raises. *)
Theorem enable_stops_disable_continues (attempts : list CdpSession.Attempt) :
  (forall sent,
      CdpSession.enable_domains attempts = (sent, None) ->
      Forall (fun a => snd a = None) attempts
      /\ sent = List.map (fun a => (fst a +:+ ".enable")%string) attempts)
  /\ (forall sent e,
         CdpSession.enable_domains attempts = (sent, Some e) ->
         exists before d after,
           attempts = (before ++ (d, Some e) :: after)%list
           /\ Forall (fun a => snd a = None) before
           /\ sent = List.map (fun a => (fst a +:+ ".enable")%string)
                       (before ++ [(d, Some e)]))
  /\ CdpSession.disable_domains attempts
     = (List.map (fun a => (fst a +:+ ".disable")%string) attempts, None).
Proof.
  induction attempts as [|[domain [e|]] rest (IHok & IHerr & IHdis)].
  - simpl. split; [|split].
    + intros sent [= <-]. split; [constructor | reflexivity].
    + intros sent e Hf. discriminate Hf.
    + reflexivity.
  - simpl. split; [intros sent Hf; discriminate Hf|]. split.
    + intros sent e' [= <- <-]. exists [], domain, rest.
      split; [reflexivity|]. split; [constructor | reflexivity].
    + now rewrite IHdis.
  - simpl. destruct (CdpSession.enable_domains rest) as [sent' raised'].
    split; [|split].
    + intros sent [= <- ->]. destruct (IHok sent' eq_refl) as [Hall ->].
      split; [now constructor | reflexivity].
    + intros sent e [= <- ->].
      destruct (IHerr sent' e eq_refl) as (before & d & after & -> & Hall & ->).
      exists ((domain, None) :: before), d, after.
      split; [reflexivity|]. split; [now constructor | reflexivity].
    + now rewrite IHdis.
Qed.

(** ** Every request is accounted for *)

Section Conservation.
Context `{Runtime}.

Import NetworkInspector.

Lemma size_delete_present (m : gmap string Request) (k : string) (r : Request) :
  m !! k = Some r -> size m = S (size (delete k m)).
Proof.
  intros Hk. rewrite <- (insert_delete_id m k r Hk) at 1.
  apply map_size_insert_None, lookup_delete_eq.
Qed.

(** A handler adds at most one held request, and only for a start. *)
Lemma handle_held_le self ev :
  (held (handle self ev) <= held self + length (start_ids [ev]))%nat.
Proof.
  unfold held. destruct ev as [p|p|p|p]; simpl.
  - unfold on_request_will_be_sent. destruct (negb _); simpl; [lia|].
    rewrite map_size_insert. destruct (requests self !! ws_requestId p); simpl; lia.
  - unfold on_response_received.
    destruct (requests self !! rr_requestId p) eqn:Hreq; simpl; [|lia].
    rewrite map_size_insert_Some by (eexists; exact Hreq). lia.
  - unfold on_loading_finished.
    destruct (requests self !! lf_requestId p) eqn:Hreq; simpl; [|lia].
    pose proof (size_delete_present _ _ _ Hreq) as Hsize.
    destruct (if negb (errors_only self) then _ else _) as [[|]|]; simpl.
    + rewrite List.length_app. simpl. lia.
    + lia.
    + rewrite map_size_insert_Some by (eexists; exact Hreq). lia.
  - unfold on_loading_failed.
    destruct (requests self !! fl_requestId p) eqn:Hreq; simpl; [|lia].
    pose proof (size_delete_present _ _ _ Hreq) as Hsize.
    rewrite List.length_app. simpl. lia.
Qed.

Lemma deliver_held_le evs self :
  (held (deliver evs self) <= held self + length (start_ids evs))%nat.
Proof.
  revert self. induction evs as [|ev evs IH]; intros self; [simpl; lia|].
  change (deliver (ev :: evs) self) with (deliver evs (handle self ev)).
  pose proof (IH (handle self ev)) as Hrest.
  pose proof (handle_held_le self ev) as Hstep.
  destruct ev; simpl in *; lia.
Qed.

(** Without filters and with [errors_only] off, a handler keeps every
    request: a start whose id is not pending adds one, nothing else
    changes the number held. *)
Lemma handle_held_eq self ev :
  filter_types self = None -> url_pattern self = None -> errors_only self = false ->
  (forall k, In k (start_ids [ev]) -> requests self !! k = None) ->
  held (handle self ev) = (held self + length (start_ids [ev]))%nat.
Proof.
  intros Hft Hup Heo Hfresh. unfold held. destruct ev as [p|p|p|p]; simpl.
  - unfold on_request_will_be_sent, should_capture. rewrite Hft, Hup. simpl.
    rewrite map_size_insert_None; [lia|]. apply Hfresh. now left.
  - unfold on_response_received.
    destruct (requests self !! rr_requestId p) eqn:Hreq; simpl; [|lia].
    rewrite map_size_insert_Some by (eexists; exact Hreq). lia.
  - unfold on_loading_finished.
    destruct (requests self !! lf_requestId p) eqn:Hreq; simpl; [|lia].
    pose proof (size_delete_present _ _ _ Hreq) as Hsize.
    rewrite Heo. simpl. rewrite List.length_app. simpl. lia.
  - unfold on_loading_failed.
    destruct (requests self !! fl_requestId p) eqn:Hreq; simpl; [|lia].
    pose proof (size_delete_present _ _ _ Hreq) as Hsize.
    rewrite List.length_app. simpl. lia.
Qed.

(** The pending ids after a handler were pending before or are the id of
    the start just handled. *)
Lemma handle_pending_ids self ev k :
  is_Some (requests (handle self ev) !! k) ->
  is_Some (requests self !! k) \/ In k (start_ids [ev]).
Proof.
  intros [r Hr].
  destruct (handle_requests self ev k r Hr)
    as [(req & Hreq & _)|(p & -> & -> & _)];
    [left; eexists; exact Hreq | right; now left].
Qed.

Lemma deliver_held_eq evs self :
  filter_types self = None -> url_pattern self = None -> errors_only self = false ->
  NoDup (start_ids evs) ->
  (forall k, In k (start_ids evs) -> requests self !! k = None) ->
  held (deliver evs self) = (held self + length (start_ids evs))%nat.
Proof.
  revert self. induction evs as [|ev evs IH]; intros self Hft Hup Heo Hnd Hfresh;
    [simpl; lia|].
  change (deliver (ev :: evs) self) with (deliver evs (handle self ev)).
  destruct (handle_config self ev) as (Hft' & Hup' & Heo').
  assert (Hsplit : start_ids (ev :: evs) = (start_ids [ev] ++ start_ids evs)%list)
    by (destruct ev; reflexivity).
  rewrite Hsplit in Hnd, Hfresh. rewrite Hsplit, List.length_app.
  apply NoDup_app in Hnd as (_ & Hdisj & Hnd).
  rewrite IH.
  - rewrite handle_held_eq; [lia | assumption | assumption | assumption |].
    intros k Hk. apply Hfresh, List.in_app_iff. now left.
  - congruence.
  - congruence.
  - congruence.
  - exact Hnd.
  - intros k Hk.
    destruct (requests (handle self ev) !! k) eqn:Hlook; [|reflexivity].
    exfalso.
    destruct (handle_pending_ids self ev k) as [[r0 Hr]|Hin];
      [eexists; exact Hlook | |].
    + rewrite Hfresh in Hr; [discriminate|]. apply List.in_app_iff. now right.
    + apply (Hdisj k); [apply list_elem_of_In; exact Hin | apply list_elem_of_In; exact Hk].
Qed.

End Conservation.

(** The inspector holds, completed or pending, at most one request per
    start event it was sent.  Without filters and with [errors_only] off
    it holds exactly one per start when the starts have pairwise distinct
    ids: every request is either pending or completed once, none is lost
    and none is reported twice. *)
Theorem every_request_is_pending_or_completed `{Runtime}
    (filter_types : option (list string)) (url_pattern : option string)
    (errors_only capture_bodies : bool) (max_body_size : Z)
    (evs : list NetworkInspector.CdpEvent) :
  let self := NetworkInspector.init filter_types url_pattern errors_only
                capture_bodies max_body_size in
  (held (NetworkInspector.deliver evs self) <= length (start_ids evs))%nat
  /\ (filter_types = None -> NetworkInspector.url_pattern self = None ->
      errors_only = false -> NoDup (start_ids evs) ->
      held (NetworkInspector.deliver evs self) = length (start_ids evs)).
Proof.
  intros self. split.
  - pose proof (deliver_held_le evs self) as Hle.
    assert (held self = 0%nat) by reflexivity. lia.
  - intros Hft Hup Heo Hnd.
    rewrite (deliver_held_eq evs self Hft Hup Heo Hnd); [reflexivity|].
    intros k _. apply lookup_empty.
Qed.

(** The mixed page has three starts with distinct ids: the three requests
    are held, here all completed. *)
Lemma every_request_is_pending_or_completed_witness :
  held (NetworkInspector.deliver mixed_traffic Sample.inspector) = 3%nat.
Proof.
  refine (proj2 (every_request_is_pending_or_completed None None false false 10240
                   mixed_traffic) eq_refl eq_refl eq_refl _).
  simpl. repeat constructor; rewrite ?list_elem_of_In; simpl;
    intuition discriminate.
Defined.

(** ** The console debugger reports every exception *)

Lemma console_deliver_counts evs dbg :
  length (ConsoleDebugger.exceptions (ConsoleDebugger.deliver evs dbg))
  = (length (ConsoleDebugger.exceptions dbg) + thrown evs)%nat
  /\ (length (ConsoleDebugger.messages (ConsoleDebugger.deliver evs dbg))
      <= length (ConsoleDebugger.messages dbg) + console_calls evs)%nat
  /\ (ConsoleDebugger.errors_only dbg = false ->
      length (ConsoleDebugger.messages (ConsoleDebugger.deliver evs dbg))
      = (length (ConsoleDebugger.messages dbg) + console_calls evs)%nat).
Proof.
  revert dbg. induction evs as [|ev evs IH]; intros dbg.
  - unfold thrown, console_calls. simpl. repeat split; lia.
  - change (ConsoleDebugger.deliver (ev :: evs) dbg)
      with (ConsoleDebugger.deliver evs (ConsoleDebugger.handle dbg ev)).
    destruct (IH (ConsoleDebugger.handle dbg ev)) as (He & Hm & Hmeq).
    rewrite console_handle_errors_only in Hmeq.
    unfold thrown, console_calls in *. destruct ev as [p|p]; simpl in *.
    + unfold ConsoleDebugger.on_console_api_called in *.
      destruct (ConsoleDebugger.errors_only dbg); simpl in *.
      * destruct (negb _); simpl in *; rewrite ?List.length_app in *; simpl in *;
          repeat split; try lia; discriminate.
      * rewrite ?List.length_app in *. simpl in *.
        repeat split; try lia; intros _; specialize (Hmeq eq_refl); lia.
    + rewrite ?List.length_app in *. simpl in *.
      repeat split; try lia; intros Heo; specialize (Hmeq Heo); lia.
Qed.

(** The console debugger never filters exceptions: [exceptions] in the
    summary is the number of exception events delivered, plus one when the
    navigation failed.  [messages] is at most the number of console calls
    delivered, and equal to it when [errors_only] is off. *)
Theorem console_reports_every_exception
    (errors_only with_stack_traces include_timestamps : bool)
    (url : string) (duration : Q) (wait_for_idle : bool) (env : ConsoleDebugger.Env) :
  let s := ConsoleDebugger.summary
             (ConsoleDebugger.report
                (ConsoleDebugger.capture
                   (ConsoleDebugger.init errors_only with_stack_traces include_timestamps)
                   url duration wait_for_idle env)) in
  let evs := console_delivered wait_for_idle env in
  ConsoleDebugger.n_exceptions s
  = (thrown evs
     + match ConsoleDebugger.goto_raises env with Some _ => 1 | None => 0 end)%nat
  /\ (ConsoleDebugger.n_messages s <= console_calls evs)%nat
  /\ (errors_only = false -> ConsoleDebugger.n_messages s = console_calls evs).
Proof.
  intros s evs. subst s evs.
  destruct (console_capture_final
              (ConsoleDebugger.init errors_only with_stack_traces include_timestamps)
              url duration wait_for_idle env) as [Hfinal ->].
  cbn [ConsoleDebugger.build_report ConsoleDebugger.summary
       ConsoleDebugger.n_exceptions ConsoleDebugger.n_messages].
  rewrite Hfinal.
  destruct (console_deliver_counts (console_delivered wait_for_idle env)
              (ConsoleDebugger.init errors_only with_stack_traces include_timestamps))
    as (He & Hm & Hmeq).
  simpl in He, Hm, Hmeq.
  destruct (ConsoleDebugger.goto_raises env); simpl;
    rewrite ?List.length_app; simpl; repeat split; try lia; auto.
Qed.

(** ** When the network report is built *)

Lemma error_count_is_Some (l : list NetworkInspector.Entry) :
  is_Some (NetworkInspector.error_count l) <-> Forall has_error_or_response l.
Proof.
  induction l as [|e l IH]; simpl.
  - split; [constructor | now eexists].
  - rewrite List.Forall_cons_iff, <- IH. clear IH.
    destruct e as [r|u t]; unfold NetworkInspector.is_error; simpl.
    + destruct (NetworkInspector.r_error r) as [err|] eqn:Herr.
      * destruct (NetworkInspector.error_count l) as [n|].
        -- split; [intros _|intros _; now eexists].
           split; [left; now eexists | now eexists].
        -- split; [intros [x Hx]; discriminate Hx | intros [_ [x Hx]]; discriminate Hx].
      * destruct (NetworkInspector.r_response r) as [resp|] eqn:Hresp.
        -- destruct (NetworkInspector.error_count l) as [n|].
           ++ split; [intros _|intros _; now eexists].
              split; [right; now eexists | now eexists].
           ++ split; [intros [x Hx]; discriminate Hx
                     | intros [_ [x Hx]]; discriminate Hx].
        -- split; [intros [x Hx]; discriminate Hx|].
           intros [[[x Hx]|[x Hx]] _]; discriminate Hx.
    + destruct (NetworkInspector.error_count l) as [n|].
      * split; [intros _; split; [exact I | now eexists] | intros _; now eexists].
      * split; [intros [x Hx]; discriminate Hx | intros [_ [x Hx]]; discriminate Hx].
Qed.

(** [capture] of the network inspector returns its report exactly
    when every completed request has an error or a response: line 220
    raises on a request dict whose ["error"] and ["response"] are both
    [None].  When the report is returned its [data] is the whole of
    [completed], in arrival order. *)
Theorem report_is_built_iff `{Runtime} (self : NetworkInspector.Inspector)
    (url : string) (duration : Q) (wait_for_idle : bool) (env : NetworkInspector.Env) :
  let o := NetworkInspector.capture self url duration wait_for_idle env in
  (is_Some (NetworkInspector.report o)
   <-> Forall has_error_or_response (NetworkInspector.completed (NetworkInspector.final o)))
  /\ (forall rep, NetworkInspector.report o = Some rep ->
                  NetworkInspector.data rep
                  = NetworkInspector.completed (NetworkInspector.final o)).
Proof.
  intros o.
  assert (Hrep : NetworkInspector.report o
                 = NetworkInspector.build_report (NetworkInspector.final o) url duration).
  { subst o. unfold NetworkInspector.capture.
    destruct (NetworkInspector.goto_raises env); [reflexivity|].
    now destruct wait_for_idle. }
  rewrite Hrep. unfold NetworkInspector.build_report. split.
  - rewrite <- error_count_is_Some.
    destruct (NetworkInspector.error_count _) as [n|].
    + split; intros _; now eexists.
    + split; intros [x Hx]; discriminate Hx.
  - intros rep.
    destruct (NetworkInspector.error_count _) as [n|]; [|discriminate].
    now intros [= <-].
Qed.

(** ** The order of the console report *)

Section Sorted_least.
Context {A : Type} (key : A -> Z).

(** Entries with one and the same key are left as they are. *)
Lemma sorted_constant_key (k : Z) (l : list A) :
  Forall (fun e => key e = k) l -> Py.sorted key l = l.
Proof.
  intros Hl. apply sorted_fixes_ascending. unfold ascending.
  induction Hl as [|x l Hx Hl IH]; constructor; [exact IH|].
  eapply List.Forall_impl; [|exact Hl]. simpl. intros; lia.
Qed.

(** A last element whose key is below every other key is moved to the
    front, and the others are sorted as without it. *)
Lemma sorted_least_last (x : A) (l : list A) :
  Forall (fun e => key x < key e) l ->
  Py.sorted key (l ++ [x]) = x :: Py.sorted key l.
Proof.
  induction 1 as [|y l Hy Hl IH]; simpl; [reflexivity|].
  rewrite IH. simpl.
  destruct (Z.leb_spec (key y) (key x)); [lia | reflexivity].
Qed.

End Sorted_least.

Lemma console_handle_include_timestamps dbg ev :
  ConsoleDebugger.include_timestamps (ConsoleDebugger.handle dbg ev)
  = ConsoleDebugger.include_timestamps dbg.
Proof.
  destruct ev as [p|p]; simpl; [|reflexivity].
  unfold ConsoleDebugger.on_console_api_called. now destruct (_ && _).
Qed.

(** The sort keys of the stored entries: each one is the key of an entry
    held before, or the reading of a delivered event when
    [include_timestamps] is on and 0 when it is off. *)
Lemma console_deliver_keys (K : Z -> Prop) evs dbg :
  Forall (fun ev => K (if ConsoleDebugger.include_timestamps dbg
                       then console_reading ev else 0)) evs ->
  Forall (fun e => K (ConsoleDebugger.timestamp_key e))
         (ConsoleDebugger.messages dbg ++ ConsoleDebugger.exceptions dbg) ->
  Forall (fun e => K (ConsoleDebugger.timestamp_key e))
         (ConsoleDebugger.messages (ConsoleDebugger.deliver evs dbg)
          ++ ConsoleDebugger.exceptions (ConsoleDebugger.deliver evs dbg)).
Proof.
  revert dbg. induction evs as [|ev evs IH]; intros dbg Hevs Hold; [exact Hold|].
  change (ConsoleDebugger.deliver (ev :: evs) dbg)
    with (ConsoleDebugger.deliver evs (ConsoleDebugger.handle dbg ev)).
  apply List.Forall_cons_iff in Hevs. destruct Hevs as [Hev Hevs].
  apply IH; [now rewrite console_handle_include_timestamps|].
  apply List.Forall_app in Hold. destruct Hold as [Hm He].
  destruct ev as [p|p]; simpl.
  - unfold ConsoleDebugger.on_console_api_called.
    destruct (_ && _); simpl; [now apply List.Forall_app|].
    apply List.Forall_app. split; [|exact He].
    apply List.Forall_app. split; [exact Hm|].
    constructor; [|constructor]. simpl in *.
    now destruct (ConsoleDebugger.include_timestamps dbg).
  - apply List.Forall_app. split; [exact Hm|].
    apply List.Forall_app. split; [exact He|].
    constructor; [|constructor]. simpl in *.
    now destruct (ConsoleDebugger.include_timestamps dbg).
Qed.

(** The console report is sorted on [x.get("timestamp", 0)], so an entry
    without timestamp has the key 0.  With [include_timestamps] off no entry
    has one and the stable sort moves nothing: [data] is all messages, then
    all exceptions, each in arrival order.  With it on, the navigation
    error, which never has a timestamp, is listed first, in front of the
    report of what was received before the navigation failed, as soon as
    the timestamps of those events are positive. *)
Theorem console_untimed_entries_come_first
    (errors_only with_stack_traces include_timestamps : bool)
    (url : string) (duration : Q) (wait_for_idle : bool) (env : ConsoleDebugger.Env) :
  let self := ConsoleDebugger.init errors_only with_stack_traces include_timestamps in
  let o := ConsoleDebugger.capture self url duration wait_for_idle env in
  (include_timestamps = false ->
   ConsoleDebugger.data (ConsoleDebugger.report o)
   = (ConsoleDebugger.messages (ConsoleDebugger.final o)
      ++ ConsoleDebugger.exceptions (ConsoleDebugger.final o))%list)
  /\ (include_timestamps = true ->
      Forall (fun ev => 0 < console_reading ev) (ConsoleDebugger.goto_events env) ->
      forall e, ConsoleDebugger.goto_raises env = Some e ->
        ConsoleDebugger.data (ConsoleDebugger.report o)
        = ConsoleDebugger.NavigationError ("Navigation failed: " +:+ e) e
          :: ConsoleDebugger.data
               (ConsoleDebugger.build_report
                  (ConsoleDebugger.deliver (ConsoleDebugger.goto_events env) self)
                  url duration)).
Proof.
  intros self o.
  destruct (console_capture_final self url duration wait_for_idle env) as [Hfin Hrep].
  fold o in Hfin, Hrep. rewrite Hrep. split.
  - intros ->. simpl. apply (sorted_constant_key _ 0).
    rewrite Hfin.
    assert (Hk : Forall (fun e => ConsoleDebugger.timestamp_key e = 0)
                   (ConsoleDebugger.messages
                      (ConsoleDebugger.deliver (console_delivered wait_for_idle env) self)
                    ++ ConsoleDebugger.exceptions
                         (ConsoleDebugger.deliver (console_delivered wait_for_idle env)
                            self))).
    { apply (console_deliver_keys (fun k => k = 0)); [|constructor].
      apply List.Forall_forall. intros ev _. reflexivity. }
    destruct (ConsoleDebugger.goto_raises env); [|exact Hk].
    simpl. rewrite List.app_assoc. apply List.Forall_app. split; [exact Hk|].
    now repeat constructor.
  - intros -> Hpos e He. rewrite Hfin. unfold console_delivered. rewrite He.
    rewrite List.app_nil_r. simpl. rewrite List.app_assoc.
    apply sorted_least_last. simpl.
    apply (console_deliver_keys (fun k => 0 < k)); [exact Hpos | constructor].
Qed.

(** ** Responses and failures of the combined debugger *)

Section Accepted_requests.
Context `{Runtime}.

Lemma combined_deliver_config evs self :
  CombinedDebugger.filter_types (CombinedDebugger.deliver evs self)
  = CombinedDebugger.filter_types self
  /\ CombinedDebugger.url_pattern (CombinedDebugger.deliver evs self)
     = CombinedDebugger.url_pattern self.
Proof.
  revert self. induction evs as [|ev evs IH]; intros self; [easy|].
  change (CombinedDebugger.deliver (ev :: evs) self)
    with (CombinedDebugger.deliver evs (CombinedDebugger.handle self ev)).
  destruct (IH (CombinedDebugger.handle self ev)) as [-> ->].
  apply combined_handle_config.
Qed.

(** [self.requests] of the combined debugger never loses a key: it holds
    the identities it held before and those of the accepted requests. *)
Lemma combined_handle_known self ev (id : Z) :
  is_Some (CombinedDebugger.requests (CombinedDebugger.handle self ev) !! id)
  <-> is_Some (CombinedDebugger.requests self !! id) \/ accepted_in self id [ev].
Proof.
  unfold accepted_in.
  destruct ev as [request now|response now|request now|msg now|error now]; simpl.
  - unfold CombinedDebugger.on_request.
    destruct (CombinedDebugger.should_capture_request self _ _) eqn:Hcap; simpl.
    + destruct (decide (CombinedDebugger.ident request = id)) as [Heq|Hne].
      * rewrite Heq, lookup_insert_eq. split; [intros _|intros _; now eexists].
        right. exists request, now. split; [now left|]. now split.
      * rewrite lookup_insert_ne by exact Hne. split; [now left|].
        intros [Hold|(q & n & [[= <- <-]|[]] & Hid & _)]; [exact Hold | contradiction].
    + split; [now left|].
      intros [Hold|(q & n & [[= <- <-]|[]] & _ & Hacc)]; [exact Hold | congruence].
  - unfold CombinedDebugger.on_response.
    destruct (CombinedDebugger.requests self !! _) as [d|] eqn:Hd; simpl.
    + destruct (decide (CombinedDebugger.ident (CombinedDebugger.p_request response) = id))
        as [Heq|Hne].
      * rewrite Heq, lookup_insert_eq. rewrite Heq in Hd. rewrite Hd.
        split; [intros _; left; now eexists | intros _; now eexists].
      * rewrite lookup_insert_ne by exact Hne. split; [now left|].
        intros [Hold|(q & n & [Hq|[]] & _)]; [exact Hold | discriminate Hq].
    + split; [now left|].
      intros [Hold|(q & n & [Hq|[]] & _)]; [exact Hold | discriminate Hq].
  - unfold CombinedDebugger.on_request_failed.
    destruct (CombinedDebugger.requests self !! _); simpl;
      (split; [now left|]);
      (intros [Hold|(q & n & [Hq|[]] & _)]; [exact Hold | discriminate Hq]).
  - unfold CombinedDebugger.on_console.
    destruct (_ && _); simpl;
      (split; [now left|]);
      (intros [Hold|(q & n & [Hq|[]] & _)]; [exact Hold | discriminate Hq]).
  - split; [now left|].
    intros [Hold|(q & n & [Hq|[]] & _)]; [exact Hold | discriminate Hq].
Qed.

Lemma accepted_in_config a b id evs :
  CombinedDebugger.filter_types a = CombinedDebugger.filter_types b ->
  CombinedDebugger.url_pattern a = CombinedDebugger.url_pattern b ->
  accepted_in a id evs <-> accepted_in b id evs.
Proof.
  intros Hft Hup. unfold accepted_in.
  split; intros (q & n & Hin & Hid & Hacc); exists q, n; (split; [exact Hin|]);
    (split; [exact Hid|]).
  - now rewrite <- (should_capture_request_config a b).
  - now rewrite (should_capture_request_config a b).
Qed.

Lemma accepted_in_cons self id ev evs :
  accepted_in self id (ev :: evs)
  <-> accepted_in self id [ev] \/ accepted_in self id evs.
Proof.
  unfold accepted_in. split.
  - intros (q & n & [Heq|Hin] & Hrest).
    + left. exists q, n. split; [now left | exact Hrest].
    + right. exists q, n. now split.
  - intros [(q & n & [Heq|[]] & Hrest)|(q & n & Hin & Hrest)]; exists q, n.
    + split; [now left | exact Hrest].
    + split; [now right | exact Hrest].
Qed.

Lemma combined_deliver_known evs self (id : Z) :
  is_Some (CombinedDebugger.requests (CombinedDebugger.deliver evs self) !! id)
  <-> is_Some (CombinedDebugger.requests self !! id) \/ accepted_in self id evs.
Proof.
  revert self. induction evs as [|ev evs IH]; intros self.
  - simpl. split; [now left|]. intros [Hold|(q & n & [] & _)]. exact Hold.
  - change (CombinedDebugger.deliver (ev :: evs) self)
      with (CombinedDebugger.deliver evs (CombinedDebugger.handle self ev)).
    destruct (combined_handle_config self ev) as [Hft Hup].
    pose proof (IH (CombinedDebugger.handle self ev)) as H1.
    pose proof (combined_handle_known self ev id) as H2.
    pose proof (accepted_in_cons self id ev evs) as H3.
    pose proof (accepted_in_config (CombinedDebugger.handle self ev) self id evs
                  Hft Hup) as H4.
    tauto.
Qed.

End Accepted_requests.

(** The request filter of the combined debugger also decides which
    responses and failures are recorded.  After any run of page events on a
    new debugger, [_on_response] and [_on_request_failed] record their event
    exactly when a request object with the same identity was passed to
    [_on_request] earlier in the run and passed the filter, however long
    ago and whatever happened to it since; otherwise they leave the object
    unchanged. *)
Theorem combined_response_needs_accepted_request `{Runtime}
    (filter_types : option (list string)) (url_pattern : option string)
    (errors_only capture_bodies : bool) (max_body_size : Z)
    (start : Z) (before : list CombinedDebugger.PageEvent) :
  let self := CombinedDebugger.set_start_time start
                (CombinedDebugger.init filter_types url_pattern errors_only
                   capture_bodies max_body_size) in
  let s := CombinedDebugger.deliver before self in
  (forall p now,
      let id := CombinedDebugger.ident (CombinedDebugger.p_request p) in
      (accepted_in self id before ->
       CombinedDebugger.events (CombinedDebugger.on_response p now s)
       = (CombinedDebugger.events s
          ++ [CombinedDebugger.Response (now - start) (CombinedDebugger.p_url p)
                (CombinedDebugger.p_status p)
                (CombinedDebugger.p_status p >=? 400)])%list)
      /\ (~ accepted_in self id before -> CombinedDebugger.on_response p now s = s))
  /\ (forall q now,
         (accepted_in self (CombinedDebugger.ident q) before ->
          CombinedDebugger.events (CombinedDebugger.on_request_failed q now s)
          = (CombinedDebugger.events s
             ++ [CombinedDebugger.RequestFailed (now - start) (CombinedDebugger.q_url q)
                   (CombinedDebugger.q_method q)])%list)
         /\ (~ accepted_in self (CombinedDebugger.ident q) before ->
             CombinedDebugger.on_request_failed q now s = s)).
Proof.
  intros self s.
  assert (Hknown : forall id,
             is_Some (CombinedDebugger.requests s !! id) <-> accepted_in self id before).
  { intros id. subst s. rewrite combined_deliver_known.
    split; [|now right]. intros [[d Hd]|Hacc]; [|exact Hacc].
    subst self. simpl in Hd. rewrite lookup_empty in Hd. discriminate Hd. }
  assert (Hstart : CombinedDebugger.start_time s = start).
  { subst s. now rewrite combined_deliver_start_time. }
  split.
  - intros p now id. subst id.
    unfold CombinedDebugger.on_response.
    destruct (CombinedDebugger.requests s !! _) as [d|] eqn:Hd.
    + split; [intros _; simpl; now rewrite Hstart|].
      intros Hno. exfalso. apply Hno, Hknown. rewrite Hd. now eexists.
    + split; [|reflexivity].
      intros Hacc. apply Hknown in Hacc. destruct Hacc as [d Hd'].
      rewrite Hd in Hd'. discriminate Hd'.
  - intros q now.
    unfold CombinedDebugger.on_request_failed.
    destruct (CombinedDebugger.requests s !! _) as [d|] eqn:Hd.
    + split; [intros _; simpl; now rewrite Hstart|].
      intros Hno. exfalso. apply Hno, Hknown. rewrite Hd. now eexists.
    + split; [|reflexivity].
      intros Hacc. apply Hknown in Hacc. destruct Hacc as [d Hd'].
      rewrite Hd in Hd'. discriminate Hd'.
Qed.

(** ** The severity filter, by level *)

(** The console debugger tests the type of a console call, the
    specification its level.  The two tests agree on every type but
    ["warn"], which the table of [_type_to_level] lists and the protocol
    does not send: [Runtime.consoleAPICalled] reports [console.warn] with
    the type ["warning"]. *)
Lemma level_admitted_iff_type (msg_type : string) :
  msg_type <> "warn"%string ->
  Py.str_in (ConsoleDebugger.type_to_level msg_type) ["error"; "warning"]%string
  = Py.str_in msg_type ["error"; "warning"; "assert"]%string.
Proof.
  intros Hw.
  unfold ConsoleDebugger.type_to_level, ConsoleDebugger.mapping, Py.str_in.
  cbn [ConsoleDebugger.dict_get existsb].
  repeat match goal with
         | |- context [String.eqb msg_type ?s] =>
             destruct (String.eqb_spec msg_type s) as [->|?]
         end; try reflexivity; congruence.
Qed.

Lemma console_deliver_admitted evs dbg :
  (forall p, In (ConsoleDebugger.ConsoleCall p) evs ->
             default "log"%string (ConsoleDebugger.ca_type p) <> "warn"%string) ->
  length (ConsoleDebugger.messages (ConsoleDebugger.deliver evs dbg))
  = (length (ConsoleDebugger.messages dbg)
     + admitted_calls (ConsoleDebugger.errors_only dbg) evs)%nat.
Proof.
  revert dbg. induction evs as [|ev evs IH]; intros dbg Hevs.
  - unfold admitted_calls. simpl. lia.
  - change (ConsoleDebugger.deliver (ev :: evs) dbg)
      with (ConsoleDebugger.deliver evs (ConsoleDebugger.handle dbg ev)).
    rewrite IH by (intros p Hp; apply Hevs; now right).
    rewrite console_handle_errors_only.
    destruct ev as [p|p]; unfold admitted_calls; cbn [List.filter ConsoleDebugger.handle].
    + assert (Hadm : severity_admits (ConsoleDebugger.errors_only dbg)
                       (ConsoleDebugger.type_to_level
                          (default "log"%string (ConsoleDebugger.ca_type p)))
                     = negb (ConsoleDebugger.errors_only dbg)
                       || Py.str_in (default "log"%string (ConsoleDebugger.ca_type p))
                            ["error"; "warning"; "assert"]%string).
      { unfold severity_admits.
        now rewrite (level_admitted_iff_type _ (Hevs p (or_introl eq_refl))). }
      rewrite Hadm.
      unfold ConsoleDebugger.on_console_api_called.
      destruct (ConsoleDebugger.errors_only dbg);
        destruct (Py.str_in (default "log"%string (ConsoleDebugger.ca_type p))
                    ["error"; "warning"; "assert"]%string);
        cbn [negb andb orb ConsoleDebugger.messages length];
        rewrite ?List.length_app; cbn [length]; lia.
    + cbn [ConsoleDebugger.on_exception_thrown ConsoleDebugger.append_exception
           ConsoleDebugger.messages]. lia.
Qed.

Lemma combined_handle_errors_only `{Runtime} self ev :
  CombinedDebugger.errors_only (CombinedDebugger.handle self ev)
  = CombinedDebugger.errors_only self.
Proof.
  destruct ev; simpl.
  - unfold CombinedDebugger.on_request. now destruct (negb _).
  - unfold CombinedDebugger.on_response.
    now destruct (CombinedDebugger.requests self !! _).
  - unfold CombinedDebugger.on_request_failed.
    now destruct (CombinedDebugger.requests self !! _).
  - unfold CombinedDebugger.on_console. now destruct (_ && _).
  - reflexivity.
Qed.

Lemma combined_deliver_errors_only `{Runtime} evs self :
  CombinedDebugger.errors_only (CombinedDebugger.deliver evs self)
  = CombinedDebugger.errors_only self.
Proof.
  revert self. induction evs as [|ev evs IH]; intros self; simpl; [reflexivity|].
  now rewrite IH, combined_handle_errors_only.
Qed.

(** The console events the combined debugger holds after a run of page
    events are those it held and the admitted ones of the run. *)
Lemma combined_deliver_admitted `{Runtime} evs self :
  of_types ["console"]%string
    (CombinedDebugger.events (CombinedDebugger.deliver evs self))
  = (of_types ["console"]%string (CombinedDebugger.events self)
     + admitted_console (CombinedDebugger.errors_only self) evs)%nat.
Proof.
  revert self. induction evs as [|ev evs IH]; intros self.
  - unfold admitted_console. simpl. lia.
  - change (CombinedDebugger.deliver (ev :: evs) self)
      with (CombinedDebugger.deliver evs (CombinedDebugger.handle self ev)).
    rewrite IH, combined_handle_errors_only.
    destruct ev as [request now|response now|request now|msg now|error now];
      unfold admitted_console; cbn [List.filter CombinedDebugger.handle].
    + unfold CombinedDebugger.on_request. destruct (negb _); simpl; [lia|].
      rewrite of_types_app. unfold of_types. simpl. lia.
    + unfold CombinedDebugger.on_response.
      destruct (CombinedDebugger.requests self !! _); simpl; [|lia].
      rewrite of_types_app. unfold of_types. simpl. lia.
    + unfold CombinedDebugger.on_request_failed.
      destruct (CombinedDebugger.requests self !! _); simpl; [|lia].
      rewrite of_types_app. unfold of_types. simpl. lia.
    + unfold CombinedDebugger.on_console, severity_admits.
      destruct (CombinedDebugger.errors_only self);
        destruct (Py.str_in (CombinedDebugger.msg_type msg) ["error"; "warning"]%string);
        cbn [negb andb orb length CombinedDebugger.events CombinedDebugger.append_event];
        rewrite ?of_types_app; unfold of_types; simpl; lia.
    + unfold CombinedDebugger.on_page_error.
      cbn [CombinedDebugger.events CombinedDebugger.append_event].
      rewrite of_types_app. unfold of_types. simpl. lia.
Qed.

Lemma admitted_console_app errors_only evs evs' :
  admitted_console errors_only (evs ++ evs')
  = (admitted_console errors_only evs + admitted_console errors_only evs')%nat.
Proof. unfold admitted_console. now rewrite List.filter_app, List.length_app. Qed.

(** C6.  The severity filter of both tools is the one of the
    specification, read on the level of the stored entry.  A console call
    whose type is not ["warn"] (the protocol reports [console.warn] as
    ["warning"]) is stored by the console debugger, with the level its type
    maps to, exactly when errors-only is off or that level is ["error"] or
    ["warning"], and is otherwise dropped with the object unchanged; an
    exception is always stored and has the level ["error"].  The combined
    debugger stores a console message, whose level is its type, under the
    same condition, and always stores a page error.  A message of type
    ["log"] is not admitted in errors-only mode.  Over a whole capture the
    summary counts exactly the admitted console messages. *)
Theorem severity_filter_accepts_iff `{Runtime} :
  (forall (dbg : ConsoleDebugger.Debugger) (p : ConsoleDebugger.ConsoleAPICalled),
      let msg_type := default "log"%string (ConsoleDebugger.ca_type p) in
      let level := ConsoleDebugger.type_to_level msg_type in
      let after := ConsoleDebugger.on_console_api_called p dbg in
      msg_type <> "warn"%string ->
      (severity_admits (ConsoleDebugger.errors_only dbg) level = true ->
       exists m,
         ConsoleDebugger.messages after = (ConsoleDebugger.messages dbg ++ [m])%list
         /\ ConsoleDebugger.level_of m = level
         /\ ConsoleDebugger.exceptions after = ConsoleDebugger.exceptions dbg)
      /\ (severity_admits (ConsoleDebugger.errors_only dbg) level = false ->
          after = dbg))
  /\ (forall (dbg : ConsoleDebugger.Debugger) (p : ConsoleDebugger.ExceptionThrown),
         let after := ConsoleDebugger.on_exception_thrown p dbg in
         severity_admits (ConsoleDebugger.errors_only dbg) "error" = true
         /\ ConsoleDebugger.messages after = ConsoleDebugger.messages dbg
         /\ exists e,
              ConsoleDebugger.exceptions after
              = (ConsoleDebugger.exceptions dbg ++ [e])%list
              /\ ConsoleDebugger.level_of e = "error"%string)
  /\ (forall (self : CombinedDebugger.Debugger) (msg : CombinedDebugger.ConsoleMsg)
             (now : Z),
         let level := CombinedDebugger.msg_type msg in
         let after := CombinedDebugger.on_console msg now self in
         (severity_admits (CombinedDebugger.errors_only self) level = true ->
          CombinedDebugger.events after
          = (CombinedDebugger.events self
             ++ [CombinedDebugger.Console (now - CombinedDebugger.start_time self)
                   level (CombinedDebugger.msg_text msg)])%list)
         /\ (severity_admits (CombinedDebugger.errors_only self) level = false ->
             after = self))
  /\ (forall (self : CombinedDebugger.Debugger) (error : string) (now : Z),
         CombinedDebugger.events (CombinedDebugger.on_page_error error now self)
         = (CombinedDebugger.events self
            ++ [CombinedDebugger.PageError (now - CombinedDebugger.start_time self)
                  error])%list)
  /\ (severity_admits true (ConsoleDebugger.type_to_level "log") = false
      /\ severity_admits true "log" = false)
  /\ (forall errors_only with_stack_traces include_timestamps url duration
             wait_for_idle env,
         (forall p, In (ConsoleDebugger.ConsoleCall p)
                       (console_delivered wait_for_idle env) ->
                    default "log"%string (ConsoleDebugger.ca_type p) <> "warn"%string) ->
         ConsoleDebugger.n_messages
           (ConsoleDebugger.summary
              (ConsoleDebugger.report
                 (ConsoleDebugger.capture
                    (ConsoleDebugger.init errors_only with_stack_traces
                       include_timestamps) url duration wait_for_idle env)))
         = admitted_calls errors_only (console_delivered wait_for_idle env))
  /\ (forall filter_types url_pattern errors_only capture_bodies max_body_size
             url duration env,
         CombinedDebugger.console_messages
           (CombinedDebugger.summary
              (CombinedDebugger.report
                 (CombinedDebugger.capture
                    (CombinedDebugger.init filter_types url_pattern errors_only
                       capture_bodies max_body_size) url duration env)))
         = admitted_console errors_only (page_delivered env)).
Proof.
  split; [|split; [|split; [|split; [|split; [|split]]]]].
  - intros dbg p msg_type level after Hw. subst level after.
    unfold severity_admits. rewrite (level_admitted_iff_type msg_type Hw).
    subst msg_type. unfold ConsoleDebugger.on_console_api_called.
    destruct (ConsoleDebugger.errors_only dbg);
      destruct (Py.str_in (default "log"%string (ConsoleDebugger.ca_type p))
                  ["error"; "warning"; "assert"]%string);
      cbn [negb andb orb]; split; intros Ha; try discriminate Ha;
      try reflexivity; eexists; repeat split.
  - intros dbg p after. subst after. split; [|split].
    + unfold severity_admits. now destruct (ConsoleDebugger.errors_only dbg).
    + reflexivity.
    + eexists. split; reflexivity.
  - intros self msg now level after. subst level after.
    unfold severity_admits, CombinedDebugger.on_console.
    destruct (CombinedDebugger.errors_only self);
      destruct (Py.str_in (CombinedDebugger.msg_type msg) ["error"; "warning"]%string);
      cbn [negb andb orb]; split; intros Ha; try discriminate Ha; reflexivity.
  - reflexivity.
  - split; reflexivity.
  - intros eo st ts url duration wait_for_idle env Hevs.
    destruct (console_capture_final (ConsoleDebugger.init eo st ts) url duration
                wait_for_idle env) as [Hfin Hrep].
    rewrite Hrep. cbn [ConsoleDebugger.build_report ConsoleDebugger.summary
                        ConsoleDebugger.n_messages].
    rewrite Hfin.
    pose proof (console_deliver_admitted (console_delivered wait_for_idle env)
                  (ConsoleDebugger.init eo st ts) Hevs) as Hcount.
    destruct (ConsoleDebugger.goto_raises env); exact Hcount.
  - intros ft up eo cb mbs url duration env.
    unfold CombinedDebugger.capture. cbn [CombinedDebugger.report].
    destruct (combined_summary_counts
                (CombinedDebugger.deliver (CombinedDebugger.sleep_events env)
                   match CombinedDebugger.goto_raises env with
                   | Some (e, now) =>
                       CombinedDebugger.append_event
                         (CombinedDebugger.NavigationError
                            (CombinedDebugger.get_timestamp_offset
                               (CombinedDebugger.deliver (CombinedDebugger.goto_events env)
                                  (CombinedDebugger.set_start_time
                                     (CombinedDebugger.clock_start env)
                                     (CombinedDebugger.init ft up eo cb mbs)))
                               (Some now)) e)
                         (CombinedDebugger.deliver (CombinedDebugger.goto_events env)
                            (CombinedDebugger.set_start_time
                               (CombinedDebugger.clock_start env)
                               (CombinedDebugger.init ft up eo cb mbs)))
                   | None =>
                       CombinedDebugger.deliver (CombinedDebugger.goto_events env)
                         (CombinedDebugger.set_start_time
                            (CombinedDebugger.clock_start env)
                            (CombinedDebugger.init ft up eo cb mbs))
                   end)) as (_ & _ & _ & _ & Hcon).
    rewrite Hcon, combined_deliver_admitted.
    unfold page_delivered. rewrite admitted_console_app.
    pose proof (combined_deliver_admitted (CombinedDebugger.goto_events env)
                  (CombinedDebugger.set_start_time (CombinedDebugger.clock_start env)
                     (CombinedDebugger.init ft up eo cb mbs))) as Hgoto.
    pose proof (combined_deliver_errors_only (CombinedDebugger.goto_events env)
                  (CombinedDebugger.set_start_time (CombinedDebugger.clock_start env)
                     (CombinedDebugger.init ft up eo cb mbs))) as Heo.
    cbn [CombinedDebugger.errors_only CombinedDebugger.set_start_time
         CombinedDebugger.init CombinedDebugger.events] in Hgoto, Heo.
    destruct (CombinedDebugger.goto_raises env) as [[e now]|].
    + cbn [CombinedDebugger.append_event CombinedDebugger.events
           CombinedDebugger.errors_only].
      rewrite of_types_app, Hgoto, Heo. unfold of_types. simpl. lia.
    + rewrite Hgoto, Heo. unfold of_types. simpl. lia.
Qed.

(** C6 on an errors-only console debugger: a message of type ["log"] is
    dropped, a warning is stored. *)
Lemma severity_filter_accepts_iff_witness :
  ConsoleDebugger.on_console_api_called (Sample_pages.console_call "log")
    Sample_pages.errors_only_console
  = Sample_pages.errors_only_console
  /\ exists m,
       ConsoleDebugger.messages
         (ConsoleDebugger.on_console_api_called (Sample_pages.console_call "warning")
            Sample_pages.errors_only_console)
       = [m]
       /\ ConsoleDebugger.level_of m = "warning"%string.
Proof.
  destruct severity_filter_accepts_iff as [Hcall _].
  split.
  - destruct (Hcall Sample_pages.errors_only_console (Sample_pages.console_call "log")
                ltac:(discriminate)) as [_ Hdrop].
    apply Hdrop. reflexivity.
  - destruct (Hcall Sample_pages.errors_only_console
                (Sample_pages.console_call "warning") ltac:(discriminate))
      as [Hkeep _].
    destruct (Hkeep eq_refl) as (m & Hm & Hl & _).
    exists m. split; [exact Hm | exact Hl].
Defined.

(** ** A report that is not built *)

Lemma network_deliver_appends `{Runtime} evs self :
  NetworkInspector.completed self
    `prefix_of` NetworkInspector.completed (NetworkInspector.deliver evs self).
Proof.
  revert self. induction evs as [|ev evs IH]; intros self; [reflexivity|].
  change (NetworkInspector.deliver (ev :: evs) self)
    with (NetworkInspector.deliver evs (NetworkInspector.handle self ev)).
  etransitivity; [apply network_handle_appends | apply IH].
Qed.

Lemma error_count_undefined (l : list NetworkInspector.Entry) r :
  In (NetworkInspector.RequestEntry r) l ->
  NetworkInspector.r_error r = None -> NetworkInspector.r_response r = None ->
  NetworkInspector.error_count l = None.
Proof.
  intros Hin Herr Hresp.
  destruct (NetworkInspector.error_count l) as [n|] eqn:Hn; [|reflexivity].
  assert (Hsome : is_Some (NetworkInspector.error_count l))
    by (rewrite Hn; now eexists).
  apply error_count_is_Some in Hsome.
  rewrite List.Forall_forall in Hsome. specialize (Hsome _ Hin). simpl in Hsome.
  rewrite Herr, Hresp in Hsome.
  destruct Hsome as [[x Hx]|[x Hx]]; discriminate Hx.
Qed.

(** With [errors_only] off, whenever a loading-finished event reaches a
    pending request that has no response and no error, the request is
    appended to [completed] with neither, and whatever else the capture
    receives, line 220 raises on that item: [capture] returns no report,
    whether the navigation failed or not. *)
Theorem finished_without_response_breaks_report `{Runtime}
    (self : NetworkInspector.Inspector) (url : string) (duration : Q)
    (wait_for_idle : bool) (env : NetworkInspector.Env)
    (before after : list NetworkInspector.CdpEvent)
    (p : NetworkInspector.Finished) (req : NetworkInspector.Request) :
  NetworkInspector.errors_only self = false ->
  delivered wait_for_idle env
  = (before ++ NetworkInspector.LoadingFinished p :: after)%list ->
  NetworkInspector.requests (NetworkInspector.deliver before self)
    !! NetworkInspector.lf_requestId p = Some req ->
  NetworkInspector.r_error req = None ->
  NetworkInspector.r_response req = None ->
  let o := NetworkInspector.capture self url duration wait_for_idle env in
  (exists r,
      In (NetworkInspector.RequestEntry r)
         (NetworkInspector.completed (NetworkInspector.final o))
      /\ NetworkInspector.r_id r = NetworkInspector.r_id req
      /\ NetworkInspector.r_completed r = Some true
      /\ NetworkInspector.r_error r = None
      /\ NetworkInspector.r_response r = None)
  /\ NetworkInspector.report o = None.
Proof.
  intros Heo Hevs Hreq Herr Hresp o.
  set (s := NetworkInspector.deliver before self).
  assert (Heo' : NetworkInspector.errors_only s = false).
  { subst s. destruct (deliver_config before self) as (_ & _ & ->). exact Heo. }
  assert (Hstep : exists r,
             NetworkInspector.completed
               (NetworkInspector.handle s (NetworkInspector.LoadingFinished p))
             = (NetworkInspector.completed s ++ [NetworkInspector.RequestEntry r])%list
             /\ NetworkInspector.r_id r = NetworkInspector.r_id req
             /\ NetworkInspector.r_completed r = Some true
             /\ NetworkInspector.r_error r = None
             /\ NetworkInspector.r_response r = None).
  { cbn [NetworkInspector.handle]. unfold NetworkInspector.on_loading_finished.
    fold s in Hreq. rewrite Hreq, Heo'. cbn [negb].
    eexists. split; [reflexivity|].
    destruct (NetworkInspector.capture_bodies s); [destruct (NetworkInspector.lf_fetch p)|];
      cbn; repeat split; assumption. }
  destruct Hstep as (r & Hc & Hid & Hdone & Herr' & Hresp').
  assert (Hin : In (NetworkInspector.RequestEntry r)
                   (NetworkInspector.completed (NetworkInspector.final o))).
  { subst o. rewrite capture_final, Hevs, deliver_app.
    change (NetworkInspector.deliver (NetworkInspector.LoadingFinished p :: after)
              (NetworkInspector.deliver before self))
      with (NetworkInspector.deliver after
              (NetworkInspector.handle s (NetworkInspector.LoadingFinished p))).
    destruct (network_deliver_appends after
                (NetworkInspector.handle s (NetworkInspector.LoadingFinished p)))
      as [more Hmore].
    rewrite Hc in Hmore.
    destruct (NetworkInspector.goto_raises env); cbn zeta;
      cbn [NetworkInspector.completed NetworkInspector.set_completed_list];
      rewrite Hmore, !List.in_app_iff; simpl; tauto. }
  split; [exists r; now repeat split|].
  subst o. rewrite capture_report. unfold NetworkInspector.build_report.
  now rewrite (error_count_undefined _ r Hin Herr' Hresp').
Qed.

(** On a page whose only request is started and finished without a
    response event: one item is completed and no report is returned. *)
Lemma finished_without_response_breaks_report_witness :
  let env :=
    {| NetworkInspector.goto_events :=
         [NetworkInspector.RequestWillBeSent
            (Sample.will_be_sent "1" "http://localhost:3000/api/items" "XHR");
          NetworkInspector.LoadingFinished
            (Sample.finished "1" NetworkInspector.FetchRaises)];
       NetworkInspector.goto_raises := None;
       NetworkInspector.idle_events := [];
       NetworkInspector.sleep_events := [] |} in
  NetworkInspector.report
    (NetworkInspector.capture Sample.inspector "http://localhost:3000" 10%Q true env)
  = None.
Proof.
  intros env.
  assert (Hreq : exists req,
             NetworkInspector.requests
               (NetworkInspector.deliver
                  [NetworkInspector.RequestWillBeSent
                     (Sample.will_be_sent "1" "http://localhost:3000/api/items" "XHR")]
                  Sample.inspector) !! "1"%string = Some req
             /\ NetworkInspector.r_error req = None
             /\ NetworkInspector.r_response req = None).
  { vm_compute. eexists. repeat split. }
  destruct Hreq as (req & Hreq & Herr & Hresp).
  exact (proj2 (finished_without_response_breaks_report
                  Sample.inspector "http://localhost:3000" 10%Q true env
                  [NetworkInspector.RequestWillBeSent
                     (Sample.will_be_sent "1" "http://localhost:3000/api/items" "XHR")]
                  []
                  (Sample.finished "1" NetworkInspector.FetchRaises) req
                  eq_refl eq_refl Hreq Herr Hresp)).
Defined.
